(** * The operator's gatekeeping layer: lifecycle coordinator and
      installation validator

    A shallow embedding of two pieces of the operator:

    - the termination watcher goroutine and [verifyConfiguration] of the
      operator's [main] package (src/unnamed/part_000), and
    - [validateCustomResource] with its helpers
      [validateNodeAddressDetection], [validateHostPorts] and
      [validateExclusiveInitContainers] of package [installation]
      (the second Go file held in
      src/pkg/controller/authentication/authentication_controller_test.go).

    Go code that reads or writes objects behind pointers, the wall clock,
    the logger or the cluster is written in a state monad over an explicit
    state; [error] values keep the format string and the arguments handed
    to [fmt.Errorf]. *)

From Stdlib Require Import Ascii String DecimalString.
From stdpp Require Import base numbers option list strings gmap.

Set Default Proof Using "Type".

(** ** A state monad *)

Definition St (S A : Type) : Type := S -> A * S.

Definition ret {S A} (a : A) : St S A := fun s => (a, s).

Definition bind {S A B} (m : St S A) (k : A -> St S B) : St S B :=
  fun s => let (a, s') := m s in k a s'.

Definition reads {S A} (f : S -> A) : St S A := fun s => (f s, s).

Definition modify {S} (f : S -> S) : St S unit := fun s => (tt, f s).

Declare Scope st_scope.
Delimit Scope st_scope with st.
Notation "x <- m ;; k" := (bind m (fun x => k))
  (at level 20, m at level 99, k at level 200, only parsing) : st_scope.
Notation "m ;; k" := (bind m (fun _ => k))
  (at level 100, k at level 200, right associativity, only parsing) : st_scope.
Local Open Scope st_scope.

(** ** Go [error] values

    An error built by [fmt.Errorf] keeps its format string and its
    arguments; [errors.Join] keeps the joined errors. *)

(** [appsv1.RollingUpdateDaemonSet], which one message prints. *)
Record RollingUpdateDaemonSet : Type :=
  { MaxUnavailable : option string; MaxSurge : option string }.

Unset Elimination Schemes.
Inductive error : Type :=
| Errorf (format : string) (args : list arg)
| Join (errs : list error)
with arg : Type :=
| AStr (s : string)                                   (* a string-typed value *)
| AErr (e : error)                                    (* an error, by %v or %w *)
| AHostPortsPtr (pointee : string)                    (* a *HostPortsType *)
| ARollingUpdatePtr (r : option RollingUpdateDaemonSet). (* a *RollingUpdateDaemonSet *)
Set Elimination Schemes.

(** ** Lifecycle coordinator (package main) *)

Module Lifecycle.

(** [time.Duration] counts nanoseconds; instants are nanoseconds on the
    process's monotonic clock. *)
Definition Duration : Type := N.
Definition Second : Duration := 1000000000%N.

(** What one [client.Get] of the Installation comes back with: the object
    (of which the watcher reads only [DeletionTimestamp]), a NotFound
    error, or any other error. *)
Inductive GetResult : Type :=
| Found (deletionTimestamp : option N)
| NotFound
| Failed (msg : string).

(** The cluster as the watcher sees it: the reply to the [k]-th query,
    issued at instant [t], and how long the query takes. *)
Record Reply : Type := { result : GetResult; latency : Duration }.
Definition Cluster : Type := nat -> N -> Reply.

Inductive Level : Type := LInfo | LWarning | LError.
Record LogLine : Type :=
  { level : Level; format : string; args : list string }.

(** [operatortigeraiov1.Installation], as far as the watcher looks. *)
Record Installation : Type := { DeletionTimestamp : option N }.

(** The goroutine's world: the clock, the queries issued so far (the
    instants, newest first), the calls of [time.Sleep] so far (the
    durations, newest first), the log (newest first), the local
    [instance] object that [client.Get] fills in, and whether [cancel]
    has run. *)
Record Proc : Type :=
  { now : N;
    queries : list N;
    sleeps : list Duration;
    log : list LogLine;
    instance : Installation;
    cancelled : bool }.

Definition start (t0 : N) : Proc :=
  {| now := t0; queries := []; sleeps := []; log := [];
     instance := {| DeletionTimestamp := None |}; cancelled := false |}.

(** The [err] of [client.Get]. *)
Inductive GetErr : Type := ErrNil | ErrNotFound | ErrOther (msg : string).

Definition IsNotFound (e : GetErr) : bool :=
  match e with ErrNotFound => true | _ => false end.

Section Watcher.
Variable cluster : Cluster.

(** [client.Get(ctx, utils.DefaultInstanceKey, instance)]: on success the
    object is decoded into [instance]. *)
Definition clientGet : St Proc GetErr := fun p =>
  let r := cluster (length (queries p)) (now p) in
  let p' := {| now := (now p + latency r)%N;
               queries := now p :: queries p;
               sleeps := sleeps p;
               log := log p;
               instance := match result r with
                           | Found d => {| DeletionTimestamp := d |}
                           | _ => instance p
                           end;
               cancelled := cancelled p |} in
  (match result r with
   | Found _ => ErrNil
   | NotFound => ErrNotFound
   | Failed m => ErrOther m
   end, p').

Definition sleep (d : Duration) : St Proc unit :=
  modify (fun p => {| now := (now p + d)%N; queries := queries p;
                      sleeps := d :: sleeps p;
                      log := log p; instance := instance p;
                      cancelled := cancelled p |}).

Definition logf (l : Level) (f : string) (a : list string) : St Proc unit :=
  modify (fun p => {| now := now p; queries := queries p;
                      sleeps := sleeps p;
                      log := {| level := l; format := f; args := a |} :: log p;
                      instance := instance p; cancelled := cancelled p |}).

Definition cancel : St Proc unit :=
  modify (fun p => {| now := now p; queries := queries p;
                      sleeps := sleeps p; log := log p;
                      instance := instance p; cancelled := true |}).

(** The [return] statement through which the goroutine leaves. *)
Inductive Exit : Type :=
| NoInstallation      (* first loop: NotFound *)
| TooManyRetries      (* first loop: retries >= 5 *)
| NotTerminating      (* DeletionTimestamp == nil *)
| GracefulComplete    (* second loop: NotFound *)
| TimedOut.           (* second loop: <-timeout *)

(** First loop. [None] as the outer result means the fuel ran out;
    [Some None] is the [break]. *)
Fixpoint queryLoop (fuel : nat) (retries : nat)
  : St Proc (option (option Exit)) :=
  match fuel with
  | O => ret None
  | S fuel' =>
      err <- clientGet ;;
      if IsNotFound err then ret (Some (Some NoInstallation))
      else match err with
           | ErrOther m =>
               if (5 <=? retries)%nat then
                 logf LError "Too many retries, exiting with error: %s" [m] ;;
                 ret (Some (Some TooManyRetries))
               else
                 logf LError "Error querying Installation, will retry: %s" [m] ;;
                 sleep (1 * Second)%N ;;
                 queryLoop fuel' (S retries)
           | _ => ret (Some None)
           end
  end.

(** Second loop; [deadline] is the instant at which the channel of
    [time.After(to)] becomes ready. *)
Fixpoint waitLoop (fuel : nat) (deadline : N) : St Proc (option Exit) :=
  match fuel with
  | O => ret None
  | S fuel' =>
      t <- reads now ;;
      if (deadline <=? t)%N then
        logf LWarning "Timed out waiting for graceful shutdown to complete" [] ;;
        ret (Some TimedOut)
      else
        err <- clientGet ;;
        if IsNotFound err then
          logf LInfo "Graceful termination complete" [] ;;
          ret (Some GracefulComplete)
        else
          match err with
          | ErrOther m => logf LError "Error querying Installation: %s" [m]
          | _ => ret tt
          end ;;
          sleep (1 * Second)%N ;;
          waitLoop fuel' deadline
  end.

Definition to : Duration := (60 * Second)%N.

(** The body of the goroutine after [<-sigHandler.Done()]. *)
Definition watcherBody (fuel1 fuel2 : nat) : St Proc (option Exit) :=
  r <- queryLoop fuel1 0 ;;
  match r with
  | None => ret None
  | Some (Some e) => ret (Some e)
  | Some None =>
      i <- reads instance ;;
      match DeletionTimestamp i with
      | None => ret (Some NotTerminating)
      | Some _ =>
          logf LInfo "Waiting up to %s for graceful termination to complete" ["1m0s"] ;;
          t <- reads now ;;
          waitLoop fuel2 (t + to)%N
      end
  end.

(** The goroutine: [defer cancel()] runs on every way out. *)
Definition terminationWatcher (fuel1 fuel2 : nat) : St Proc (option Exit) :=
  e <- watcherBody fuel1 fuel2 ;;
  cancel ;;
  ret e.

End Watcher.

(** The instants of the queries issued between two states of one run,
    oldest first. *)
Definition pollsOf (p1 p2 : Proc) : list N :=
  rev (take (length (queries p2) - length (queries p1)) (queries p2)).

(** [pollsEvery cluster d k t polls]: the polls are query number [k]
    onwards, the first one is issued at [t], and each further one is
    issued a pause [d] after the reply to the one before it. *)
Fixpoint pollsEvery (cluster : Cluster) (d : Duration) (k : nat) (t : N)
  (polls : list N) : bool :=
  match polls with
  | [] => true
  | q :: rest =>
      (q =? t)%N &&
      pollsEvery cluster d (S k) (t + latency (cluster k t) + d)%N rest
  end.

(** The instant at which a loop stands after the polls [polls] and the
    pause [d] after the reply to each of them: the instant of its next
    turn. *)
Fixpoint afterPolls (cluster : Cluster) (d : Duration) (k : nat) (t : N)
  (polls : list N) : N :=
  match polls with
  | [] => t
  | _ :: rest => afterPolls cluster d (S k) (t + latency (cluster k t) + d)%N rest
  end.

(** The last log lines of the three ways out that log. *)
Definition timeoutLine : LogLine :=
  {| level := LWarning;
     format := "Timed out waiting for graceful shutdown to complete";
     args := [] |}.
Definition completeLine : LogLine :=
  {| level := LInfo; format := "Graceful termination complete"; args := [] |}.
Definition tooManyLine (m : string) : LogLine :=
  {| level := LError; format := "Too many retries, exiting with error: %s";
     args := [m] |}.

(** The log line of a failed query that is retried. *)
Definition retryLine (l : LogLine) : Prop :=
  level l = LError /\ format l = "Error querying Installation, will retry: %s".

(** A query that fails with an error other than NotFound, whenever it
    is issued. *)
Definition failing (cluster : Cluster) (k : nat) : Prop :=
  forall t, exists m, result (cluster k t) = Failed m.

(** The fuel that the two loops are run with: the first loop makes at
    most 6 queries, the second at most 60 and one more turn to see the
    timeout. *)
Definition queryFuel : nat := 6.
Definition waitFuel : nat := 61.

(** "The 6th consecutive failure makes the watcher give up", for every
    sequence of query results after the signal: whenever six queries in
    a row fail, number [k] to [k + 5], the watcher makes no query after
    the sixth of them, and having made that one it leaves through "Too
    many retries". *)
Definition sixthFailureIsFatal : Prop :=
  forall (cluster : Cluster) (t0 : N) (k : nat) (e : Exit) (p : Proc),
    (forall i, (k <= i < k + 6)%nat -> failing cluster i) ->
    terminationWatcher cluster queryFuel waitFuel (start t0) = (Some e, p) ->
    (length (queries p) <= k + 6)%nat /\
    (length (queries p) = (k + 6)%nat -> e = TooManyRetries).

(** "The wait loop polls every [d]": in every run that finds the
    Installation with its deletion timestamp set, the polls of the wait
    start when the first loop is left and follow one another at pause
    [d]. *)
Definition waitPollsEvery (d : Duration) : Prop :=
  forall (cluster : Cluster) (t0 : N) (p1 : Proc) (ts : N),
    queryLoop cluster queryFuel 0 (start t0) = (Some None, p1) ->
    DeletionTimestamp (instance p1) = Some ts ->
    pollsEvery cluster d (length (queries p1)) (now p1)
      (pollsOf p1 (terminationWatcher cluster queryFuel waitFuel (start t0)).2)
    = true.

(** *** [verifyConfiguration] *)

(** What [cs.CoreV1().Secrets(ns).Get(ctx, name, ...)] comes back with. *)
Inductive SecretGet : Type :=
| SecretFound
| SecretNotFound
| SecretFailed (msg : string).

(** [kubernetes.Interface], as far as [verifyConfiguration] uses it:
    namespace, then name. *)
Definition Clientset : Type := string -> string -> SecretGet.

(** [options.AddOptions], as far as [verifyConfiguration] reads it. *)
Record AddOptions : Type := { ElasticExternal : bool }.

Section Verify.
(** Constants of packages [render] and [logstorage], which are not under
    src: taken as parameters. *)
Variable ElasticsearchNamespace : string.
Variable TigeraElasticsearchInternalCertSecret : string.
Variable ExternalCertsSecret : string.

Definition verifyConfiguration (cs : Clientset) (opts : AddOptions)
  : option error :=
  if ElasticExternal opts then
    match cs ElasticsearchNamespace TigeraElasticsearchInternalCertSecret with
    | SecretNotFound => None
    | SecretFailed m =>
        Some (Errorf "unexpected error encountered when confirming elastic is not currently internal: %v" [AStr m])
    | SecretFound =>
        Some (Errorf "refusing to run: configured as external ES but secret/%s found which suggests internal ES"
                [AStr TigeraElasticsearchInternalCertSecret])
    end
  else
    match cs ElasticsearchNamespace ExternalCertsSecret with
    | SecretNotFound => None
    | SecretFailed m =>
        Some (Errorf "unexpected error encountered when confirming elastic is not currently external: %v" [AStr m])
    | SecretFound =>
        Some (Errorf "refusing to run: configured as internal-es but secret/%s found which suggests external ES"
                [AStr ExternalCertsSecret])
    end.

(** The step of [main] that calls [verifyConfiguration]: an error is
    logged and the process leaves through [os.Exit(1)]; otherwise [main]
    goes on to [controller.AddToManager]. *)
Inductive Step : Type := Exits (code : Z) | Continues.

Definition verifyStep (cs : Clientset) (opts : AddOptions) : Step :=
  match verifyConfiguration cs opts with
  | Some _ => Exits 1
  | None => Continues
  end.
End Verify.

End Lifecycle.

(** ** Installation validator (package installation) *)

Module Installation.

(** *** The data model (package api/v1)

    Modelled from the spec: the type declarations and the constants of
    api/v1 are not under src. The records follow section 3 of the spec
    and keep the field names the validator uses; the enumerations are Go
    string types, kept as strings, so that a value outside the
    enumeration can be written down. *)

Definition PluginCalico : string := "Calico".
Definition PluginGKE : string := "GKE".
Definition PluginAmazonVPC : string := "AmazonVPC".
Definition PluginAzureVNET : string := "AzureVNET".
Definition CNIPluginTypesString : list string :=
  [PluginCalico; PluginGKE; PluginAmazonVPC; PluginAzureVNET].

Definition IPAMPluginCalico : string := "Calico".
Definition IPAMPluginHostLocal : string := "HostLocal".
Definition IPAMPluginAmazonVPC : string := "AmazonVPC".
Definition IPAMPluginAzureVNET : string := "AzureVNET".

Definition ProviderGKE : string := "GKE".
Definition ProviderEKS : string := "EKS".
Definition ProviderAKS : string := "AKS".

Definition LinuxDataplaneIptables : string := "Iptables".
Definition LinuxDataplaneBPF : string := "BPF".
Definition LinuxDataplaneNftables : string := "Nftables".
Definition LinuxDataplaneVPP : string := "VPP".

Definition EncapsulationNone : string := "None".
Definition EncapsulationIPIP : string := "IPIP".
Definition EncapsulationIPIPCrossSubnet : string := "IPIPCrossSubnet".
Definition EncapsulationVXLAN : string := "VXLAN".
Definition EncapsulationVXLANCrossSubnet : string := "VXLANCrossSubnet".

Definition BGPEnabled : string := "Enabled".
Definition BGPDisabled : string := "Disabled".

Definition HostPortsEnabled : string := "Enabled".
Definition HostPortsDisabled : string := "Disabled".
Definition HostPortsTypes : list string := [HostPortsEnabled; HostPortsDisabled].
Definition HostPortsTypesString : list string := HostPortsTypes.

Definition Calico : string := "Calico".
Definition TigeraSecureEnterprise : string := "TigeraSecureEnterprise".

Definition NonPrivilegedEnabled : string := "Enabled".
Definition FIPSModeEnabled : string := "Enabled".

Definition ComponentNameKubeControllers : string := "KubeControllers".
Definition ComponentNameNode : string := "Node".
Definition ComponentNameTypha : string := "Typha".

(** [resource.BinarySI] and [appsv1.RollingUpdateDaemonSetStrategyType]. *)
Definition BinarySI : string := "BinarySI".
Definition RollingUpdateDaemonSetStrategyType : string := "RollingUpdate".

(** [cni.ipam] is a plain sub-configuration, as in the spec: the validator
    reads [instance.Spec.CNI.IPAM.Type] without a nil test. *)
Record IPAMSpec : Type := { IPAM_Type : string }.
Record CNISpec : Type := { CNI_Type : string; IPAM : IPAMSpec }.

(** [resource.Quantity]: its [Format] field and what [Value()] gives. *)
Record Quantity : Type := { Format : string; Value : Z }.

Record CNILogging : Type :=
  { LogFileMaxCount : option Z;
    LogFileMaxSize : option Quantity;
    LogFileMaxAgeDays : option Z }.
Record LoggingSpec : Type := { Logging_CNI : option CNILogging }.

Record IPPool : Type := { CIDR : string; Encapsulation : string }.

Record NodeAddressAutodetection : Type :=
  { FirstFound : option bool;
    Kubernetes : option string;
    Interface : string;
    SkipInterface : string;
    CanReach : string;
    CIDRS : list string }.

Record CalicoNetworkSpec : Type :=
  { LinuxDataplane : option string;
    IPPools : list IPPool;
    BGP : option string;
    NodeAddressAutodetectionV4 : option NodeAddressAutodetection;
    NodeAddressAutodetectionV6 : option NodeAddressAutodetection;
    HostPorts : option string;
    MultiInterfaceMode : option string;
    ContainerIPForwarding : option string;
    Sysctl : option (list (string * string));
    LinuxPolicySetupTimeoutSeconds : option Z }.

Record DaemonSetUpdateStrategy : Type :=
  { Strategy_Type : string; RollingUpdate : option RollingUpdateDaemonSet }.

Record ComponentResource : Type := { ComponentName : string }.

(** [v1.Container], by name, and a per-workload override with the
    containers and init containers of its pod template. *)
Record Container : Type := { Name : string }.
Record PodOverride : Type :=
  { Containers : list Container; InitContainers : list Container }.

Record WindowsNodeSpec : Type := { }.
Record Azure : Type := { }.

Record InstallationSpec : Type :=
  { Variant : string;
    KubernetesProvider : string;
    CNI : option CNISpec;
    CalicoNetwork : option CalicoNetworkSpec;
    Logging : option LoggingSpec;
    FlexVolumePath : string;
    KubeletVolumePluginPath : string;
    NodeUpdateStrategy : DaemonSetUpdateStrategy;
    ControlPlaneNodeSelector : option (gmap string string);
    ControlPlaneReplicas : option Z;
    ComponentResources : list ComponentResource;
    NonPrivileged : option string;
    CalicoNodeDaemonSet : option PodOverride;
    CalicoNodeWindowsDaemonSet : option PodOverride;
    CalicoKubeControllersDeployment : option PodOverride;
    TyphaDeployment : option PodOverride;
    CSINodeDriverDaemonSet : option PodOverride;
    ServiceCIDRs : list string;
    WindowsNodes : option WindowsNodeSpec;
    FIPSMode : option string;
    Azure_ : option Azure }.

(** [k8sapi.ServiceEndpoint], the type of the package variable
    [k8sapi.Endpoint]. *)
Record ServiceEndpoint : Type := { Host : string; Port : string }.

(** What the validator can reach: the object behind its argument
    [instance] (of which it uses [Spec]) and the package variable
    [k8sapi.Endpoint]. *)
Record World : Type := { Spec : InstallationSpec; Endpoint : ServiceEndpoint }.

(** Functions and constants of other packages that the validator uses and
    that are not under src: parameters. *)
Record Collaborators : Type :=
  { (* net.ParseCIDR: whether err == nil *)
    ParseCIDR : string -> bool;
    (* utils.VerifySysctl *)
    VerifySysctl : list (string * string) -> option error;
    (* validation.ValidateReplicatedPodResourceOverrides with the
       container validators of each workload *)
    ValidateCalicoNodeDaemonSet : PodOverride -> option error;
    ValidateCalicoNodeWindowsDaemonSet : PodOverride -> option error;
    ValidateCalicoKubeControllersDeployment : PodOverride -> option error;
    ValidateTyphaDeployment : PodOverride -> option error;
    ValidateCSINodeDriverDaemonSet : PodOverride -> option error;
    (* common.WindowsEnabled *)
    WindowsEnabled : InstallationSpec -> bool;
    (* render.GetIPv4Pool *)
    GetIPv4Pool : list IPPool -> option IPPool;
    (* render.K8sSvcEndpointConfigMapName, a constant *)
    K8sSvcEndpointConfigMapName : string }.

(** Modelled from the spec: [rcc.GetInitContainers] is not under src; the
    spec speaks of the init-container set of the override. *)
Definition GetInitContainers (ds : PodOverride) : list Container :=
  InitContainers ds.

(** Modelled from the spec: [operatorv1.IsFIPSModeEnabled] is not under
    src; FIPS mode is enabled when the field is set to Enabled. *)
Definition IsFIPSModeEnabled (mode : option string) : bool :=
  bool_decide (mode = Some FIPSModeEnabled).

(** [strings.Contains] and [path.IsAbs] of the Go library. *)
Fixpoint Contains (s substr : string) : bool :=
  String.prefix substr s ||
  match s with
  | EmptyString => false
  | String _ rest => Contains rest substr
  end.

Definition IsAbs (p : string) : bool :=
  match p with
  | String "/"%char _ => true
  | _ => false
  end.

(** A validation step: its result is the Go [error], [None] for nil. *)
Definition V : Type := St World (option error).

Definition pass : V := ret None.
Definition fail (e : error) : V := ret (Some e).

(** [a >>> b]: run [a]; if its error is not nil return it, else go on
    with [b]. *)
Definition andThen (a b : V) : V :=
  e <- a ;;
  match e with
  | Some e => ret (Some e)
  | None => b
  end.
Notation "a >>> b" := (andThen a b)
  (at level 98, right associativity, only parsing) : st_scope.

(** [if cond { return err }]. *)
Definition failIf (cond : bool) (e : error) : V :=
  if cond then fail e else pass.

(** [for _, x := range xs { ... }] with a body that may return an error. *)
Fixpoint forEach {A} (xs : list A) (body : A -> V) : V :=
  match xs with
  | [] => pass
  | x :: rest => body x >>> forEach rest body
  end.

Section Validator.
Variable X : Collaborators.

(** *** [validateExclusiveInitContainers] *)

Fixpoint exclusiveLoop (initContainers : list Container)
  (hasMountBpffs hasEbpfBootstrap : bool) : option error :=
  match initContainers with
  | [] => None
  | c :: rest =>
      let '(hasMountBpffs, hasEbpfBootstrap) :=
        if decide (Name c = "mount-bpffs") then (true, hasEbpfBootstrap)
        else if decide (Name c = "ebpf-bootstrap") then (hasMountBpffs, true)
        else (hasMountBpffs, hasEbpfBootstrap) in
      if hasMountBpffs && hasEbpfBootstrap then
        Some (Errorf "Init container names mount-bpffs and ebpf-bootstrap are mutually exclusive, please remove one of them" [])
      else exclusiveLoop rest hasMountBpffs hasEbpfBootstrap
  end.

Definition validateExclusiveInitContainers (initContainers : list Container)
  : option error :=
  exclusiveLoop initContainers false false.

(** *** [validateNodeAddressDetection]

    [numEnabled] is threaded through the statements; the loop over
    [ad.CIDRS] returns at the first CIDR that does not parse. *)

Fixpoint cidrLoop (cidrs : list string) : option error :=
  match cidrs with
  | [] => None
  | c :: rest =>
      if ParseCIDR X c then cidrLoop rest
      else Some (Errorf "invalid CIDR provided for node address autodetection: %s" [AStr c])
  end.

Definition validateNodeAddressDetection (ad : NodeAddressAutodetection)
  : option error :=
  let numEnabled := 0%nat in
  let numEnabled :=
    if negb (String.length (Interface ad) =? 0)%nat then S numEnabled else numEnabled in
  let numEnabled :=
    if negb (String.length (SkipInterface ad) =? 0)%nat then S numEnabled else numEnabled in
  let numEnabled :=
    if negb (String.length (CanReach ad) =? 0)%nat then S numEnabled else numEnabled in
  let numEnabled :=
    match FirstFound ad with
    | Some true => S numEnabled
    | _ => numEnabled
    end in
  let numEnabled :=
    if negb (length (CIDRS ad) =? 0)%nat then S numEnabled else numEnabled in
  match (if negb (length (CIDRS ad) =? 0)%nat then cidrLoop (CIDRS ad) else None) with
  | Some e => Some e
  | None =>
      let numEnabled :=
        match Kubernetes ad with
        | Some _ => S numEnabled
        | None => numEnabled
        end in
      if (1 <? numEnabled)%nat then
        Some (Errorf "no more than one node address autodetection method can be specified per-family" [])
      else None
  end.

(** *** [validateHostPorts] *)

Definition validateHostPorts (hp : option string) : option error :=
  match hp with
  | None =>
      Some (Errorf "HostPorts must be set, it should be one of %s"
              [AStr (String.concat "," HostPortsTypesString)])
  | Some v =>
      let valid :=
        fold_left (fun valid t => if decide (v = t) then true else valid)
          HostPortsTypes false in
      if negb valid then
        Some (Errorf "%s is invalid for HostPorts, it should be one of %s"
                [AHostPortsPtr v; AStr (String.concat "," HostPortsTypesString)])
      else None
  end.

(** *** [validateCustomResource]

    The function is one long sequence of statements; it is cut here
    into the blocks that its comments introduce, in source order. *)

(** The [switch instance.Spec.KubernetesProvider] of a non-Calico
    plugin. *)
Definition checkProvider (cni : CNISpec) (native : string) : V :=
  provider <- reads (fun w => KubernetesProvider (Spec w)) ;;
  if decide (provider = native) then pass
  else if decide (provider = "") then pass
  else fail (Errorf "spec.kubernetesProvider %s is not compatible with spec.cni.type %s"
               [AStr provider; AStr (CNI_Type cni)]).

(** "validate logging config for calico-cni". *)
Definition checkCalicoCNILogging : V :=
  logging <- reads (fun w => Logging (Spec w)) ;;
  match logging with
  | Some {| Logging_CNI := Some l |} =>
      failIf (match LogFileMaxCount l with
              | Some n => (n <=? 0)%Z
              | None => false
              end)
        (Errorf "spec.loggingConfig.cni.logFileMaxCount value should be greater than zero" [])
      >>>
      failIf (match LogFileMaxSize l with
              | Some q => negb (bool_decide (Format q = BinarySI)) || (Value q <=? 0)%Z
              | None => false
              end)
        (Errorf "spec.Logging.cni.logFileMaxSize format is not corrent. Suffix should be Ki | Mi | Gi | Ti | Pi | Ei" [])
      >>>
      failIf (match LogFileMaxAgeDays l with
              | Some n => (n <=? 0)%Z
              | None => false
              end)
        (Errorf "spec.Logging.cni.logFileMaxAgeDays should be a positive non-zero integer" [])
  | _ => pass
  end.

(** "Perform validation based on the chosen CNI plugin." *)
Definition checkPlugin (cni : CNISpec) : V :=
  let t := CNI_Type cni in
  let ipam := IPAM_Type (IPAM cni) in
  if decide (t = PluginCalico) then
    (if decide (ipam = IPAMPluginCalico) then pass
     else if decide (ipam = IPAMPluginHostLocal) then pass
     else fail (Errorf "spec.cni.ipam.type %s is not compatible with spec.cni.type %s, valid IPAM values %s"
                  [AStr ipam; AStr t;
                   AStr (String.concat "," [IPAMPluginCalico; IPAMPluginHostLocal])]))
    >>> checkCalicoCNILogging
  else if decide (t = PluginGKE) then
    checkProvider cni ProviderGKE >>>
    (if decide (ipam = IPAMPluginHostLocal) then pass
     else fail (Errorf "spec.cni.ipam.type %s is not compatible with spec.cni.type %s, valid IPAM values %s"
                  [AStr ipam; AStr t; AStr IPAMPluginHostLocal]))
  else if decide (t = PluginAmazonVPC) then
    checkProvider cni ProviderEKS >>>
    (if decide (ipam = IPAMPluginAmazonVPC) then pass
     else fail (Errorf "spec.cni.ipam.type  %s is not compatible with spec.cni.type %s, valid IPAM values %s"
                  [AStr ipam; AStr t; AStr IPAMPluginAmazonVPC]))
  else if decide (t = PluginAzureVNET) then
    checkProvider cni ProviderAKS >>>
    (if decide (ipam = IPAMPluginAzureVNET) then pass
     else fail (Errorf "spec.cni.ipam.type %s is not compatible with spec.cni.type %s, valid IPAM values %s"
                  [AStr ipam; AStr t; AStr IPAMPluginAzureVNET]))
  else
    fail (Errorf "Invalid value '%s' for spec.cni.type, it should be one of %s"
            [AStr t; AStr (String.concat "," CNIPluginTypesString)]).

(** [BGP == nil || *BGP == BGPDisabled]. *)
Definition bgpOff (cn : CalicoNetworkSpec) : bool :=
  match BGP cn with
  | None => true
  | Some b => bool_decide (b = BGPDisabled)
  end.

Definition isDataplane (cn : CalicoNetworkSpec) (d : string) : bool :=
  match LinuxDataplane cn with
  | Some v => bool_decide (v = d)
  | None => false
  end.

(** The body of the loop over [instance.Spec.CalicoNetwork.IPPools]. *)
Definition checkPool (cni : CNISpec) (cn : CalicoNetworkSpec)
  (bpfDataplane : bool) (pool : IPPool) : V :=
  let isIPv4 := negb (Contains (CIDR pool) ":") in
  let enc := Encapsulation pool in
  (if isIPv4 then
     failIf (bpfDataplane && bool_decide (NodeAddressAutodetectionV4 cn = None))
       (Errorf "spec.calicoNetwork.nodeAddressAutodetectionV4 is required for the BPF dataplane" [])
   else
     failIf (bool_decide (enc = EncapsulationIPIP) ||
             bool_decide (enc = EncapsulationIPIPCrossSubnet))
       (Errorf "IPIP encapsulation is not supported by IPv6 pools, but it is set for %s"
          [AStr (CIDR pool)])
     >>>
     failIf (bpfDataplane && bool_decide (NodeAddressAutodetectionV6 cn = None))
       (Errorf "spec.calicoNetwork.nodeAddressAutodetectionV6 is required for the BPF dataplane" []))
  >>>
  (if decide (CNI_Type cni = PluginCalico) then
     if decide (IPAM_Type (IPAM cni) = IPAMPluginCalico) then
       if decide (enc = EncapsulationIPIP \/ enc = EncapsulationIPIPCrossSubnet) then
         failIf (bgpOff cn) (Errorf "IPIP encapsulation requires that BGP is enabled" [])
       else if decide (enc = EncapsulationVXLAN \/ enc = EncapsulationVXLANCrossSubnet) then
         pass
       else if decide (enc = EncapsulationNone) then
         failIf (bgpOff cn) (Errorf "Unencapsulated IP pools require that BGP is enabled" [])
       else pass
     else if decide (IPAM_Type (IPAM cni) = IPAMPluginHostLocal) then
       if decide (enc = EncapsulationVXLAN \/ enc = EncapsulationVXLANCrossSubnet) then
         fail (Errorf "%s is invalid for ipPool.encapsulation with %s CNI and %s IPAM"
                 [AStr enc; AStr (CNI_Type cni); AStr (IPAM_Type (IPAM cni))])
       else pass
     else pass
   else
     (if decide (enc = "") then pass
      else if decide (enc = EncapsulationNone) then pass
      else fail (Errorf "%s is invalid for ipPool.encapsulation when using non-Calico CNI, should be None"
                   [AStr enc]))
     >>>
     failIf (bool_decide (BGP cn = Some BGPEnabled))
       (Errorf "BGP is not supported when using non-Calico CNI" [])).

(** "VPP specific validation". *)
Definition checkVPP (cni : CNISpec) (cn : CalicoNetworkSpec) : V :=
  if isDataplane cn LinuxDataplaneVPP then
    variant <- reads (fun w => Variant (Spec w)) ;;
    failIf (negb (bool_decide (variant = Calico)))
      (Errorf "The VPP dataplane only supports the Calico variant (configured: %s)"
         [AStr variant])
    >>>
    failIf (negb (bool_decide (CNI_Type cni = PluginCalico)))
      (Errorf "The VPP dataplane only supports the Calico CNI (configured: %s)"
         [AStr (CNI_Type cni)])
    >>>
    failIf (bgpOff cn) (Errorf "VPP requires BGP to be enabled" [])
    >>>
    failIf (bool_decide (HostPorts cn = Some HostPortsDisabled))
      (Errorf "VPP doesn't support disabling HostPorts" [])
  else pass.

Definition checkAutodetection (ad : option NodeAddressAutodetection) : V :=
  match ad with
  | Some ad => ret (validateNodeAddressDetection ad)
  | None => pass
  end.

Definition checkHostPorts (cni : CNISpec) (cn : CalicoNetworkSpec) : V :=
  match HostPorts cn with
  | Some hp =>
      failIf (bool_decide (hp = HostPortsEnabled) &&
              negb (bool_decide (CNI_Type cni = PluginCalico)))
        (Errorf "spec.calicoNetwork.hostPorts is supported only for Calico CNI" [])
      >>> ret (validateHostPorts (HostPorts cn))
  | None => pass
  end.

Definition checkPolicySetupTimeout (cn : CalicoNetworkSpec) : V :=
  match LinuxPolicySetupTimeoutSeconds cn with
  | Some n =>
      failIf (n <? 0)%Z
        (Errorf "spec.calicoNetwork.linuxPolicySetupTimeoutSeconds negative value is not valid" [])
      >>>
      match LinuxDataplane cn with
      | None =>
          fail (Errorf "spec.calicoNetwork.linuxPolicySetupTimeoutSeconds requires the Iptables Linux dataplane to be set" [])
      | Some d =>
          failIf (negb (bool_decide (d = LinuxDataplaneIptables)) &&
                  negb (bool_decide (d = LinuxDataplaneBPF)) &&
                  negb (bool_decide (d = LinuxDataplaneNftables)))
            (Errorf "spec.calicoNetwork.linuxPolicySetupTimeoutSeconds is supported only for the Iptables, Nftables and BPF Linux dataplanes" [])
      end
  | None => pass
  end.

(** "Verify Calico settings, if specified." *)
Definition checkCalicoNetwork (cni : CNISpec) : V :=
  calicoNetwork <- reads (fun w => CalicoNetwork (Spec w)) ;;
  match calicoNetwork with
  | None => pass
  | Some cn =>
      let bpfDataplane := isDataplane cn LinuxDataplaneBPF in
      forEach (IPPools cn) (checkPool cni cn bpfDataplane)
      >>> checkVPP cni cn
      >>> checkAutodetection (NodeAddressAutodetectionV4 cn)
      >>> checkAutodetection (NodeAddressAutodetectionV6 cn)
      >>> checkHostPorts cni cn
      >>> failIf (bool_decide (MultiInterfaceMode cn <> None) &&
                  negb (bool_decide (CNI_Type cni = PluginCalico)))
            (Errorf "spec.calicoNetwork.multiInterfaceMode is supported only for Calico CNI" [])
      >>> failIf (bool_decide (ContainerIPForwarding cn <> None) &&
                  negb (bool_decide (CNI_Type cni = PluginCalico)))
            (Errorf "spec.calicoNetwork.containerIPForwarding is supported only for Calico CNI" [])
      >>> match Sysctl cn with
          | Some pluginData => ret (VerifySysctl X pluginData)
          | None => pass
          end
      >>> checkPolicySetupTimeout cn
  end.

(** The two volume paths, the update strategy, the node selector, the
    replica count and the component resources. *)
Definition checkPaths : V :=
  spec <- reads Spec ;;
  failIf (negb (bool_decide (FlexVolumePath spec = "None")) &&
          negb (IsAbs (FlexVolumePath spec)))
    (Errorf "Installation spec.FlexVolumePath '%s' is not an absolute path"
       [AStr (FlexVolumePath spec)])
  >>>
  failIf (negb (bool_decide (KubeletVolumePluginPath spec = "None")) &&
          negb (IsAbs (KubeletVolumePluginPath spec)))
    (Errorf "Installation spec.KubeletVolumePluginPath '%s' is not an absolute path"
       [AStr (KubeletVolumePluginPath spec)]).

Definition checkSelectorKey (sel : gmap string string) (key fmt : string) : V :=
  match sel !! key with
  | Some v => failIf (negb (bool_decide (v = "linux"))) (Errorf fmt [AStr v])
  | None => pass
  end.

Definition validComponentNames : gset string :=
  {[ ComponentNameKubeControllers; ComponentNameNode; ComponentNameTypha ]}.

Definition checkTopology : V :=
  spec <- reads Spec ;;
  failIf (negb (bool_decide (Strategy_Type (NodeUpdateStrategy spec)
                             = RollingUpdateDaemonSetStrategyType)))
    (Errorf "Installation spec.NodeUpdateStrategy.type '%s' is not supported"
       [ARollingUpdatePtr (RollingUpdate (NodeUpdateStrategy spec))])
  >>>
  match ControlPlaneNodeSelector spec with
  | Some sel =>
      checkSelectorKey sel "beta.kubernetes.io/os"
        "Installation spec.ControlPlaneNodeSelector 'beta.kubernetes.io/os=%s' is not supported"
      >>>
      checkSelectorKey sel "kubernetes.io/os"
        "Installation spec.ControlPlaneNodeSelector 'kubernetes.io/os=%s' is not supported"
  | None => pass
  end
  >>>
  failIf (match ControlPlaneReplicas spec with
          | Some n => (n <=? 0)%Z
          | None => false
          end)
    (Errorf "Installation spec.ControlPlaneReplicas should be greater than 0" [])
  >>>
  forEach (ComponentResources spec) (fun resource =>
    failIf (negb (bool_decide (ComponentName resource ∈ validComponentNames)))
      (Errorf "Installation spec.ComponentResources.ComponentName %s is not supported"
         [AStr (ComponentName resource)])).

(** "Verify that we are running in non-privileged mode only with the
    appropriate feature set". *)
Definition checkNonPrivileged : V :=
  spec <- reads Spec ;;
  if bool_decide (NonPrivileged spec = Some NonPrivilegedEnabled) then
    failIf (match CalicoNetwork spec with
            | Some cn => isDataplane cn LinuxDataplaneBPF
            | None => false
            end)
      (Errorf "Non-privileged Calico is not supported when BPF dataplane is enabled" [])
    >>>
    failIf (bool_decide (Variant spec = TigeraSecureEnterprise))
      (Errorf "Non-privileged Calico is not supported for spec.Variant=%s"
         [AStr TigeraSecureEnterprise])
  else pass.

(** One of the per-workload override checks that wrap the error of the
    delegated validator. *)
Definition checkOverride (o : option PodOverride)
  (validate : PodOverride -> option error) (fmt : string) : V :=
  match o with
  | Some ds =>
      match validate ds with
      | Some err => fail (Errorf fmt [AErr err])
      | None => pass
      end
  | None => pass
  end.

Definition checkOverrides : V :=
  spec <- reads Spec ;;
  match CalicoNodeDaemonSet spec with
  | Some ds =>
      let err := ValidateCalicoNodeDaemonSet X ds in
      let err2 := validateExclusiveInitContainers (GetInitContainers ds) in
      failIf (bool_decide (err <> None) || bool_decide (err2 <> None))
        (Errorf "Installation spec.CalicoNodeDaemonSet is not valid: %w"
           [AErr (Join (omap id [err; err2]))])
  | None => pass
  end
  >>>
  checkOverride (CalicoNodeWindowsDaemonSet spec) (ValidateCalicoNodeWindowsDaemonSet X)
    "Installation spec.CalicoNodeWindowsDaemonSet is not valid: %w"
  >>>
  checkOverride (CalicoKubeControllersDeployment spec)
    (ValidateCalicoKubeControllersDeployment X)
    "Installation spec.CalicoKubeControllersDeployment is not valid: %w"
  >>>
  checkOverride (TyphaDeployment spec) (ValidateTyphaDeployment X)
    "Installation spec.TyphaDeployment is not valid: %w"
  >>>
  checkOverride (CSINodeDriverDaemonSet spec) (ValidateCSINodeDriverDaemonSet X)
    "Installation spec.CSINodeDriverDaemonSet is not valid: %w".

(** "Verify CNILogging to not exist for non-calico cni". *)
Definition checkNonCalicoLogging (cni : CNISpec) : V :=
  logging <- reads (fun w => Logging (Spec w)) ;;
  if negb (bool_decide (CNI_Type cni = PluginCalico)) then
    match logging with
    | Some {| Logging_CNI := Some _ |} =>
        fail (Errorf "Installation spec.Logging.cni is not valid and should not be provided when spec.cni.type is Not Calico" [])
    | _ => pass
    end
  else pass.

(** The Windows block, which reads [k8sapi.Endpoint]. *)

Definition checkWindows (cni : CNISpec) : V :=
  spec <- reads Spec ;;
  if WindowsEnabled X spec then
    endpoint <- reads Endpoint ;;
    failIf (bool_decide (Host endpoint = "") || bool_decide (Port endpoint = ""))
      (Errorf "Services endpoint configmap '%s' does not have all required information for Calico Windows daemonset configuration"
         [AStr (K8sSvcEndpointConfigMapName X)])
    >>>
    if decide (CNI_Type cni = PluginCalico) then
      failIf (length (ServiceCIDRs spec) =? 0)%nat
        (Errorf "Installation spec.ServiceCIDRs must be provided when using Calico CNI on Windows" [])
      >>>
      match CalicoNetwork spec with
      | Some cn =>
          match GetIPv4Pool X (IPPools cn) with
          | Some v4pool =>
              failIf (negb (bool_decide (Encapsulation v4pool = EncapsulationVXLAN)) &&
                      negb (bool_decide (Encapsulation v4pool = EncapsulationNone)))
                (Errorf "IPv4 IPPool encapsulation %s is not supported by Calico for Windows"
                   [AStr (Encapsulation v4pool)])
          | None => pass
          end
      | None => pass
      end
    else pass
  else
    failIf (bool_decide (WindowsNodes spec <> None))
      (Errorf "Installation spec.WindowsNodes is not valid and should not be provided when Calico for Windows is disabled" []).

(** The last two checks; [*instance.Spec.FIPSMode] is read only where
    the mode is set. *)
Definition checkFIPSAndAzure : V :=
  spec <- reads Spec ;;
  failIf (IsFIPSModeEnabled (FIPSMode spec) &&
          bool_decide (Variant spec = TigeraSecureEnterprise))
    (Errorf "Installation spec.FIPSMode=%v combined with spec.Variant=%s is not supported"
       [AStr (default "" (FIPSMode spec)); AStr (Variant spec)])
  >>>
  failIf (negb (bool_decide (KubernetesProvider spec = ProviderAKS)) &&
          bool_decide (Azure_ spec <> None))
    (Errorf "Installation spec.Azure should be set only for AKS provider" []).

Definition validateCustomResource : V :=
  cni <- reads (fun w => CNI (Spec w)) ;;
  match cni with
  | None => fail (Errorf "spec.cni must be defined" [])
  | Some cni =>
      checkPlugin cni
      >>> checkCalicoNetwork cni
      >>> checkPaths
      >>> checkTopology
      >>> checkNonPrivileged
      >>> checkOverrides
      >>> checkNonCalicoLogging cni
      >>> checkWindows cni
      >>> checkFIPSAndAzure
  end.

End Validator.

(** The error that a step returns in a world. *)
Definition verdict (m : V) (w : World) : option error := (m w).1.

(** [validate(spec, facts)] of the spec: the verdict of
    [validateCustomResource]. *)
Definition validate (X : Collaborators) (w : World) : option error :=
  verdict (validateCustomResource X) w.

(** A step leaves the world as it found it. *)
Definition Frame {A} (m : St World A) : Prop := forall w, (m w).2 = w.

(** The compatibility table of the spec (rule group 1), in its words:
    the IPAM types that each CNI type admits. *)
Definition spec_allowed_ipam (cniType : string) : list string :=
  if decide (cniType = "Calico") then ["Calico"; "HostLocal"]
  else if decide (cniType = "GKE") then ["HostLocal"]
  else if decide (cniType = "AmazonVPC") then ["AmazonVPC"]
  else if decide (cniType = "AzureVNET") then ["AzureVNET"]
  else [].

(** The methods of the spec's exclusivity rule (rule group 5), in its
    words: how many of interface, skipInterface, canReach,
    firstFound=true, cidrs non-empty and kubernetesSource are set. *)
Definition spec_methods_set (ad : NodeAddressAutodetection) : nat :=
  length (filter (fun b => b = true)
            [ negb (bool_decide (Interface ad = ""));
              negb (bool_decide (SkipInterface ad = ""));
              negb (bool_decide (CanReach ad = ""));
              bool_decide (FirstFound ad = Some true);
              negb (bool_decide (CIDRS ad = []));
              bool_decide (Kubernetes ad <> None) ]).

(** "If CNI is non-Calico, BGP must not be explicitly enabled", as the
    spec states it: every such document fails validation. *)
Definition spec_non_calico_forbids_bgp (X : Collaborators) : Prop :=
  forall w cni cn,
    CNI (Spec w) = Some cni -> CNI_Type cni <> PluginCalico ->
    CalicoNetwork (Spec w) = Some cn -> BGP cn = Some BGPEnabled ->
    is_Some (validate X w).

Definition exclusivityError : error :=
  Errorf "no more than one node address autodetection method can be specified per-family" [].
Definition invalidCIDRError (c : string) : error :=
  Errorf "invalid CIDR provided for node address autodetection: %s" [AStr c].

(** The exclusivity rule as the spec states it: more than one method set
    fails with the exclusivity rule. *)
Definition spec_exclusivity_rule (X : Collaborators) : Prop :=
  forall ad, (1 < spec_methods_set ad)%nat ->
    validateNodeAddressDetection X ad = Some exclusivityError.

(** The first listed CIDR that does not parse, if any. *)
Definition firstInvalidCIDR (X : Collaborators) (cidrs : list string)
  : option string :=
  List.find (fun c => negb (ParseCIDR X c)) cidrs.

(** The pool is IPv4 as the validator sees it: no colon in its CIDR. *)
Definition isIPv4 (pool : IPPool) : bool := negb (Contains (CIDR pool) ":").

(** The world with [spec.calicoNetwork] replaced. *)
Definition withCalicoNetwork (cn : option CalicoNetworkSpec) (w : World) : World :=
  let s := Spec w in
  {| Spec :=
       {| Variant := Variant s;
          KubernetesProvider := KubernetesProvider s;
          CNI := CNI s;
          CalicoNetwork := cn;
          Logging := Logging s;
          FlexVolumePath := FlexVolumePath s;
          KubeletVolumePluginPath := KubeletVolumePluginPath s;
          NodeUpdateStrategy := NodeUpdateStrategy s;
          ControlPlaneNodeSelector := ControlPlaneNodeSelector s;
          ControlPlaneReplicas := ControlPlaneReplicas s;
          ComponentResources := ComponentResources s;
          NonPrivileged := NonPrivileged s;
          CalicoNodeDaemonSet := CalicoNodeDaemonSet s;
          CalicoNodeWindowsDaemonSet := CalicoNodeWindowsDaemonSet s;
          CalicoKubeControllersDeployment := CalicoKubeControllersDeployment s;
          TyphaDeployment := TyphaDeployment s;
          CSINodeDriverDaemonSet := CSINodeDriverDaemonSet s;
          ServiceCIDRs := ServiceCIDRs s;
          WindowsNodes := WindowsNodes s;
          FIPSMode := FIPSMode s;
          Azure_ := Azure_ s |};
     Endpoint := Endpoint w |}.

(** [calicoNetwork] with [nodeAddressAutodetectionV4], or V6, set. *)
Definition withV4 (ad : NodeAddressAutodetection) (cn : CalicoNetworkSpec)
  : CalicoNetworkSpec :=
  {| LinuxDataplane := LinuxDataplane cn;
     IPPools := IPPools cn;
     BGP := BGP cn;
     NodeAddressAutodetectionV4 := Some ad;
     NodeAddressAutodetectionV6 := NodeAddressAutodetectionV6 cn;
     HostPorts := HostPorts cn;
     MultiInterfaceMode := MultiInterfaceMode cn;
     ContainerIPForwarding := ContainerIPForwarding cn;
     Sysctl := Sysctl cn;
     LinuxPolicySetupTimeoutSeconds := LinuxPolicySetupTimeoutSeconds cn |}.

Definition withV6 (ad : NodeAddressAutodetection) (cn : CalicoNetworkSpec)
  : CalicoNetworkSpec :=
  {| LinuxDataplane := LinuxDataplane cn;
     IPPools := IPPools cn;
     BGP := BGP cn;
     NodeAddressAutodetectionV4 := NodeAddressAutodetectionV4 cn;
     NodeAddressAutodetectionV6 := Some ad;
     HostPorts := HostPorts cn;
     MultiInterfaceMode := MultiInterfaceMode cn;
     ContainerIPForwarding := ContainerIPForwarding cn;
     Sysctl := Sysctl cn;
     LinuxPolicySetupTimeoutSeconds := LinuxPolicySetupTimeoutSeconds cn |}.

(** [calicoNetwork] with [linuxDataplane] set to [d]. *)
Definition withDataplane (d : string) (cn : CalicoNetworkSpec) : CalicoNetworkSpec :=
  {| LinuxDataplane := Some d;
     IPPools := IPPools cn;
     BGP := BGP cn;
     NodeAddressAutodetectionV4 := NodeAddressAutodetectionV4 cn;
     NodeAddressAutodetectionV6 := NodeAddressAutodetectionV6 cn;
     HostPorts := HostPorts cn;
     MultiInterfaceMode := MultiInterfaceMode cn;
     ContainerIPForwarding := ContainerIPForwarding cn;
     Sysctl := Sysctl cn;
     LinuxPolicySetupTimeoutSeconds := LinuxPolicySetupTimeoutSeconds cn |}.

(** The document with [nodeAddressAutodetectionV4], or V6, of its
    [calicoNetwork] set. *)
Definition setV4 (ad : NodeAddressAutodetection) (cn : CalicoNetworkSpec)
  (w : World) : World := withCalicoNetwork (Some (withV4 ad cn)) w.
Definition setV6 (ad : NodeAddressAutodetection) (cn : CalicoNetworkSpec)
  (w : World) : World := withCalicoNetwork (Some (withV6 ad cn)) w.

(** The document with the [linuxDataplane] of its [calicoNetwork] set to
    [d], all else as it is. *)
Definition setDataplane (d : string) (cn : CalicoNetworkSpec) (w : World) : World :=
  withCalicoNetwork (Some (withDataplane d cn)) w.

End Installation.

(** ** Sample inputs *)

Module Samples.
Import Lifecycle.

(** The Installation is being deleted and never goes away; queries are
    answered at once. *)
Definition neverRemoved : Cluster :=
  fun _ _ => {| result := Found (Some 0%N); latency := 0%N |}.

(** The Installation is being deleted and is gone from the 10th second
    on. *)
Definition removedAfter10s : Cluster :=
  fun _ t => {| result := if (t <? 10 * Second)%N then Found (Some 0%N) else NotFound;
                latency := 0%N |}.

(** Every query fails. *)
Definition unreachable : Cluster :=
  fun _ _ => {| result := Failed "connection refused"; latency := 0%N |}.

(** The first query finds the Installation being deleted; every query
    after it fails. *)
Definition deletingThenUnreachable : Cluster :=
  fun k _ => {| result := match k with
                          | O => Found (Some 0%N)
                          | S _ => Failed "connection refused"
                          end;
                latency := 0%N |}.

(** Three failures, then the Installation is found, not being deleted. *)
Definition flaky : Cluster :=
  fun k _ => {| result := if (k <? 3)%nat then Failed "timeout" else Found None;
                latency := 0%N |}.

Definition noSecrets : Clientset := fun _ _ => SecretNotFound.
Definition onlySecret (name : string) : Clientset :=
  fun _ n => if decide (n = name) then SecretFound else SecretNotFound.

Import Installation.

(** Collaborators for the sample documents: every delegated validator
    accepts, Windows is off, the CIDR parser knows three networks and
    the IPv4 pool is the first pool without a colon. *)
Definition collaborators : Collaborators :=
  {| ParseCIDR := fun c =>
       bool_decide (c ∈ ["192.168.0.0/16"; "10.0.0.0/8"; "fd00:10:244::/64"]);
     VerifySysctl := fun _ => None;
     ValidateCalicoNodeDaemonSet := fun _ => None;
     ValidateCalicoNodeWindowsDaemonSet := fun _ => None;
     ValidateCalicoKubeControllersDeployment := fun _ => None;
     ValidateTyphaDeployment := fun _ => None;
     ValidateCSINodeDriverDaemonSet := fun _ => None;
     WindowsEnabled := fun _ => false;
     GetIPv4Pool := fun pools => head (filter (fun p => isIPv4 p = true) pools);
     K8sSvcEndpointConfigMapName := "kubernetes-services-endpoint" |}.

(** A document with the given plugins and nothing else that a rule could
    object to, in a cluster whose service endpoint is known. *)
Definition document (cniType ipamType : string)
  (calicoNetwork : option CalicoNetworkSpec) : World :=
  {| Spec :=
       {| Variant := Calico;
          KubernetesProvider := "";
          CNI := Some {| CNI_Type := cniType; IPAM := {| IPAM_Type := ipamType |} |};
          CalicoNetwork := calicoNetwork;
          Logging := None;
          FlexVolumePath := "None";
          KubeletVolumePluginPath := "/var/lib/kubelet";
          NodeUpdateStrategy :=
            {| Strategy_Type := "RollingUpdate"; RollingUpdate := None |};
          ControlPlaneNodeSelector := Some {[ "kubernetes.io/os" := "linux" ]};
          ControlPlaneReplicas := Some 2%Z;
          ComponentResources := [];
          NonPrivileged := None;
          CalicoNodeDaemonSet := None;
          CalicoNodeWindowsDaemonSet := None;
          CalicoKubeControllersDeployment := None;
          TyphaDeployment := None;
          CSINodeDriverDaemonSet := None;
          ServiceCIDRs := ["10.96.0.0/12"];
          WindowsNodes := None;
          FIPSMode := None;
          Azure_ := None |};
     Endpoint := {| Host := "10.96.0.1"; Port := "443" |} |}.

Definition network (dataplane : option string) (pools : list IPPool)
  (bgp : option string) (v4 v6 : option NodeAddressAutodetection)
  : CalicoNetworkSpec :=
  {| LinuxDataplane := dataplane;
     IPPools := pools;
     BGP := bgp;
     NodeAddressAutodetectionV4 := v4;
     NodeAddressAutodetectionV6 := v6;
     HostPorts := None;
     MultiInterfaceMode := None;
     ContainerIPForwarding := None;
     Sysctl := None;
     LinuxPolicySetupTimeoutSeconds := None |}.

Definition autodetect (interface : string) (firstFound : option bool)
  (cidrs : list string) : NodeAddressAutodetection :=
  {| FirstFound := firstFound; Kubernetes := None; Interface := interface;
     SkipInterface := ""; CanReach := ""; CIDRS := cidrs |}.

Definition v4pool : IPPool :=
  {| CIDR := "192.168.0.0/16"; Encapsulation := "VXLAN" |}.
Definition v6pool : IPPool :=
  {| CIDR := "fd00:10:244::/64"; Encapsulation := "VXLAN" |}.

(** No [spec.cni], and several other rules broken as well. *)
Definition noCNI : World :=
  {| Spec :=
       {| Variant := "Calico";
          KubernetesProvider := "";
          CNI := None;
          CalicoNetwork := None;
          Logging := None;
          FlexVolumePath := "not/absolute";
          KubeletVolumePluginPath := "None";
          NodeUpdateStrategy :=
            {| Strategy_Type := "OnDelete"; RollingUpdate := None |};
          ControlPlaneNodeSelector := None;
          ControlPlaneReplicas := Some 0%Z;
          ComponentResources := [];
          NonPrivileged := None;
          CalicoNodeDaemonSet := None;
          CalicoNodeWindowsDaemonSet := None;
          CalicoKubeControllersDeployment := None;
          TyphaDeployment := None;
          CSINodeDriverDaemonSet := None;
          ServiceCIDRs := [];
          WindowsNodes := None;
          FIPSMode := None;
          Azure_ := None |};
     Endpoint := {| Host := ""; Port := "" |} |}.

(** Scenarios A and B of the spec. *)
Definition scenarioA : World := document "Calico" "Calico" None.
Definition scenarioB : World := document "Calico" "AmazonVPC" None.

(** BPF dataplane with an IPv4 pool, without and with
    [nodeAddressAutodetectionV4]. *)
Definition bpfNetwork (v4 : option NodeAddressAutodetection) : CalicoNetworkSpec :=
  network (Some "BPF") [v4pool] None v4 None.
Definition bpfUnset : World := document "Calico" "Calico" (Some (bpfNetwork None)).
Definition bpfSet : World :=
  document "Calico" "Calico" (Some (bpfNetwork (Some (autodetect "" (Some true) [])))).

(** The same with an IPv6 pool. *)
Definition bpfNetwork6 (v6 : option NodeAddressAutodetection) : CalicoNetworkSpec :=
  network (Some "BPF") [v6pool] None None v6.
Definition bpf6Unset : World := document "Calico" "Calico" (Some (bpfNetwork6 None)).

(** GKE plugin, BGP enabled, no IP pool. *)
Definition gkeBGP : World :=
  document "GKE" "HostLocal" (Some (network None [] (Some "Enabled") None None)).

(** GKE plugin, BGP enabled, one unencapsulated pool; and GKE plugin with
    a VXLAN pool. *)
Definition gkeBGPPool : World :=
  document "GKE" "HostLocal"
    (Some (network None [{| CIDR := "10.0.0.0/8"; Encapsulation := "None" |}]
             (Some "Enabled") None None)).
Definition gkeVXLAN : World :=
  document "GKE" "HostLocal" (Some (network None [v4pool] None None None)).

(** Two autodetection methods, one of them a CIDR list with an entry
    that is not a network. *)
Definition twoMethodsBadCIDR : NodeAddressAutodetection :=
  autodetect "eth0" None ["not-a-network"].
Definition twoMethods : NodeAddressAutodetection :=
  autodetect "eth0" (Some true) [].
Definition twoMethodsNetwork : CalicoNetworkSpec :=
  network None [] None (Some twoMethods) None.
Definition twoMethodsDocument : World :=
  document "Calico" "Calico" (Some twoMethodsNetwork).

End Samples.

(** ** The pre-delete hook (package main) *)

Module PreDelete.
Import Lifecycle.

(** The four custom resources that the hook deletes. *)
Inductive Object : Type := Whisker | Goldmane | TheInstallation | APIServer.

(** What one [c.Delete] comes back with, and how long it takes; the
    replies of the cluster by object and instant. *)
Inductive DeleteResult : Type :=
| Deleted
| DeleteNotFound
| DeleteFailed (msg : string).
Record DeleteReply : Type := { outcome : DeleteResult; took : Duration }.
Definition DeleteAPI : Type := Object -> N -> DeleteReply.

(** The hook's world: the clock, the queries, the sleeps and the log of
    [Lifecycle.Proc], and the objects that [c.Delete] was called on,
    newest first. *)
Definition Hook : Type := (Proc * list Object)%type.

Definition lift {A} (m : St Proc A) : St Hook A :=
  fun h => let (a, p) := m h.1 in (a, (p, h.2)).

Definition Minute : Duration := (60 * Second)%N.

Definition exitingLine : LogLine :=
  {| level := LInfo; format := "preDelete hook exiting"; args := [] |}.
Definition timeoutError : error := Errorf "Timeout waiting for pre-delete hook" [].

Section Hook.
Variable cluster : Cluster.
Variable api : DeleteAPI.

(** [c.Delete(ctx, o)]. *)
Definition clientDelete (o : Object) : St Hook GetErr := fun h =>
  let p := h.1 in
  let r := api o (now p) in
  (match outcome r with
   | Deleted => ErrNil
   | DeleteNotFound => ErrNotFound
   | DeleteFailed m => ErrOther m
   end,
   ({| now := (now p + took r)%N; queries := queries p; sleeps := sleeps p;
       log := log p; instance := instance p; cancelled := cancelled p |},
    o :: h.2)).

(** The loop over the objects: NotFound is skipped, any other error is
    returned as it is (an error with the message of the API error). *)
Fixpoint deleteAll (objs : list Object) : St Hook (option error) :=
  match objs with
  | [] => ret None
  | o :: rest =>
      err <- clientDelete o ;;
      match err with
      | ErrOther m => ret (Some (Errorf m []))
      | _ => deleteAll rest
      end
  end.

(** "Wait for the Installation to be deleted." [None] as the outer result
    means the fuel ran out. *)
Fixpoint hookWait (fuel : nat) (deadline : N) : St Hook (option (option error)) :=
  match fuel with
  | O => ret None
  | S fuel' =>
      t <- lift (reads now) ;;
      if (deadline <=? t)%N then ret (Some (Some timeoutError))
      else
        err <- lift (clientGet cluster) ;;
        if IsNotFound err then ret (Some None)
        else
          lift (logf LInfo "Waiting for Installation to be fully deleted" []) ;;
          lift (sleep (5 * Second)%N) ;;
          hookWait fuel' deadline
  end.

Definition hookObjects : list Object := [Whisker; Goldmane; TheInstallation; APIServer].

(** 5 minutes at one poll every 5 seconds, and one more turn to see the
    timeout. *)
Definition hookFuel : nat := 61.

(** [executePreDeleteHook]; the deferred log line runs on every way out. *)
Definition executePreDeleteHook (fuel : nat) : St Hook (option (option error)) :=
  r <- (e <- deleteAll hookObjects ;;
        match e with
        | Some e => ret (Some (Some e))
        | None =>
            t <- lift (reads now) ;;
            hookWait fuel (t + 5 * Minute)%N
        end) ;;
  lift (logf LInfo "preDelete hook exiting" []) ;;
  ret r.

(** The [preDelete] branch of [main]: exit code 1 on an error, 0
    otherwise. *)
Definition preDeleteExit (fuel : nat) (h : Hook) : option Z :=
  match (executePreDeleteHook fuel h).1 with
  | Some (Some _) => Some 1%Z
  | Some None => Some 0%Z
  | None => None
  end.

End Hook.

(** A delete that fails with message [m], or that never fails, whenever
    it is issued. *)
Definition deleteFails (api : DeleteAPI) (o : Object) (m : string) : Prop :=
  forall t, outcome (api o t) = DeleteFailed m.
Definition deleteGoesThrough (api : DeleteAPI) (o : Object) : Prop :=
  forall t m, outcome (api o t) <> DeleteFailed m.

Definition begin (t0 : N) : Hook := (start t0, []).

End PreDelete.

(** ** Command-line helpers (package main) *)

Module Tools.

(** *** [metricsAddr] *)

(** The two environment variables that [metricsAddr] reads; [os.Getenv]
    gives the empty string for a variable that is not set. *)
Record MetricsEnv : Type := { METRICS_HOST : string; METRICS_PORT : string }.

Definition defaultMetricsPort : Z := 8484.

(** [%d] of an [int32]. *)
Definition formatInt (n : Z) : string := NilZero.string_of_int (Z.to_int n).

Definition metricsAddr (env : MetricsEnv) : string :=
  let metricsHost := METRICS_HOST env in
  let metricsPort := METRICS_PORT env in
  if bool_decide (metricsHost = "") && bool_decide (metricsPort = "") then "0"
  else if negb (bool_decide (metricsHost = "")) && bool_decide (metricsPort = "") then
    metricsHost +:+ ":" +:+ formatInt defaultMetricsPort
  else metricsHost +:+ ":" +:+ metricsPort.

(** *** [showCRDs] *)

(** A bundled CRD, by name; [yaml.Marshal] of a CRD gives its text or an
    error, and [crds.GetCRDs(variant)] a list of them: both are not under
    src and are taken as parameters. Standard output is the list of the
    lines printed, oldest first. *)
Record CRD : Type := { crdName : string }.

Definition println (line : string) : St (list string) unit :=
  modify (fun out => out ++ [line]).

Section ShowCRDs.
Variable Marshal : CRD -> string + string.

Fixpoint showLoop (crds : list CRD) (outputType : string) (first : bool)
  : St (list string) (option error * bool) :=
  match crds with
  | [] => ret (None, first)
  | v :: rest =>
      if negb (bool_decide (outputType = "all")) &&
         negb (String.prefix outputType (crdName v))
      then showLoop rest outputType first
      else
        match Marshal v with
        | inr err =>
            ret (Some (Errorf "Failed to Marshal %s: %v" [AStr (crdName v); AStr err]),
                 first)
        | inl b =>
            (if negb first then println "---" else ret tt) ;;
            println ("# " +:+ crdName v) ;;
            println b ;;
            showLoop rest outputType false
        end
  end.

Definition showCRDs (crds : list CRD) (outputType : string)
  : St (list string) (option error) :=
  r <- showLoop crds outputType true ;;
  match r with
  | (Some e, _) => ret (Some e)
  | (None, first) =>
      if first then ret (Some (Errorf "No CRD matching %s" [AStr outputType]))
      else ret None
  end.

End ShowCRDs.

(** The CRDs that an output type selects, and what is printed for one of
    them and for a list of them, with the separator in between. *)
Definition selected (crds : list CRD) (outputType : string) : list CRD :=
  filter (fun v => outputType = "all" \/ String.prefix outputType (crdName v) = true) crds.

Definition document (v : CRD) (text : string) : list string :=
  ["# " +:+ crdName v; text].

Fixpoint documents (docs : list (list string)) : list string :=
  match docs with
  | [] => []
  | [d] => d
  | d :: rest => d ++ "---" :: documents rest
  end.

(** Each document with the separator in front of it. *)
Definition separated (docs : list (list string)) : list string :=
  concat (map (fun d => "---" :: d) docs).

End Tools.

(** ** Guardian's egress destinations (package render) *)

Module Guardian.

(** [httpproxy.Config], by its three settings. *)
Record ProxyConfig : Type :=
  { HTTPProxy : string; HTTPSProxy : string; NoProxy : string }.

(** The destination of an egress rule that the loop appends: a domain or
    a network, with the port. *)
Inductive Destination (P : Type) : Type :=
| ToDomain (host : string) (port : P)
| ToNet (net : string) (port : P).
Arguments ToDomain {P} host port.
Arguments ToNet {P} net port.

Section Policy.
(** URLs and ports, and the functions of the Go library and of other
    packages that the loop calls, none of them under src: parameters. An
    error is known by its message. *)
Variables U P : Type.
(* podProxyConfig.ProxyFunc()(targetURL), by the host of the target *)
Variable ProxyFunc : ProxyConfig -> string -> option U + string.
(* operatorurl.ParseHostPortFromHTTPProxyURL *)
Variable ParseHostPortFromHTTPProxyURL : U -> string + string.
(* net.SplitHostPort *)
Variable SplitHostPort : string -> (string * string) + string.
(* numorstring.PortFromString *)
Variable PortFromString : string -> P + string.
(* net.ParseIP, giving parsedIp.String() and whether To4() is not nil *)
Variable ParseIP : string -> option (string * bool).

(** [ProcessPodProxies]: a pod without proxy is nil. *)
Definition ProcessPodProxies (podProxies : list (option ProxyConfig))
  : list (option ProxyConfig) :=
  if (length podProxies =? 0)%nat then [None] else podProxies.

(** The first half of the loop body: where the tunnel of this pod goes. *)
Definition tunnelDestination (cfgURL : string) (podProxyConfig : option ProxyConfig)
  : string + string :=
  match (match podProxyConfig with
         | Some c =>
             if negb (bool_decide (HTTPSProxy c = "")) then ProxyFunc c cfgURL
             else inl None
         | None => inl None
         end) with
  | inr err => inr err
  | inl (Some proxyURL) => ParseHostPortFromHTTPProxyURL proxyURL
  | inl None => inl cfgURL
  end.

(** The loop over the pods of [guardianAllowTigeraPolicy], with the rules
    appended so far and the map [allowedDestinations]. *)
Fixpoint destinationLoop (cfgURL : string) (pods : list (option ProxyConfig))
  (egressRules : list (Destination P)) (allowedDestinations : gset string)
  : list (Destination P) * gset string + string :=
  match pods with
  | [] => inl (egressRules, allowedDestinations)
  | podProxyConfig :: rest =>
      match tunnelDestination cfgURL podProxyConfig with
      | inr err => inr err
      | inl tunnelDestinationHostPort =>
          if bool_decide (tunnelDestinationHostPort ∈ allowedDestinations) then
            destinationLoop cfgURL rest egressRules allowedDestinations
          else
            match SplitHostPort tunnelDestinationHostPort with
            | inr err => inr err
            | inl (host, port) =>
                match PortFromString port with
                | inr err => inr err
                | inl parsedPort =>
                    let rule :=
                      match ParseIP host with
                      | None => ToDomain host parsedPort
                      | Some (ip, isV4) =>
                          ToNet (ip +:+ (if isV4 then "/32" else "/128")) parsedPort
                      end in
                    destinationLoop cfgURL rest (egressRules ++ [rule])
                      ({[ tunnelDestinationHostPort ]} ∪ allowedDestinations)
                end
            end
      end
  end.

(** The rules that the loop appends for [cfg.PodProxies], from a fresh
    [allowedDestinations]; in the policy they follow the fixed egress rules
    and precede the closing Pass rule. *)
Definition destinationRules (cfgURL : string) (podProxies : list (option ProxyConfig))
  : list (Destination P) * gset string + string :=
  destinationLoop cfgURL (ProcessPodProxies podProxies) [] ∅.

End Policy.

Arguments ProcessPodProxies podProxies : assert.
Arguments tunnelDestination {U} ProxyFunc ParseHostPortFromHTTPProxyURL
  cfgURL podProxyConfig.
Arguments destinationLoop {U P} ProxyFunc ParseHostPortFromHTTPProxyURL
  SplitHostPort PortFromString ParseIP cfgURL pods egressRules allowedDestinations.
Arguments destinationRules {U P} ProxyFunc ParseHostPortFromHTTPProxyURL
  SplitHostPort PortFromString ParseIP cfgURL podProxies.

End Guardian.

(** ** More sample inputs *)

Module MoreSamples.
Import Lifecycle PreDelete Tools Installation.

(** Deletes that all go through, and deletes of which the one of goldmane
    is refused. *)
Definition deletesFine : DeleteAPI :=
  fun o _ => {| outcome := match o with Whisker => DeleteNotFound | _ => Deleted end;
                took := 0%N |}.
Definition goldmaneRefused : DeleteAPI :=
  fun o _ => {| outcome := match o with
                           | Goldmane => DeleteFailed "forbidden"
                           | _ => Deleted
                           end;
                took := 0%N |}.

Definition hostOnly : MetricsEnv := {| METRICS_HOST := "0.0.0.0"; METRICS_PORT := "" |}.

(** Three bundled CRDs and a marshaller that writes the kind. *)
Definition bundled : list CRD :=
  [ {| crdName := "bgppeers.crd.projectcalico.org" |};
    {| crdName := "installations.operator.tigera.io" |};
    {| crdName := "bgpconfigurations.crd.projectcalico.org" |} ].
Definition marshal : CRD -> string + string :=
  fun v => inl ("kind: CustomResourceDefinition # " +:+ crdName v).

(** Collaborators that say Windows is enabled and whose delegated
    validators reject everything. *)
Definition strict : Collaborators :=
  {| ParseCIDR := fun _ => false;
     VerifySysctl := fun _ => Some (Errorf "sysctl not allowed" []);
     ValidateCalicoNodeDaemonSet := fun _ => Some (Errorf "container not allowed" []);
     ValidateCalicoNodeWindowsDaemonSet := fun _ => Some (Errorf "container not allowed" []);
     ValidateCalicoKubeControllersDeployment := fun _ => Some (Errorf "container not allowed" []);
     ValidateTyphaDeployment := fun _ => Some (Errorf "container not allowed" []);
     ValidateCSINodeDriverDaemonSet := fun _ => Some (Errorf "container not allowed" []);
     WindowsEnabled := fun _ => true;
     GetIPv4Pool := fun pools => head pools;
     K8sSvcEndpointConfigMapName := "kubernetes-services-endpoint" |}.

(** A document given by the fields that the samples vary. *)
Definition custom (variant provider cniType ipamType : string)
  (calicoNetwork : option CalicoNetworkSpec) (logging : option LoggingSpec)
  (nonPrivileged fips : option string) (nodeDaemonSet : option PodOverride)
  (flexVolumePath : string) (serviceCIDRs : list string) : World :=
  {| Spec :=
       {| Variant := variant;
          KubernetesProvider := provider;
          CNI := Some {| CNI_Type := cniType; IPAM := {| IPAM_Type := ipamType |} |};
          CalicoNetwork := calicoNetwork;
          Logging := logging;
          FlexVolumePath := flexVolumePath;
          KubeletVolumePluginPath := "None";
          NodeUpdateStrategy :=
            {| Strategy_Type := "RollingUpdate"; RollingUpdate := None |};
          ControlPlaneNodeSelector := None;
          ControlPlaneReplicas := None;
          ComponentResources := [{| ComponentName := "Node" |}];
          NonPrivileged := nonPrivileged;
          CalicoNodeDaemonSet := nodeDaemonSet;
          CalicoNodeWindowsDaemonSet := None;
          CalicoKubeControllersDeployment := None;
          TyphaDeployment := None;
          CSINodeDriverDaemonSet := None;
          ServiceCIDRs := serviceCIDRs;
          WindowsNodes := None;
          FIPSMode := fips;
          Azure_ := None |};
     Endpoint := {| Host := "10.96.0.1"; Port := "443" |} |}.

Definition plain (cniType ipamType : string) (calicoNetwork : option CalicoNetworkSpec)
  : World :=
  custom "Calico" "" cniType ipamType calicoNetwork None None None None "None"
    ["10.96.0.0/12"].

(** [calicoNetwork] given by the fields after the pools. *)
Definition settings (dataplane bgp hostPorts multiInterfaceMode : option string)
  (sysctl : option (list (string * string))) (timeout : option Z) : CalicoNetworkSpec :=
  {| LinuxDataplane := dataplane;
     IPPools := [];
     BGP := bgp;
     NodeAddressAutodetectionV4 := None;
     NodeAddressAutodetectionV6 := None;
     HostPorts := hostPorts;
     MultiInterfaceMode := multiInterfaceMode;
     ContainerIPForwarding := None;
     Sysctl := sysctl;
     LinuxPolicySetupTimeoutSeconds := timeout |}.

Definition calicoCNI : CNISpec :=
  {| CNI_Type := "Calico"; IPAM := {| IPAM_Type := "Calico" |} |}.
Definition amazonCNI : CNISpec :=
  {| CNI_Type := "AmazonVPC"; IPAM := {| IPAM_Type := "AmazonVPC" |} |}.

(** AmazonVPC plugin on a GKE cluster. *)
Definition amazonOnGKE : World :=
  custom "Calico" "GKE" "AmazonVPC" "AmazonVPC" None None None None None "None" [].

(** An IPv6 pool with IPIP, and an IPv4 pool with IPIP and BGP off. *)
Definition ipipPool6 : IPPool := {| CIDR := "fd00:10:244::/64"; Encapsulation := "IPIP" |}.
Definition ipipPool4 : IPPool := {| CIDR := "192.168.0.0/16"; Encapsulation := "IPIP" |}.
Definition ipip6Network : CalicoNetworkSpec :=
  Samples.network None [ipipPool6] (Some "Enabled") None None.
Definition ipip4Network : CalicoNetworkSpec :=
  Samples.network None [ipipPool4] (Some "Disabled") None None.

Definition vppNetwork : CalicoNetworkSpec :=
  settings (Some "VPP") (Some "Enabled") (Some "Disabled") None None None.
Definition hostPortsNetwork : CalicoNetworkSpec :=
  settings None None (Some "Sometimes") None None None.
Definition multiNetwork : CalicoNetworkSpec :=
  settings None None None (Some "Multus") None None.
Definition timeoutNetwork : CalicoNetworkSpec :=
  settings (Some "VPP") (Some "Enabled") None None None (Some 30%Z).

Definition cniLogging : CNILogging :=
  {| LogFileMaxCount := Some 0%Z; LogFileMaxSize := None; LogFileMaxAgeDays := None |}.

Definition bothInitContainers : PodOverride :=
  {| Containers := [];
     InitContainers := [ {| Name := "ebpf-bootstrap" |}; {| Name := "install-cni" |};
                         {| Name := "mount-bpffs" |} ] |}.

Definition ipip6Doc : World := plain "Calico" "Calico" (Some ipip6Network).
Definition ipip4Doc : World := plain "Calico" "Calico" (Some ipip4Network).
Definition vppDoc : World := plain "Calico" "Calico" (Some vppNetwork).
Definition hostPortsDoc : World := plain "Calico" "Calico" (Some hostPortsNetwork).
Definition multiDoc : World := plain "AmazonVPC" "AmazonVPC" (Some multiNetwork).
Definition timeoutDoc : World := plain "Calico" "Calico" (Some timeoutNetwork).
Definition enterpriseFIPS : World :=
  custom "TigeraSecureEnterprise" "" "Calico" "Calico" None None None (Some "Enabled")
    None "None" [].
Definition loggingDoc : World :=
  custom "Calico" "" "Calico" "Calico" None (Some {| Logging_CNI := Some cniLogging |})
    None None None "None" [].
Definition noServiceCIDRs : World :=
  custom "Calico" "" "Calico" "Calico" None None None None None "None" [].
Definition bothInitDoc : World :=
  custom "Calico" "" "Calico" "Calico" None None None None (Some bothInitContainers)
    "None" ["10.96.0.0/12"].

Definition relativeFlexPath : World :=
  custom "Calico" "" "Calico" "Calico" None None None None None "usr/libexec" [].

(** Guardian: a proxy function that always answers with the HTTPS proxy,
    read as host and port; every port is 443. Three pods, two of them
    behind the same proxy. *)
Definition viaProxy : Guardian.ProxyConfig -> string -> option string + string :=
  fun c _ => inl (Some (Guardian.HTTPSProxy c)).
Definition hostPort : string -> string + string := fun u => inl u.
Definition split443 : string -> (string * string) + string := fun d => inl (d, "443").
Definition portOf : string -> string + string := fun p => inl p.
Definition noIP : string -> option (string * bool) := fun _ => None.
Definition proxyA : Guardian.ProxyConfig :=
  {| Guardian.HTTPProxy := ""; Guardian.HTTPSProxy := "proxy-a"; Guardian.NoProxy := "" |}.
Definition threePods : list (option Guardian.ProxyConfig) :=
  [Some proxyA; None; Some proxyA].
Definition refusing : Guardian.ProxyConfig -> string -> option string + string :=
  fun _ _ => inr "invalid proxy URL".

End MoreSamples.

(** * Properties *)

(** ** The state monad *)

Lemma bind_run {S A B} (m : St S A) (k : A -> St S B) s :
  bind m k s = k (m s).1 (m s).2.
Proof. unfold bind. by destruct (m s). Qed.

(** Runs a step of the lifecycle monad on the state it is applied to. *)
Ltac st_run :=
  unfold bind, Lifecycle.logf, Lifecycle.sleep, Lifecycle.cancel, modify, reads, ret;
  cbn beta iota delta [fst snd Lifecycle.now Lifecycle.queries Lifecycle.sleeps
                       Lifecycle.log Lifecycle.instance Lifecycle.cancelled].

(** ** The termination watcher *)

Section WatcherFacts.
Import Lifecycle.
Variable cluster : Cluster.

Local Open Scope N_scope.

Lemma waitLoop_spec (n : nat) : forall deadline p,
  deadline <= now p + N.of_nat n * Second ->
  exists e p' polls,
    waitLoop cluster (S n) deadline p = (Some e, p') /\
    queries p' = rev polls ++ queries p /\
    pollsEvery cluster (1 * Second) (length (queries p)) (now p) polls = true /\
    Forall (fun q => q < deadline) polls /\
    (length polls <= n)%nat /\
    cancelled p' = cancelled p /\
    ((e = GracefulComplete /\ head (log p') = Some completeLine /\
      exists front q, polls = front ++ [q] /\
        result (cluster (length (queries p) + length front)%nat q) = NotFound /\
        (forall i q', front !! i = Some q' ->
           result (cluster (length (queries p) + i)%nat q') <> NotFound) /\
        now p' = q + latency (cluster (length (queries p) + length front)%nat q))
     \/
     (e = TimedOut /\ head (log p') = Some timeoutLine /\ deadline <= now p' /\
      (forall i q, polls !! i = Some q ->
         result (cluster (length (queries p) + i)%nat q) <> NotFound) /\
      (now p < deadline -> polls <> []) /\
      now p' = afterPolls cluster (1 * Second) (length (queries p)) (now p) polls)).
Proof.
  induction n as [|n IH]; intros deadline p Hfuel.
  - exists TimedOut. eexists. exists [].
    cbn [waitLoop]. st_run.
    destruct (N.leb_spec deadline (now p)); [|lia].
    st_run. cbn. split_and!; auto. right. split_and!; auto. lia.
  - assert (Hfuel' : deadline <= now p + Second + N.of_nat n * Second) by lia.
    clear Hfuel. remember (S n) as fuel eqn:Hfuel in *.
    cbn [waitLoop]. st_run.
    destruct (N.leb_spec deadline (now p)) as [Hle|Hlt].
    + exists TimedOut. eexists. exists []. st_run. cbn.
      split_and!; auto; try lia. right. split_and!; auto. lia.
    + st_run. unfold clientGet. cbn [fst snd].
      destruct (result (cluster (length (queries p)) (now p))) as [d| |m] eqn:Hres;
        cbn [IsNotFound]; st_run.
      2:{ (* not found: done *)
        exists GracefulComplete. eexists. exists [now p]. cbn.
        rewrite N.eqb_refl. split_and!; auto; [lia|].
        left. split_and!; auto. exists [], (now p). cbn. rewrite Nat.add_0_r.
        split_and!; auto. }
      (* found, or another error: sleep and go round *)
      all: match goal with |- context [waitLoop _ _ _ ?q] =>
          destruct (IH deadline q) as (e & p' & polls & Hrun & Hq & Hev & Hall & Hlen & Hc & Hout)
        end; [cbn; unfold Second in *; lia|].
      all: subst fuel.
      all: exists e, p', (now p :: polls); rewrite Hrun; cbn in Hq, Hev, Hc, Hout |- *.
      all: split; [done|]; split; [by rewrite Hq, <- app_assoc|].
      all: split; [rewrite N.eqb_refl; exact Hev|].
      all: split; [by constructor|]; split; [lia|]; split; [done|].
      all: destruct Hout as [(-> & Hlog & front & q & -> & Hq' & Hfront & Hnow)
                            |(-> & Hlog & Hdl & Hno & _ & Hnow)].
      all: try (left; split_and!; auto; exists (now p :: front), q; cbn;
                rewrite <- Nat.add_succ_comm; split_and!; auto;
                intros [|i] q' Hi; cbn in Hi;
                [injection Hi as <-; rewrite Nat.add_0_r; by rewrite Hres
                |rewrite <- Nat.add_succ_comm; by apply Hfront]).
      all: right; split_and!; auto; intros [|i] q Hi; cbn in Hi;
        [injection Hi as <-; rewrite Nat.add_0_r; by rewrite Hres
        |rewrite <- Nat.add_succ_comm; by apply Hno].
Qed.

Lemma queryLoop_retry (k : nat) : forall fuel retries p,
  (retries + k <= 5)%nat ->
  (forall i, (i < k)%nat -> failing cluster (length (queries p) + i)) ->
  exists p',
    queryLoop cluster (k + fuel) retries p = queryLoop cluster fuel (retries + k) p' /\
    length (queries p') = (length (queries p) + k)%nat /\
    sleeps p' = replicate k (1 * Second) ++ sleeps p /\
    cancelled p' = cancelled p /\
    instance p' = instance p.
Proof.
  induction k as [|k IH]; intros fuel retries p Hr Hfail.
  - exists p. rewrite Nat.add_0_r. cbn. repeat split; auto.
  - destruct (Hfail 0%nat ltac:(lia) (now p)) as [m Hm]. rewrite Nat.add_0_r in Hm.
    change (S k + fuel)%nat with (S (k + fuel)).
    remember (k + fuel)%nat as f eqn:Hf.
    cbn [queryLoop]. st_run. unfold clientGet. cbn [fst snd]. rewrite Hm.
    cbn [IsNotFound]. destruct (Nat.leb_spec 5 retries) as [?|_]; [lia|].
    st_run. subst f.
    match goal with |- context [queryLoop _ _ _ ?q] =>
      destruct (IH fuel (S retries) q) as (p' & Hrun & Hq & Hs & Hc & Hi)
    end.
    + lia.
    + intros i Hi t. cbn. specialize (Hfail (S i) ltac:(lia) t).
      by rewrite Nat.add_succ_r in Hfail.
    + exists p'. rewrite Hrun. cbn in Hq, Hs, Hc, Hi.
      split; [f_equal; lia|]. split; [lia|]. split; [|done].
      rewrite Hs, replicate_S_end. by rewrite <- app_assoc.
Qed.

(** The fuel is enough: the first loop always comes to its [break] or to a
    [return], and so does the watcher as a whole, with the main context
    cancelled. *)
Lemma queryLoop_returns (fuel : nat) : forall retries p,
  (0 < fuel)%nat -> (5 < retries + fuel)%nat ->
  exists r p', queryLoop cluster fuel retries p = (Some r, p').
Proof.
  induction fuel as [|fuel IH]; intros retries p Hpos Hfuel; [lia|].
  cbn [queryLoop]. st_run. unfold clientGet. cbn [fst snd].
  destruct (result (cluster (length (queries p)) (now p))) as [d| |m];
    cbn [IsNotFound]; st_run; [by eexists _, _..|].
  destruct (Nat.leb_spec 5 retries) as [Hge|Hlt]; st_run; [by eexists _, _|].
  apply IH; lia.
Qed.

Lemma terminationWatcher_returns (t0 : N) :
  exists e p,
    terminationWatcher cluster queryFuel waitFuel (start t0) = (Some e, p) /\
    cancelled p = true.
Proof.
  destruct (queryLoop_returns queryFuel 0 (start t0)) as (r & p1 & Hloop);
    [unfold queryFuel; lia..|].
  unfold terminationWatcher, watcherBody. st_run. rewrite Hloop. st_run.
  destruct r as [e|]; st_run; [by eexists _, _|].
  destruct (DeletionTimestamp (instance p1)) as [ts|]; st_run; [|by eexists _, _].
  unfold waitFuel, to.
  match goal with |- context [waitLoop _ _ ?dl ?q] =>
    destruct (waitLoop_spec 60 dl q) as (e & p' & polls & Hrun & _)
  end; [cbn; lia|].
  rewrite Hrun. st_run. by eexists _, _.
Qed.

Lemma pollsOf_app (p1 p2 : Proc) (polls : list N) :
  queries p2 = rev polls ++ queries p1 -> pollsOf p1 p2 = polls.
Proof.
  intros Hq. unfold pollsOf. rewrite Hq, length_app, length_rev.
  replace (length polls + length (queries p1) - length (queries p1))%nat
    with (length (rev polls)) by (rewrite length_rev; lia).
  by rewrite take_app_length, rev_involutive.
Qed.

(** C1, as amended. In every run where the first loop finds the
    Installation with its deletion timestamp set, the watcher returns, and
    it has cancelled the main context. The wait has polled at once, when
    the first loop was left, and then again one second after each reply
    (the source sleeps [1 * time.Second]), always before the deadline of
    60 seconds, at most 60 times. It has left either through "Graceful
    termination complete", on the first poll that came back NotFound and
    at the instant of that reply, or through the timeout warning, with no
    poll having come back NotFound and at its first turn at or after the
    deadline: it does not stop polling before the deadline. *)
Theorem bounded_wait (t0 : N) (p1 : Proc) (ts : N) :
  queryLoop cluster queryFuel 0 (start t0) = (Some None, p1) ->
  DeletionTimestamp (instance p1) = Some ts ->
  exists e p2,
    terminationWatcher cluster queryFuel waitFuel (start t0) = (Some e, p2) /\
    cancelled p2 = true /\
    head (pollsOf p1 p2) = Some (now p1) /\
    pollsEvery cluster (1 * Second) (length (queries p1)) (now p1) (pollsOf p1 p2)
      = true /\
    Forall (fun q => q < now p1 + 60 * Second) (pollsOf p1 p2) /\
    (length (pollsOf p1 p2) <= 60)%nat /\
    ((e = GracefulComplete /\ head (log p2) = Some completeLine /\
      exists front q, pollsOf p1 p2 = front ++ [q] /\
        result (cluster (length (queries p1) + length front)%nat q) = NotFound /\
        (forall i q', front !! i = Some q' ->
           result (cluster (length (queries p1) + i)%nat q') <> NotFound) /\
        now p2 = q + latency (cluster (length (queries p1) + length front)%nat q))
     \/
     (e = TimedOut /\ head (log p2) = Some timeoutLine /\
      now p1 + 60 * Second <= now p2 /\
      (forall i q, pollsOf p1 p2 !! i = Some q ->
         result (cluster (length (queries p1) + i)%nat q) <> NotFound) /\
      now p2 = afterPolls cluster (1 * Second) (length (queries p1)) (now p1)
                 (pollsOf p1 p2))).
Proof.
  intros Hloop Hts.
  unfold terminationWatcher, watcherBody. st_run. rewrite Hloop. st_run.
  rewrite Hts. st_run. unfold waitFuel, to.
  match goal with |- context [waitLoop _ _ ?dl ?q] =>
    destruct (waitLoop_spec 60 dl q) as (e & p' & polls & Hrun & Hq & Hev & Hall & Hlen & Hc & Hout)
  end; [cbn; lia|].
  cbn in Hq, Hev, Hall, Hlen, Hc, Hout. rewrite Hrun. st_run.
  exists e. eexists. split; [reflexivity|].
  rewrite (pollsOf_app p1 _ polls) by exact Hq.
  cbn [cancelled now log].
  assert (head polls = Some (now p1)) as Hhead.
  { destruct polls as [|q polls].
    - destruct Hout as [(_ & _ & front & q & Hnil & _)|(_ & _ & Hdl & _ & Hne & _)].
      + by destruct front.
      + exfalso. apply Hne; [unfold Second; lia|done].
    - cbn in Hev. apply andb_prop in Hev as [Hq0 _].
      apply N.eqb_eq in Hq0. by rewrite Hq0. }
  split_and!; auto.
  destruct Hout as [Hout|(-> & Hlog & Hdl & Hno & _ & Hnow)]; [by left|].
  right. by split_and!.
Qed.

(** C2, as amended. From the signal until the first query that does not
    fail, up to 5 failed queries in a row are tolerated: after [k <= 5]
    failures and a query that does not fail, the first loop has made
    [k + 1] queries, has slept one second after each failure, and has not
    given up. The 6th failure in a row is the end: the watcher logs "Too
    many retries", returns after 6 queries and 5 sleeps, without waiting,
    and cancels the main context. *)
Theorem retries_bounded (t0 : N) :
  (forall k, (k <= 5)%nat ->
     (forall i, (i < k)%nat -> failing cluster i) ->
     (forall t m, result (cluster k t) <> Failed m) ->
     exists r p,
       queryLoop cluster queryFuel 0 (start t0) = (Some r, p) /\
       r <> Some TooManyRetries /\
       length (queries p) = S k /\
       sleeps p = replicate k (1 * Second))
  /\
  ((forall i, (i < 6)%nat -> failing cluster i) ->
     exists m p,
       terminationWatcher cluster queryFuel waitFuel (start t0)
         = (Some TooManyRetries, p) /\
       length (queries p) = 6%nat /\
       sleeps p = replicate 5 (1 * Second) /\
       head (log p) = Some (tooManyLine m) /\
       cancelled p = true).
Proof.
  split.
  - intros k Hk Hfail Hok.
    destruct (queryLoop_retry k (queryFuel - k) 0 (start t0)) as (p' & Hrun & Hq & Hs & _);
      [lia|intros i Hi; apply Hfail; exact Hi|].
    replace (k + (queryFuel - k))%nat with queryFuel in Hrun by (unfold queryFuel; lia).
    rewrite Hrun. cbn in Hq, Hs.
    replace (queryFuel - k)%nat with (S (5 - k)) by (unfold queryFuel; lia).
    cbn [queryLoop]. st_run. unfold clientGet. cbn [fst snd]. rewrite Hq.
    specialize (Hok (now p')).
    destruct (result (cluster k (now p'))) as [d| |m]; cbn [IsNotFound]; st_run.
    + eexists _, _. split; [reflexivity|]. cbn. rewrite Hs, app_nil_r.
      repeat split; try done. lia.
    + eexists _, _. split; [reflexivity|]. cbn. rewrite Hs, app_nil_r.
      repeat split; try done. lia.
    + by destruct (Hok m).
  - intros Hfail.
    destruct (queryLoop_retry 5 1 0 (start t0)) as (p' & Hrun & Hq & Hs & Hc & _);
      [lia|intros i Hi; apply Hfail; cbn; lia|].
    unfold terminationWatcher, watcherBody, queryFuel. st_run.
    change 6%nat with (5 + 1)%nat. rewrite Hrun. cbn in Hq, Hs, Hc.
    destruct (Hfail 5%nat ltac:(lia) (now p')) as [m Hm].
    cbn [queryLoop Nat.add]. st_run. unfold clientGet. cbn [fst snd].
    rewrite Hq, Hm. cbn [IsNotFound Nat.leb]. st_run.
    exists m. eexists. split; [reflexivity|]. cbn. rewrite Hs.
    repeat split; try done. lia.
Qed.

End WatcherFacts.

(** C1, as stated, fails: with the Installation never removed and queries
    answered at once, the wait does not poll every 5 seconds. *)
Lemma wait_does_not_poll_every_5s :
  ~ Lifecycle.waitPollsEvery (5 * Lifecycle.Second)%N.
Proof.
  intros H.
  specialize (H Samples.neverRemoved 0%N
                (Lifecycle.queryLoop Samples.neverRemoved Lifecycle.queryFuel 0
                   (Lifecycle.start 0%N)).2 0%N eq_refl eq_refl).
  vm_compute in H. discriminate H.
Qed.

Lemma bounded_wait_witness :
  exists e p2,
    Lifecycle.terminationWatcher Samples.removedAfter10s
      Lifecycle.queryFuel Lifecycle.waitFuel (Lifecycle.start 0%N) = (Some e, p2) /\
    Lifecycle.cancelled p2 = true.
Proof.
  destruct (bounded_wait Samples.removedAfter10s 0%N
              (Lifecycle.queryLoop Samples.removedAfter10s Lifecycle.queryFuel 0
                 (Lifecycle.start 0%N)).2 0%N eq_refl eq_refl)
    as (e & p2 & Hrun & Hc & _).
  exists e, p2. split; [exact Hrun | exact Hc].
Defined.

(** Scenario E of the spec: removed after 10 s, the watcher reports
    graceful termination at the 10th second, after 11 polls. *)
Example scenario_E :
  let r := Lifecycle.terminationWatcher Samples.removedAfter10s
             Lifecycle.queryFuel Lifecycle.waitFuel (Lifecycle.start 0%N) in
  r.1 = Some Lifecycle.GracefulComplete /\
  Lifecycle.now r.2 = (10 * Lifecycle.Second)%N /\
  length (Lifecycle.queries r.2) = 12%nat.
Proof. vm_compute. done. Qed.

(** Scenario F of the spec: never removed, the watcher reports the timeout
    at the 60th second, after 60 polls. *)
Example scenario_F :
  let r := Lifecycle.terminationWatcher Samples.neverRemoved
             Lifecycle.queryFuel Lifecycle.waitFuel (Lifecycle.start 0%N) in
  r.1 = Some Lifecycle.TimedOut /\
  Lifecycle.now r.2 = (60 * Lifecycle.Second)%N /\
  length (Lifecycle.queries r.2) = 61%nat.
Proof. vm_compute. done. Qed.

(** C2, as stated, fails: the retry counter belongs to the first loop.
    When the first query finds the Installation being deleted and every
    later query fails, the polls of the wait fail 60 times in a row and
    the watcher goes on to the timeout. *)
Lemma wait_tolerates_sixty_failures : ~ Lifecycle.sixthFailureIsFatal.
Proof.
  intros H.
  destruct (H Samples.deletingThenUnreachable 0%N 1%nat Lifecycle.TimedOut
              (Lifecycle.terminationWatcher Samples.deletingThenUnreachable
                 Lifecycle.queryFuel Lifecycle.waitFuel (Lifecycle.start 0%N)).2)
    as [Hlen _].
  - intros [|i] Hi t; [lia|]. by exists "connection refused".
  - by vm_compute.
  - vm_compute in Hlen. lia.
Qed.

(** The same run: 61 queries, 60 of them failed polls one second apart,
    no "Too many retries". *)
Example deleting_then_unreachable_times_out :
  let r := Lifecycle.terminationWatcher Samples.deletingThenUnreachable
             Lifecycle.queryFuel Lifecycle.waitFuel (Lifecycle.start 0%N) in
  r.1 = Some Lifecycle.TimedOut /\
  length (Lifecycle.queries r.2) = 61%nat /\
  Lifecycle.sleeps r.2 = replicate 60 (1 * Lifecycle.Second)%N /\
  head (Lifecycle.log r.2) = Some Lifecycle.timeoutLine.
Proof. vm_compute. done. Qed.

Lemma retries_bounded_witness :
  exists m p,
    Lifecycle.terminationWatcher Samples.unreachable
      Lifecycle.queryFuel Lifecycle.waitFuel (Lifecycle.start 0%N)
      = (Some Lifecycle.TooManyRetries, p) /\
    length (Lifecycle.queries p) = 6%nat /\
    Lifecycle.sleeps p = replicate 5 (1 * Lifecycle.Second)%N /\
    head (Lifecycle.log p) = Some (Lifecycle.tooManyLine m) /\
    Lifecycle.cancelled p = true.
Proof.
  apply (proj2 (retries_bounded Samples.unreachable 0%N)).
  intros i _ t. exists "connection refused". reflexivity.
Defined.

Example flaky_is_tolerated :
  let r := Lifecycle.terminationWatcher Samples.flaky
             Lifecycle.queryFuel Lifecycle.waitFuel (Lifecycle.start 0%N) in
  r.1 = Some Lifecycle.NotTerminating /\
  Lifecycle.sleeps r.2 = replicate 3 (1 * Lifecycle.Second)%N.
Proof. vm_compute. done. Qed.

(** ** The preflight check of the log storage secrets *)

(** C3. With log storage declared external, the secret of internal storage
    being present makes [verifyConfiguration] return an error, on which
    [main] exits with code 1; with log storage declared internal, so does
    the secret of external storage; and when the secret in question is
    reported NotFound the check returns nil and [main] goes on. *)
Theorem verifyConfiguration_consistency
  (ns internalCert externalCerts : string)
  (cs : Lifecycle.Clientset) (opts : Lifecycle.AddOptions) :
  let verify := Lifecycle.verifyConfiguration ns internalCert externalCerts cs opts in
  let step := Lifecycle.verifyStep ns internalCert externalCerts cs opts in
  (Lifecycle.ElasticExternal opts = true ->
     cs ns internalCert = Lifecycle.SecretFound ->
     (exists e, verify = Some e) /\ step = Lifecycle.Exits 1)
  /\
  (Lifecycle.ElasticExternal opts = false ->
     cs ns externalCerts = Lifecycle.SecretFound ->
     (exists e, verify = Some e) /\ step = Lifecycle.Exits 1)
  /\
  (Lifecycle.ElasticExternal opts = true ->
     cs ns internalCert = Lifecycle.SecretNotFound ->
     verify = None /\ step = Lifecycle.Continues)
  /\
  (Lifecycle.ElasticExternal opts = false ->
     cs ns externalCerts = Lifecycle.SecretNotFound ->
     verify = None /\ step = Lifecycle.Continues).
Proof.
  cbv zeta. unfold Lifecycle.verifyStep, Lifecycle.verifyConfiguration.
  split_and!; intros Hext Hget; rewrite Hext, Hget; eauto.
Qed.

Lemma verifyConfiguration_consistency_witness :
  Lifecycle.verifyStep "tigera-elasticsearch" "internal-cert" "external-certs"
    (Samples.onlySecret "internal-cert") {| Lifecycle.ElasticExternal := true |}
  = Lifecycle.Exits 1.
Proof.
  exact (proj2 (proj1 (verifyConfiguration_consistency
                         "tigera-elasticsearch" "internal-cert" "external-certs"
                         (Samples.onlySecret "internal-cert")
                         {| Lifecycle.ElasticExternal := true |})
                  eq_refl eq_refl)).
Defined.

(** ** The validator leaves the world alone *)

Section FrameFacts.
Import Installation.

Lemma frame_ret {A} (a : A) : Frame (ret a).
Proof. by intros w. Qed.

Lemma frame_reads {A} (f : World -> A) : Frame (reads f).
Proof. by intros w. Qed.

Lemma frame_bind {A B} (m : St World A) (k : A -> St World B) :
  Frame m -> (forall a, Frame (k a)) -> Frame (bind m k).
Proof.
  intros Hm Hk w. rewrite bind_run. by rewrite Hk, Hm.
Qed.

Lemma frame_pass : Frame pass.
Proof. apply frame_ret. Qed.

Lemma frame_fail (e : error) : Frame (fail e).
Proof. apply frame_ret. Qed.

Lemma frame_failIf (c : bool) (e : error) : Frame (failIf c e).
Proof. destruct c; apply frame_ret. Qed.

Lemma frame_andThen (a b : V) : Frame a -> Frame b -> Frame (andThen a b).
Proof.
  intros Ha Hb. apply frame_bind; [done|]. intros [e|]; [apply frame_ret|done].
Qed.

Lemma frame_forEach {A} (xs : list A) (body : A -> V) :
  (forall x, Frame (body x)) -> Frame (forEach xs body).
Proof.
  intros Hbody. induction xs as [|x xs IH]; cbn.
  - apply frame_pass.
  - by apply frame_andThen.
Qed.

End FrameFacts.

Create HintDb frame.
#[export] Hint Resolve frame_ret frame_reads frame_pass frame_fail frame_failIf : frame.

(** Proves [Frame] of a step built from the combinators, case by case. *)
Ltac frame_step :=
  match goal with
  | |- Installation.Frame (bind _ _) => apply frame_bind; [|intros ?]
  | |- Installation.Frame (Installation.andThen _ _) => apply frame_andThen
  | |- Installation.Frame (Installation.forEach _ _) => apply frame_forEach; intros ?
  | |- Installation.Frame (match ?x with _ => _ end) => destruct x
  | |- Installation.Frame _ => solve [auto with frame]
  end.
Ltac frame := repeat frame_step.

Section ValidatorFrame.
Import Installation.
Variable X : Collaborators.

Lemma frame_checkProvider cni native : Frame (checkProvider cni native).
Proof. unfold checkProvider. frame. Qed.

Lemma frame_checkCalicoCNILogging : Frame checkCalicoCNILogging.
Proof. unfold checkCalicoCNILogging. frame. Qed.

Hint Resolve frame_checkProvider frame_checkCalicoCNILogging : frame.

Lemma frame_checkPlugin cni : Frame (checkPlugin cni).
Proof. unfold checkPlugin. frame. Qed.

Lemma frame_checkPool cni cn bpf pool : Frame (checkPool cni cn bpf pool).
Proof. unfold checkPool. frame. Qed.

Lemma frame_checkVPP cni cn : Frame (checkVPP cni cn).
Proof. unfold checkVPP. frame. Qed.

Lemma frame_checkAutodetection ad : Frame (checkAutodetection X ad).
Proof. unfold checkAutodetection. frame. Qed.

Lemma frame_checkHostPorts cni cn : Frame (checkHostPorts cni cn).
Proof. unfold checkHostPorts. frame. Qed.

Lemma frame_checkPolicySetupTimeout cn : Frame (checkPolicySetupTimeout cn).
Proof. unfold checkPolicySetupTimeout. frame. Qed.

Hint Resolve frame_checkPool frame_checkVPP frame_checkAutodetection
  frame_checkHostPorts frame_checkPolicySetupTimeout : frame.

Lemma frame_checkCalicoNetwork cni : Frame (checkCalicoNetwork X cni).
Proof. unfold checkCalicoNetwork. frame. Qed.

Lemma frame_checkPaths : Frame checkPaths.
Proof. unfold checkPaths. frame. Qed.

Lemma frame_checkSelectorKey sel key fmt : Frame (checkSelectorKey sel key fmt).
Proof. unfold checkSelectorKey. frame. Qed.

Hint Resolve frame_checkSelectorKey : frame.

Lemma frame_checkTopology : Frame checkTopology.
Proof. unfold checkTopology. frame. Qed.

Lemma frame_checkNonPrivileged : Frame checkNonPrivileged.
Proof. unfold checkNonPrivileged. frame. Qed.

Lemma frame_checkOverride o validate fmt : Frame (checkOverride o validate fmt).
Proof. unfold checkOverride. frame. Qed.

Hint Resolve frame_checkOverride : frame.

Lemma frame_checkOverrides : Frame (checkOverrides X).
Proof. unfold checkOverrides. frame. Qed.

Lemma frame_checkNonCalicoLogging cni : Frame (checkNonCalicoLogging cni).
Proof. unfold checkNonCalicoLogging. frame. Qed.

Lemma frame_checkWindows cni : Frame (checkWindows X cni).
Proof. unfold checkWindows. frame. Qed.

Lemma frame_checkFIPSAndAzure : Frame checkFIPSAndAzure.
Proof. unfold checkFIPSAndAzure. frame. Qed.

Hint Resolve frame_checkPlugin frame_checkCalicoNetwork frame_checkPaths
  frame_checkTopology frame_checkNonPrivileged frame_checkOverrides
  frame_checkNonCalicoLogging frame_checkWindows frame_checkFIPSAndAzure : frame.

Lemma frame_validateCustomResource : Frame (validateCustomResource X).
Proof. unfold validateCustomResource. frame. Qed.

End ValidatorFrame.

#[export] Hint Resolve frame_checkProvider frame_checkCalicoCNILogging
  frame_checkPlugin frame_checkPool frame_checkVPP frame_checkAutodetection
  frame_checkHostPorts frame_checkPolicySetupTimeout frame_checkCalicoNetwork
  frame_checkPaths frame_checkSelectorKey frame_checkTopology
  frame_checkNonPrivileged frame_checkOverride frame_checkOverrides
  frame_checkNonCalicoLogging frame_checkWindows frame_checkFIPSAndAzure : frame.

(** ** Verdicts of sequences of steps *)

Section VerdictFacts.
Import Installation.

Lemma verdict_andThen (a b : V) (w : World) :
  Frame a ->
  verdict (andThen a b) w
  = match verdict a w with Some e => Some e | None => verdict b w end.
Proof.
  intros Ha. unfold verdict, andThen. rewrite bind_run, Ha.
  by destruct (a w).1.
Qed.

Lemma fails_andThen_l (a b : V) (w : World) :
  is_Some (verdict a w) -> is_Some (verdict (andThen a b) w).
Proof.
  intros [e He]. unfold verdict, andThen in *. rewrite bind_run, He. by exists e.
Qed.

Lemma fails_andThen_r (a b : V) (w : World) :
  Frame a -> is_Some (verdict b w) -> is_Some (verdict (andThen a b) w).
Proof.
  intros Ha Hb. rewrite verdict_andThen by done. by destruct (verdict a w).
Qed.

Lemma passes_andThen (a b : V) (w : World) :
  Frame a ->
  verdict (andThen a b) w = None <-> verdict a w = None /\ verdict b w = None.
Proof.
  intros Ha. rewrite verdict_andThen by done.
  destruct (verdict a w); split; intros H; try done.
  - by destruct H.
  - by destruct H.
Qed.

Lemma fails_forEach {A} (xs : list A) (body : A -> V) (w : World) (x : A) :
  (forall y, Frame (body y)) ->
  x ∈ xs -> is_Some (verdict (body x) w) ->
  is_Some (verdict (forEach xs body) w).
Proof.
  intros Hframe Hin Hx. induction xs as [|y xs IH]; cbn.
  - by apply elem_of_nil in Hin.
  - apply elem_of_cons in Hin as [->|Hin].
    + by apply fails_andThen_l.
    + apply fails_andThen_r; auto.
Qed.

Lemma verdict_andThen_ext (a a' b b' : V) (w w' : World) :
  Frame a -> Frame a' ->
  verdict a w = verdict a' w' -> verdict b w = verdict b' w' ->
  verdict (andThen a b) w = verdict (andThen a' b') w'.
Proof.
  intros Ha Ha' Hab Hb. rewrite !verdict_andThen by done. by rewrite Hab, Hb.
Qed.

Lemma verdict_forEach_ext {A} (xs : list A) (body body' : A -> V) (w w' : World) :
  (forall x, Frame (body x)) -> (forall x, Frame (body' x)) ->
  (forall x, verdict (body x) w = verdict (body' x) w') ->
  verdict (forEach xs body) w = verdict (forEach xs body') w'.
Proof.
  intros Hf Hf' Hext. induction xs as [|x xs IH]; cbn; [done|].
  apply verdict_andThen_ext; auto using frame_forEach.
Qed.

Lemma verdict_forEach_ext_in {A} (xs : list A) (body body' : A -> V) (w w' : World) :
  (forall x, Frame (body x)) -> (forall x, Frame (body' x)) ->
  (forall x, x ∈ xs -> verdict (body x) w = verdict (body' x) w') ->
  verdict (forEach xs body) w = verdict (forEach xs body') w'.
Proof.
  intros Hf Hf' Hext. induction xs as [|x xs IH]; cbn; [done|].
  apply verdict_andThen_ext; auto using frame_forEach.
  - apply Hext. by left.
  - apply IH. intros y Hy. apply Hext. by right.
Qed.

Lemma passes_forEach {A} (xs : list A) (body : A -> V) (w : World) (x : A) :
  (forall y, Frame (body y)) ->
  verdict (forEach xs body) w = None -> x ∈ xs -> verdict (body x) w = None.
Proof.
  intros Hframe Hpass Hin.
  destruct (verdict (body x) w) as [e|] eqn:He; [|done].
  destruct (fails_forEach xs body w x Hframe Hin) as [e' He']; [by eexists|].
  congruence.
Qed.

Lemma validate_blocks (X : Collaborators) (w : World) (cni : CNISpec) :
  CNI (Spec w) = Some cni ->
  validate X w
  = verdict (andThen (checkPlugin cni)
            (andThen (checkCalicoNetwork X cni)
            (andThen checkPaths
            (andThen checkTopology
            (andThen checkNonPrivileged
            (andThen (checkOverrides X)
            (andThen (checkNonCalicoLogging cni)
            (andThen (checkWindows X cni) checkFIPSAndAzure)))))))) w.
Proof.
  intros Hcni. unfold validate, validateCustomResource, verdict.
  rewrite bind_run. cbn. by rewrite Hcni.
Qed.

End VerdictFacts.

(** ** The validator as a function of its inputs *)

(** C10. A document without [spec.cni] is rejected with "spec.cni must be
    defined", whatever else it holds and whatever the delegated validators
    would say: no other rule is looked at. *)
Theorem cni_must_be_defined (X : Installation.Collaborators) (w : Installation.World) :
  Installation.CNI (Installation.Spec w) = None ->
  Installation.validateCustomResource X w
  = (Some (Errorf "spec.cni must be defined" []), w).
Proof.
  intros Hcni. unfold Installation.validateCustomResource.
  rewrite bind_run. cbn. by rewrite Hcni.
Qed.

Lemma cni_must_be_defined_witness :
  Installation.validateCustomResource Samples.collaborators Samples.noCNI
  = (Some (Errorf "spec.cni must be defined" []), Samples.noCNI).
Proof.
  exact (cni_must_be_defined Samples.collaborators Samples.noCNI eq_refl).
Defined.

(** C9. Validation leaves the document, and the service endpoint it reads,
    as they were: the world after [validateCustomResource] is the world
    before, whether the verdict is nil or an error. *)
Theorem validation_leaves_document_unchanged
  (X : Installation.Collaborators) (w : Installation.World) :
  (Installation.validateCustomResource X w).2 = w /\
  Installation.Spec (Installation.validateCustomResource X w).2 = Installation.Spec w.
Proof.
  pose proof (frame_validateCustomResource X w) as H. by rewrite H.
Qed.

(** C8. Two calls of the validator, one after the other on the same
    document and facts, return the same verdict: both nil, or the same
    error with the same message and arguments. *)
Theorem validate_twice_same_verdict
  (X : Installation.Collaborators) (w : Installation.World) :
  ((r1 <- Installation.validateCustomResource X ;;
    r2 <- Installation.validateCustomResource X ;;
    ret (r1, r2)) w).1
  = (Installation.validate X w, Installation.validate X w).
Proof.
  pose proof (frame_validateCustomResource X w) as H.
  unfold Installation.validate, Installation.verdict.
  rewrite !bind_run. unfold ret. cbn [fst snd]. by rewrite H.
Qed.

(** C4. The CNI/IPAM table of the spec is what the validator enforces: a
    document whose IPAM type is not in the allow-set of its CNI type (the
    empty set for a CNI type that is not one of the four) fails
    validation; and each pair of the table is admitted, the plain document
    with that pair passing whatever the collaborators are. *)
Theorem cni_ipam_compatibility (X : Installation.Collaborators) :
  (forall w cni,
     Installation.CNI (Installation.Spec w) = Some cni ->
     Installation.IPAM_Type (Installation.IPAM cni)
       ∉ Installation.spec_allowed_ipam (Installation.CNI_Type cni) ->
     is_Some (Installation.validate X w))
  /\
  (forall cniType ipamType,
     ipamType ∈ Installation.spec_allowed_ipam cniType ->
     Installation.validate X (Samples.document cniType ipamType None) = None).
Proof.
  split.
  - intros w [t [i]] Hcni Hnot. rewrite (validate_blocks X w _ Hcni).
    apply fails_andThen_l. cbn in Hnot.
    unfold Installation.spec_allowed_ipam in Hnot.
    unfold Installation.checkPlugin, Installation.PluginCalico, Installation.PluginGKE,
      Installation.PluginAmazonVPC, Installation.PluginAzureVNET,
      Installation.IPAMPluginCalico, Installation.IPAMPluginHostLocal,
      Installation.IPAMPluginAmazonVPC, Installation.IPAMPluginAzureVNET.
    cbn [Installation.CNI_Type Installation.IPAM_Type Installation.IPAM].
    destruct (decide (t = "Calico")) as [->|_].
    { apply fails_andThen_l.
      destruct (decide (i = "Calico")) as [->|_]; [exfalso; apply Hnot; by left|].
      destruct (decide (i = "HostLocal")) as [->|_];
        [exfalso; apply Hnot; right; by left|].
      by eexists. }
    destruct (decide (t = "GKE")) as [->|_].
    { apply fails_andThen_r; [auto with frame|].
      destruct (decide (i = "HostLocal")) as [->|_]; [exfalso; apply Hnot; by left|].
      by eexists. }
    destruct (decide (t = "AmazonVPC")) as [->|_].
    { apply fails_andThen_r; [auto with frame|].
      destruct (decide (i = "AmazonVPC")) as [->|_]; [exfalso; apply Hnot; by left|].
      by eexists. }
    destruct (decide (t = "AzureVNET")) as [->|_].
    { apply fails_andThen_r; [auto with frame|].
      destruct (decide (i = "AzureVNET")) as [->|_]; [exfalso; apply Hnot; by left|].
      by eexists. }
    by eexists.
  - intros c i Hin. unfold Installation.spec_allowed_ipam in Hin.
    destruct X as [pc vs v1 v2 v3 v4 v5 we g4 nm].
    repeat case_decide; subst;
      repeat (apply elem_of_cons in Hin as [->|Hin]);
      try (by apply elem_of_nil in Hin);
      vm_compute; by destruct (we _).
Qed.

Lemma cni_ipam_compatibility_witness :
  is_Some (Installation.validate Samples.collaborators Samples.scenarioB).
Proof.
  apply (proj1 (cni_ipam_compatibility Samples.collaborators) Samples.scenarioB
           {| Installation.CNI_Type := "Calico";
              Installation.IPAM := {| Installation.IPAM_Type := "AmazonVPC" |} |}
           eq_refl).
  vm_compute. intros H. repeat (apply elem_of_cons in H as [H|H]; [discriminate H|]).
  by apply elem_of_nil in H.
Defined.

(** Scenarios A and B of the spec. *)
Example scenario_A :
  Installation.validate Samples.collaborators Samples.scenarioA = None.
Proof. by vm_compute. Qed.

Example scenario_B :
  Installation.validate Samples.collaborators Samples.scenarioB
  = Some (Errorf "spec.cni.ipam.type %s is not compatible with spec.cni.type %s, valid IPAM values %s"
            [AStr "AmazonVPC"; AStr "Calico"; AStr "Calico,HostLocal"]).
Proof. by vm_compute. Qed.

(** ** Rules on the IP pools *)

Section PoolFacts.
Import Installation.
Variable X : Collaborators.

(** A failing pool fails the document. *)
Lemma fails_by_pool (w : World) (cni : CNISpec) (cn : CalicoNetworkSpec) (pool : IPPool) :
  CNI (Spec w) = Some cni -> CalicoNetwork (Spec w) = Some cn ->
  pool ∈ IPPools cn ->
  is_Some (verdict (checkPool cni cn (isDataplane cn LinuxDataplaneBPF) pool) w) ->
  is_Some (validate X w).
Proof.
  intros Hcni Hcn Hin Hpool. rewrite (validate_blocks X w _ Hcni).
  apply fails_andThen_r; [auto with frame|]. apply fails_andThen_l.
  unfold checkCalicoNetwork, verdict. rewrite bind_run. cbn [reads fst snd].
  rewrite Hcn. apply fails_andThen_l.
  eapply fails_forEach; eauto with frame.
Qed.

(** What the validator does enforce for a CNI type other than Calico: a
    pool whose encapsulation is neither None nor unset fails validation,
    and BGP set to Enabled fails validation when [calicoNetwork] lists at
    least one IP pool, the check being written inside the loop over the
    pools. *)
Theorem non_calico_pool_rules (w : World) (cni : CNISpec) (cn : CalicoNetworkSpec) :
  CNI (Spec w) = Some cni -> CNI_Type cni <> PluginCalico ->
  CalicoNetwork (Spec w) = Some cn ->
  ((exists pool, pool ∈ IPPools cn /\ Encapsulation pool <> "" /\
                 Encapsulation pool <> EncapsulationNone) ->
   is_Some (validate X w))
  /\
  (BGP cn = Some BGPEnabled -> IPPools cn <> [] -> is_Some (validate X w)).
Proof.
  intros Hcni Hnc Hcn. split.
  - intros (pool & Hin & Hne & Hnn).
    apply (fails_by_pool w cni cn pool Hcni Hcn Hin).
    unfold checkPool. apply fails_andThen_r; [frame|].
    destruct (decide (CNI_Type cni = PluginCalico)) as [?|_]; [done|].
    apply fails_andThen_l.
    destruct (decide (Encapsulation pool = "")) as [?|_]; [done|].
    destruct (decide (Encapsulation pool = EncapsulationNone)) as [?|_]; [done|].
    by eexists.
  - intros Hbgp Hpools. destruct (IPPools cn) as [|pool pools] eqn:Hp; [done|].
    apply (fails_by_pool w cni cn pool Hcni Hcn); [rewrite Hp; by left|].
    unfold checkPool. apply fails_andThen_r; [frame|].
    destruct (decide (CNI_Type cni = PluginCalico)) as [?|_]; [done|].
    apply fails_andThen_r; [frame|]. rewrite Hbgp.
    by eexists.
Qed.

End PoolFacts.

(** C7. The code misses the rule that its own comment states ("If not
    using Calico CNI, then the encapsulation must be None and BGP must be
    disabled"): the test of BGP reads no field of the pool, yet it is
    reached only from inside the loop over the pools. With the GKE
    plugin, BGP set to Enabled and no IP pool, the document is accepted;
    the same document with one unencapsulated pool is rejected with the
    error of the rule. *)
Lemma non_calico_bgp_enabled_accepted :
  Installation.validate Samples.collaborators Samples.gkeBGP = None /\
  Installation.validate Samples.collaborators Samples.gkeBGPPool
  = Some (Errorf "BGP is not supported when using non-Calico CNI" []).
Proof. split; by vm_compute. Qed.

(** So the rule as the spec states it does not hold of the code. *)
Lemma bgp_enabled_without_pools_passes :
  ~ Installation.spec_non_calico_forbids_bgp Samples.collaborators.
Proof.
  intros H.
  destruct (H Samples.gkeBGP
              {| Installation.CNI_Type := "GKE";
                 Installation.IPAM := {| Installation.IPAM_Type := "HostLocal" |} |}
              (Samples.network None [] (Some "Enabled") None None)
              eq_refl ltac:(discriminate) eq_refl eq_refl) as [e He].
  vm_compute in He. discriminate He.
Qed.

Lemma non_calico_pool_rules_witness :
  is_Some (Installation.validate Samples.collaborators Samples.gkeVXLAN) /\
  is_Some (Installation.validate Samples.collaborators Samples.gkeBGPPool).
Proof.
  split.
  - apply (proj1 (non_calico_pool_rules Samples.collaborators Samples.gkeVXLAN
                    {| Installation.CNI_Type := "GKE";
                       Installation.IPAM := {| Installation.IPAM_Type := "HostLocal" |} |}
                    (Samples.network None [Samples.v4pool] None None None)
                    eq_refl ltac:(discriminate) eq_refl)).
    exists Samples.v4pool. split; [by left|]. split; discriminate.
  - apply (proj2 (non_calico_pool_rules Samples.collaborators Samples.gkeBGPPool
                    {| Installation.CNI_Type := "GKE";
                       Installation.IPAM := {| Installation.IPAM_Type := "HostLocal" |} |}
                    (Samples.network None
                       [{| Installation.CIDR := "10.0.0.0/8";
                           Installation.Encapsulation := "None" |}]
                       (Some "Enabled") None None)
                    eq_refl ltac:(discriminate) eq_refl)).
    + reflexivity.
    + discriminate.
Defined.

(** ** Node address autodetection *)

Section AutodetectionFacts.
Import Installation.
Variable X : Collaborators.

Lemma cidrLoop_firstInvalid (cidrs : list string) :
  cidrLoop X cidrs = invalidCIDRError <$> firstInvalidCIDR X cidrs.
Proof.
  unfold firstInvalidCIDR. induction cidrs as [|c cidrs IH]; cbn; [done|].
  by destruct (ParseCIDR X c).
Qed.

Lemma validateNodeAddressDetection_spec (ad : NodeAddressAutodetection) :
  validateNodeAddressDetection X ad
  = match firstInvalidCIDR X (CIDRS ad) with
    | Some c => Some (invalidCIDRError c)
    | None =>
        if (1 <? spec_methods_set ad)%nat then Some exclusivityError else None
    end.
Proof.
  unfold validateNodeAddressDetection, spec_methods_set.
  destruct ad as [ff k i si cr cidrs]. cbn [FirstFound Kubernetes Interface
    SkipInterface CanReach CIDRS].
  rewrite cidrLoop_firstInvalid.
  destruct cidrs as [|c cidrs].
  - cbn [length Nat.eqb negb firstInvalidCIDR List.find].
    destruct i as [|? ?], si as [|? ?], cr as [|? ?], ff as [[|]|], k as [?|];
      reflexivity.
  - destruct (firstInvalidCIDR X (c :: cidrs)) as [bad|]; [reflexivity|].
    cbn [length Nat.eqb negb fmap option_fmap option_map].
    destruct i as [|? ?], si as [|? ?], cr as [|? ?], ff as [[|]|], k as [?|];
      reflexivity.
Qed.

Lemma fails_by_autodetection (w : World) (cni : CNISpec) (cn : CalicoNetworkSpec)
  (ad : NodeAddressAutodetection) :
  CNI (Spec w) = Some cni -> CalicoNetwork (Spec w) = Some cn ->
  NodeAddressAutodetectionV4 cn = Some ad \/ NodeAddressAutodetectionV6 cn = Some ad ->
  is_Some (validateNodeAddressDetection X ad) ->
  is_Some (validate X w).
Proof.
  intros Hcni Hcn Had Hfail. rewrite (validate_blocks X w _ Hcni).
  apply fails_andThen_r; [auto with frame|]. apply fails_andThen_l.
  unfold checkCalicoNetwork, verdict at 1. rewrite bind_run. cbn [reads fst snd].
  rewrite Hcn.
  apply fails_andThen_r; [frame|]. apply fails_andThen_r; [frame|].
  destruct Had as [Had|Had]; rewrite Had.
  - by apply fails_andThen_l.
  - apply fails_andThen_r; [frame|]. by apply fails_andThen_l.
Qed.

(** C6, as amended. [validateNodeAddressDetection] first walks the CIDR
    list: if a listed CIDR does not parse, it fails with the invalid-CIDR
    error for the first such CIDR; otherwise, if more than one of the six
    methods is set, whichever they are, it fails with the exclusivity
    rule; otherwise it passes. A document whose
    [nodeAddressAutodetectionV4] or [nodeAddressAutodetectionV6] fails
    this check fails validation. *)
Theorem autodetection_exclusivity :
  (forall ad,
     validateNodeAddressDetection X ad
     = match firstInvalidCIDR X (CIDRS ad) with
       | Some c => Some (invalidCIDRError c)
       | None =>
           if (1 <? spec_methods_set ad)%nat then Some exclusivityError else None
       end)
  /\
  (forall w cni cn ad,
     CNI (Spec w) = Some cni -> CalicoNetwork (Spec w) = Some cn ->
     NodeAddressAutodetectionV4 cn = Some ad \/ NodeAddressAutodetectionV6 cn = Some ad ->
     (1 < spec_methods_set ad)%nat \/ is_Some (firstInvalidCIDR X (CIDRS ad)) ->
     is_Some (validate X w)).
Proof.
  split; [exact validateNodeAddressDetection_spec|].
  intros w cni cn ad Hcni Hcn Had Hbad.
  apply (fails_by_autodetection w cni cn ad Hcni Hcn Had).
  rewrite validateNodeAddressDetection_spec.
  destruct (firstInvalidCIDR X (CIDRS ad)) as [c|]; [by eexists|].
  destruct Hbad as [Hmany|[c Hc]]; [|done].
  destruct (Nat.ltb_spec 1 (spec_methods_set ad)); [by eexists|lia].
Qed.

End AutodetectionFacts.

(** C6, as stated, fails: with an interface and a CIDR list that holds an
    entry that is not a network, two methods are set and the error is the
    invalid-CIDR one, not the exclusivity rule. *)
Lemma two_methods_invalid_cidr_reported :
  ~ Installation.spec_exclusivity_rule Samples.collaborators.
Proof.
  intros H. specialize (H Samples.twoMethodsBadCIDR).
  vm_compute in H. specialize (H ltac:(repeat constructor)). discriminate H.
Qed.

Lemma autodetection_exclusivity_witness :
  is_Some (Installation.validate Samples.collaborators Samples.twoMethodsDocument).
Proof.
  apply (proj2 (autodetection_exclusivity Samples.collaborators)
           Samples.twoMethodsDocument
           {| Installation.CNI_Type := "Calico";
              Installation.IPAM := {| Installation.IPAM_Type := "Calico" |} |}
           Samples.twoMethodsNetwork Samples.twoMethods eq_refl eq_refl).
  - left. reflexivity.
  - left. vm_compute. lia.
Defined.

(** ** The BPF dataplane and node address autodetection *)

Section VerdictSteps.
Import Installation.

Lemma verdict_reads {A} (f : World -> A) (k : A -> V) (w : World) :
  verdict (bind (reads f) k) w = verdict (k (f w)) w.
Proof. reflexivity. Qed.

Lemma verdict_ret (r : option error) (w : World) : verdict (ret r) w = r.
Proof. reflexivity. Qed.

Lemma verdict_failIf (c : bool) (e : error) (w : World) :
  verdict (failIf c e) w = if c then Some e else None.
Proof. by destruct c. Qed.

End VerdictSteps.

(** Proves that a step has the same verdict in two worlds, following the
    structure of the step; what is read from the two worlds has to reduce
    to the same term. *)
Ltac same_verdict_step :=
  match goal with
  | |- Installation.verdict (bind (reads _) _) _ = Installation.verdict (bind (reads _) _) _ =>
      rewrite !verdict_reads;
      cbn [Installation.Spec Installation.Endpoint Installation.Variant
           Installation.KubernetesProvider Installation.CNI Installation.CalicoNetwork
           Installation.Logging Installation.FlexVolumePath
           Installation.KubeletVolumePluginPath Installation.NodeUpdateStrategy
           Installation.ControlPlaneNodeSelector Installation.ControlPlaneReplicas
           Installation.ComponentResources Installation.NonPrivileged
           Installation.CalicoNodeDaemonSet Installation.CalicoNodeWindowsDaemonSet
           Installation.CalicoKubeControllersDeployment Installation.TyphaDeployment
           Installation.CSINodeDriverDaemonSet Installation.ServiceCIDRs
           Installation.WindowsNodes Installation.FIPSMode Installation.Azure_
           Installation.withV4 Installation.withV6 Installation.withDataplane
           Installation.LinuxDataplane Installation.IPPools Installation.BGP
           Installation.NodeAddressAutodetectionV4
           Installation.NodeAddressAutodetectionV6 Installation.HostPorts
           Installation.MultiInterfaceMode Installation.ContainerIPForwarding
           Installation.Sysctl Installation.LinuxPolicySetupTimeoutSeconds]
  | |- Installation.verdict (Installation.andThen _ _) _
       = Installation.verdict (Installation.andThen _ _) _ =>
      apply verdict_andThen_ext; [frame|frame| |]
  | |- Installation.verdict (Installation.forEach _ _) _
       = Installation.verdict (Installation.forEach _ _) _ =>
      apply verdict_forEach_ext; [intros ?; frame|intros ?; frame|intros ?]
  | |- Installation.verdict (Installation.failIf _ _) _
       = Installation.verdict (Installation.failIf _ _) _ =>
      rewrite !verdict_failIf; reflexivity
  | |- Installation.verdict (match ?x with _ => _ end) _
       = Installation.verdict (match ?x with _ => _ end) _ => destruct x
  | H : ?x = ?y
    |- Installation.verdict (match ?x with _ => _ end) _
       = Installation.verdict (match ?y with _ => _ end) _ => rewrite H
  | |- Installation.verdict _ _ = Installation.verdict _ _ =>
      first [reflexivity | rewrite !verdict_ret; congruence]
  end.
Ltac same_verdict := repeat same_verdict_step.

Section BPFFacts.
Import Installation.
Variable X : Collaborators.

(** The fields of the two documents that the steps read. *)
Ltac network_fields :=
  cbn [withV4 withV6 withDataplane LinuxDataplane IPPools BGP
       NodeAddressAutodetectionV4 NodeAddressAutodetectionV6 HostPorts
       MultiInterfaceMode ContainerIPForwarding Sysctl
       LinuxPolicySetupTimeoutSeconds].

(** Under the BPF dataplane with [nodeAddressAutodetectionV4] set to a
    value that passes its own check, the verdict is the one that the
    document with the field unset gets under the Iptables dataplane,
    provided the other two demands of BPF are met: on
    [nodeAddressAutodetectionV6] and on [nonPrivileged]. *)
Lemma setV4_verdict (w : World) (cni : CNISpec) (cn : CalicoNetworkSpec)
  (ad : NodeAddressAutodetection) :
  CNI (Spec w) = Some cni ->
  LinuxDataplane cn = Some LinuxDataplaneBPF ->
  NodeAddressAutodetectionV4 cn = None ->
  NonPrivileged (Spec w) <> Some NonPrivilegedEnabled ->
  (forall pool, pool ∈ IPPools cn -> isIPv4 pool = false ->
     NodeAddressAutodetectionV6 cn <> None) ->
  validateNodeAddressDetection X ad = None ->
  WindowsEnabled X (Spec (setV4 ad cn w))
  = WindowsEnabled X (Spec (setDataplane LinuxDataplaneIptables cn w)) ->
  validate X (setV4 ad cn w)
  = validate X (setDataplane LinuxDataplaneIptables cn w).
Proof.
  intros Hcni Hbpf Hunset Hnp H6 Had HW.
  rewrite (validate_blocks X (setV4 ad cn w) cni Hcni),
          (validate_blocks X (setDataplane LinuxDataplaneIptables cn w) cni Hcni).
  unfold checkPlugin, checkProvider, checkCalicoCNILogging,
    checkPaths, checkTopology, checkSelectorKey, checkOverrides, checkOverride,
    checkNonCalicoLogging, checkWindows, checkFIPSAndAzure.
  unfold setV4, setDataplane, withCalicoNetwork in *.
  cbn [Spec] in HW.
  same_verdict.
  - unfold checkCalicoNetwork. rewrite !verdict_reads. cbn [Spec CalicoNetwork].
    unfold isDataplane. network_fields. rewrite Hbpf.
    apply verdict_andThen_ext; [frame|frame| |].
    + apply verdict_forEach_ext_in; [intros ?; frame|intros ?; frame|].
      intros pool Hin. unfold checkPool, bgpOff. network_fields.
      apply verdict_andThen_ext; [frame|frame| |same_verdict].
      specialize (H6 pool Hin). unfold isIPv4 in H6.
      destruct (negb (Contains (CIDR pool) ":")).
      * rewrite !verdict_failIf. reflexivity.
      * apply verdict_andThen_ext; [frame|frame|same_verdict|].
        rewrite !verdict_failIf.
        rewrite (bool_decide_eq_false_2 _ (H6 eq_refl)). reflexivity.
    + unfold checkVPP, checkAutodetection, checkHostPorts, checkPolicySetupTimeout,
        isDataplane, bgpOff.
      network_fields. rewrite Hbpf, Hunset.
      same_verdict.
      by rewrite verdict_ret, Had.
  - unfold checkNonPrivileged. rewrite !verdict_reads. cbn [Spec NonPrivileged].
    by rewrite (bool_decide_eq_false_2 _ Hnp).
Qed.

Lemma setV6_verdict (w : World) (cni : CNISpec) (cn : CalicoNetworkSpec)
  (ad : NodeAddressAutodetection) :
  CNI (Spec w) = Some cni ->
  LinuxDataplane cn = Some LinuxDataplaneBPF ->
  NodeAddressAutodetectionV6 cn = None ->
  NonPrivileged (Spec w) <> Some NonPrivilegedEnabled ->
  (forall pool, pool ∈ IPPools cn -> isIPv4 pool = true ->
     NodeAddressAutodetectionV4 cn <> None) ->
  validateNodeAddressDetection X ad = None ->
  WindowsEnabled X (Spec (setV6 ad cn w))
  = WindowsEnabled X (Spec (setDataplane LinuxDataplaneIptables cn w)) ->
  validate X (setV6 ad cn w)
  = validate X (setDataplane LinuxDataplaneIptables cn w).
Proof.
  intros Hcni Hbpf Hunset Hnp H4 Had HW.
  rewrite (validate_blocks X (setV6 ad cn w) cni Hcni),
          (validate_blocks X (setDataplane LinuxDataplaneIptables cn w) cni Hcni).
  unfold checkPlugin, checkProvider, checkCalicoCNILogging,
    checkPaths, checkTopology, checkSelectorKey, checkOverrides, checkOverride,
    checkNonCalicoLogging, checkWindows, checkFIPSAndAzure.
  unfold setV6, setDataplane, withCalicoNetwork in *.
  cbn [Spec] in HW.
  same_verdict.
  - unfold checkCalicoNetwork. rewrite !verdict_reads. cbn [Spec CalicoNetwork].
    unfold isDataplane. network_fields. rewrite Hbpf.
    apply verdict_andThen_ext; [frame|frame| |].
    + apply verdict_forEach_ext_in; [intros ?; frame|intros ?; frame|].
      intros pool Hin. unfold checkPool, bgpOff. network_fields.
      apply verdict_andThen_ext; [frame|frame| |same_verdict].
      specialize (H4 pool Hin). unfold isIPv4 in H4.
      destruct (negb (Contains (CIDR pool) ":")).
      * rewrite !verdict_failIf.
        rewrite (bool_decide_eq_false_2 _ (H4 eq_refl)). reflexivity.
      * apply verdict_andThen_ext; [frame|frame|same_verdict|].
        rewrite !verdict_failIf. reflexivity.
    + unfold checkVPP, checkAutodetection, checkHostPorts, checkPolicySetupTimeout,
        isDataplane, bgpOff.
      network_fields. rewrite Hbpf, Hunset.
      same_verdict.
      by rewrite verdict_ret, Had.
  - unfold checkNonPrivileged. rewrite !verdict_reads. cbn [Spec NonPrivileged].
    by rewrite (bool_decide_eq_false_2 _ Hnp).
Qed.

(** What a document with the BPF dataplane that passes has satisfied of
    the demands of BPF. *)
Lemma bpf_passes_inv (w : World) (cni : CNISpec) (cn : CalicoNetworkSpec) :
  CNI (Spec w) = Some cni -> CalicoNetwork (Spec w) = Some cn ->
  LinuxDataplane cn = Some LinuxDataplaneBPF ->
  validate X w = None ->
  NonPrivileged (Spec w) <> Some NonPrivilegedEnabled /\
  (forall pool, pool ∈ IPPools cn -> isIPv4 pool = true ->
     NodeAddressAutodetectionV4 cn <> None) /\
  (forall pool, pool ∈ IPPools cn -> isIPv4 pool = false ->
     NodeAddressAutodetectionV6 cn <> None) /\
  (forall ad, NodeAddressAutodetectionV4 cn = Some ad ->
     validateNodeAddressDetection X ad = None) /\
  (forall ad, NodeAddressAutodetectionV6 cn = Some ad ->
     validateNodeAddressDetection X ad = None).
Proof.
  intros Hcni Hcn Hbpf Hpass.
  rewrite (validate_blocks X w _ Hcni) in Hpass.
  apply passes_andThen in Hpass as [_ Hpass]; [|frame].
  apply passes_andThen in Hpass as [Hnet Hpass]; [|frame].
  apply passes_andThen in Hpass as [_ Hpass]; [|frame].
  apply passes_andThen in Hpass as [_ Hpass]; [|frame].
  apply passes_andThen in Hpass as [Hnp _]; [|frame].
  unfold checkCalicoNetwork in Hnet. rewrite verdict_reads, Hcn in Hnet.
  apply passes_andThen in Hnet as [Hpools Hnet]; [|frame].
  apply passes_andThen in Hnet as [_ Hnet]; [|frame].
  apply passes_andThen in Hnet as [Hv4 Hnet]; [|frame].
  apply passes_andThen in Hnet as [Hv6 _]; [|frame].
  unfold isDataplane in Hpools. rewrite Hbpf in Hpools.
  rewrite bool_decide_eq_true_2 in Hpools by done.
  split_and!.
  - intros Henabled. unfold checkNonPrivileged in Hnp.
    rewrite verdict_reads, Henabled, Hcn in Hnp.
    rewrite bool_decide_eq_true_2 in Hnp by done.
    apply passes_andThen in Hnp as [Hnp _]; [|frame].
    unfold isDataplane in Hnp. rewrite Hbpf, verdict_failIf in Hnp.
    by rewrite bool_decide_eq_true_2 in Hnp.
  - intros pool Hin Hv Hnone.
    eapply passes_forEach in Hpools; [|intros ?; frame|exact Hin].
    unfold checkPool in Hpools.
    apply passes_andThen in Hpools as [Hfam _]; [|frame].
    unfold isIPv4 in Hv. rewrite Hv, verdict_failIf, Hnone in Hfam.
    by rewrite bool_decide_eq_true_2 in Hfam.
  - intros pool Hin Hv Hnone.
    eapply passes_forEach in Hpools; [|intros ?; frame|exact Hin].
    unfold checkPool in Hpools.
    apply passes_andThen in Hpools as [Hfam _]; [|frame].
    unfold isIPv4 in Hv. rewrite Hv in Hfam.
    apply passes_andThen in Hfam as [_ Hfam]; [|frame].
    rewrite verdict_failIf, Hnone in Hfam.
    by rewrite bool_decide_eq_true_2 in Hfam.
  - intros ad Had. by rewrite Had in Hv4.
  - intros ad Had. by rewrite Had in Hv6.
Qed.

(** C5. Under the BPF dataplane, a document with an IPv4 pool and no
    [nodeAddressAutodetectionV4] fails validation, and setting the field
    makes it pass exactly when it is otherwise valid. Otherwise valid
    means: the document breaks no rule that does not hinge on the BPF
    dataplane, that is, as it stands it passes under the Iptables
    dataplane; it meets the other two demands of BPF, which are
    [nodeAddressAutodetectionV6] for its IPv6 pools and [nonPrivileged]
    not Enabled; and the value that the field is set to passes
    [validateNodeAddressDetection]. (The Windows-enablement of the
    collaborators is taken not to look at the two fields changed.) The
    same holds for an IPv6 pool and [nodeAddressAutodetectionV6]. *)
Theorem bpf_requires_autodetection (w : World) (cni : CNISpec) (cn : CalicoNetworkSpec) :
  CNI (Spec w) = Some cni -> CalicoNetwork (Spec w) = Some cn ->
  LinuxDataplane cn = Some LinuxDataplaneBPF ->
  ((exists pool, pool ∈ IPPools cn /\ isIPv4 pool = true) ->
   NodeAddressAutodetectionV4 cn = None ->
   is_Some (validate X w) /\
   forall ad,
     WindowsEnabled X (Spec (setV4 ad cn w))
     = WindowsEnabled X (Spec (setDataplane LinuxDataplaneIptables cn w)) ->
     (validate X (setV4 ad cn w) = None <->
      validate X (setDataplane LinuxDataplaneIptables cn w) = None /\
      NonPrivileged (Spec w) <> Some NonPrivilegedEnabled /\
      (forall pool, pool ∈ IPPools cn -> isIPv4 pool = false ->
         NodeAddressAutodetectionV6 cn <> None) /\
      validateNodeAddressDetection X ad = None))
  /\
  ((exists pool, pool ∈ IPPools cn /\ isIPv4 pool = false) ->
   NodeAddressAutodetectionV6 cn = None ->
   is_Some (validate X w) /\
   forall ad,
     WindowsEnabled X (Spec (setV6 ad cn w))
     = WindowsEnabled X (Spec (setDataplane LinuxDataplaneIptables cn w)) ->
     (validate X (setV6 ad cn w) = None <->
      validate X (setDataplane LinuxDataplaneIptables cn w) = None /\
      NonPrivileged (Spec w) <> Some NonPrivilegedEnabled /\
      (forall pool, pool ∈ IPPools cn -> isIPv4 pool = true ->
         NodeAddressAutodetectionV4 cn <> None) /\
      validateNodeAddressDetection X ad = None)).
Proof.
  intros Hcni Hcn Hbpf. split.
  - intros (pool & Hin & Hv4) Hunset. split.
    + apply (fails_by_pool X w cni cn pool Hcni Hcn Hin).
      unfold checkPool, isDataplane. apply fails_andThen_l.
      unfold isIPv4 in Hv4. rewrite Hv4, Hbpf, Hunset. by eexists.
    + intros ad HW. split.
      * intros Hpass.
        destruct (bpf_passes_inv (setV4 ad cn w) cni (withV4 ad cn) Hcni eq_refl Hbpf Hpass)
          as (Hnp & _ & H6 & Had & _).
        specialize (Had ad eq_refl). cbn in Hnp, H6.
        rewrite <- (setV4_verdict w cni cn ad) by done.
        by split_and!.
      * intros (Hbase & Hnp & H6 & Had).
        by rewrite (setV4_verdict w cni cn ad).
  - intros (pool & Hin & Hv6) Hunset. split.
    + apply (fails_by_pool X w cni cn pool Hcni Hcn Hin).
      unfold checkPool, isDataplane. apply fails_andThen_l.
      unfold isIPv4 in Hv6. rewrite Hv6, Hbpf, Hunset.
      apply fails_andThen_r; [frame|]. by eexists.
    + intros ad HW. split.
      * intros Hpass.
        destruct (bpf_passes_inv (setV6 ad cn w) cni (withV6 ad cn) Hcni eq_refl Hbpf Hpass)
          as (Hnp & H4 & _ & _ & Had).
        specialize (Had ad eq_refl). cbn in Hnp, H4.
        rewrite <- (setV6_verdict w cni cn ad) by done.
        by split_and!.
      * intros (Hbase & Hnp & H4 & Had).
        by rewrite (setV6_verdict w cni cn ad).
Qed.

End BPFFacts.

Lemma bpf_requires_autodetection_witness :
  (is_Some (Installation.validate Samples.collaborators Samples.bpfUnset) /\
   Installation.validate Samples.collaborators
     (Installation.setV4 (Samples.autodetect "" (Some true) []) (Samples.bpfNetwork None)
        Samples.bpfUnset) = None) /\
  (is_Some (Installation.validate Samples.collaborators Samples.bpf6Unset) /\
   Installation.validate Samples.collaborators
     (Installation.setV6 (Samples.autodetect "" (Some true) []) (Samples.bpfNetwork6 None)
        Samples.bpf6Unset) = None).
Proof.
  split.
  - destruct (proj1 (bpf_requires_autodetection Samples.collaborators Samples.bpfUnset
                       {| Installation.CNI_Type := "Calico";
                          Installation.IPAM := {| Installation.IPAM_Type := "Calico" |} |}
                       (Samples.bpfNetwork None) eq_refl eq_refl eq_refl)
                (ex_intro _ Samples.v4pool (conj (list_elem_of_here _ _) eq_refl))
                eq_refl) as [Hfails Hset].
    split; [exact Hfails|].
    apply (proj2 (Hset (Samples.autodetect "" (Some true) []) eq_refl)).
    split_and!.
    + vm_compute. reflexivity.
    + discriminate.
    + intros pool Hin Hv6. exfalso.
      apply list_elem_of_singleton in Hin. subst pool. discriminate Hv6.
    + vm_compute. reflexivity.
  - destruct (proj2 (bpf_requires_autodetection Samples.collaborators Samples.bpf6Unset
                       {| Installation.CNI_Type := "Calico";
                          Installation.IPAM := {| Installation.IPAM_Type := "Calico" |} |}
                       (Samples.bpfNetwork6 None) eq_refl eq_refl eq_refl)
                (ex_intro _ Samples.v6pool (conj (list_elem_of_here _ _) eq_refl))
                eq_refl) as [Hfails Hset].
    split; [exact Hfails|].
    apply (proj2 (Hset (Samples.autodetect "" (Some true) []) eq_refl)).
    split_and!.
    + vm_compute. reflexivity.
    + discriminate.
    + intros pool Hin Hv4. exfalso.
      apply list_elem_of_singleton in Hin. subst pool. discriminate Hv4.
    + vm_compute. reflexivity.
Defined.

(** The two halves on the sample documents: unset, the error is the BPF
    rule; set, the document passes; and the IPv6 case. *)
Example bpf_unset_fails :
  Installation.validate Samples.collaborators Samples.bpfUnset
  = Some (Errorf "spec.calicoNetwork.nodeAddressAutodetectionV4 is required for the BPF dataplane" []).
Proof. by vm_compute. Qed.

Example bpf_set_passes :
  Installation.validate Samples.collaborators Samples.bpfSet = None.
Proof. by vm_compute. Qed.

Example bpf6_unset_fails :
  Installation.validate Samples.collaborators Samples.bpf6Unset
  = Some (Errorf "spec.calicoNetwork.nodeAddressAutodetectionV6 is required for the BPF dataplane" []).
Proof. by vm_compute. Qed.

(** * Further properties *)

(** ** The termination watcher, in every run *)

Section WatcherBounds.
Import Lifecycle.
Variable cluster : Cluster.

Local Open Scope N_scope.

Lemma waitLoop_sleeps (n : nat) : forall deadline p,
  deadline <= now p + N.of_nat n * Second ->
  exists j, (j <= n)%nat /\
    sleeps (waitLoop cluster (S n) deadline p).2 = replicate j (1 * Second) ++ sleeps p /\
    (length (queries (waitLoop cluster (S n) deadline p).2) <= length (queries p) + n)%nat.
Proof.
  induction n as [|n IH]; intros deadline p Hfuel.
  - exists 0%nat. cbn [waitLoop]. st_run.
    destruct (N.leb_spec deadline (now p)); [|lia].
    st_run. cbn. split; [lia|]. split; [done|lia].
  - assert (Hfuel' : deadline <= now p + Second + N.of_nat n * Second) by lia.
    clear Hfuel. remember (S n) as fuel eqn:Hfuel in *.
    cbn [waitLoop]. st_run.
    destruct (N.leb_spec deadline (now p)) as [Hle|Hlt].
    + exists 0%nat. st_run. cbn. split; [lia|]. split; [done|lia].
    + st_run. unfold clientGet. cbn [fst snd].
      destruct (result (cluster (length (queries p)) (now p))) as [d| |m];
        cbn [IsNotFound]; st_run.
      2:{ exists 0%nat. cbn. split; [lia|]. split; [done|lia]. }
      all: match goal with |- context [waitLoop _ _ _ ?q] =>
          destruct (IH deadline q) as (j & Hj & Hs & Hq)
        end; [cbn; unfold Second in *; lia|].
      all: subst fuel; exists (S j); cbn [queries sleeps length] in Hs, Hq.
      all: split; [lia|]; split; [|lia].
      all: rewrite replicate_S_end, <- app_assoc; exact Hs.
Qed.

Lemma queryLoop_bound (fuel : nat) : forall retries p,
  (0 < fuel)%nat -> (5 < retries + fuel)%nat -> (retries <= 5)%nat ->
  exists r p' j,
    queryLoop cluster fuel retries p = (Some r, p') /\
    (retries + j <= 5)%nat /\
    sleeps p' = replicate j (1 * Second) ++ sleeps p /\
    length (queries p') = S (length (queries p) + j) /\
    cancelled p' = cancelled p.
Proof.
  induction fuel as [|fuel IH]; intros retries p Hpos Hfuel Hr; [lia|].
  cbn [queryLoop]. st_run. unfold clientGet. cbn [fst snd].
  destruct (result (cluster (length (queries p)) (now p))) as [d| |m];
    cbn [IsNotFound]; st_run.
  1,2: eexists _, _, 0%nat; split; [reflexivity|]; cbn;
       rewrite Nat.add_0_r; by split_and!; try lia.
  destruct (Nat.leb_spec 5 retries) as [Hge|Hlt]; st_run.
  - eexists _, _, 0%nat. split; [reflexivity|]. cbn.
    rewrite Nat.add_0_r. by split_and!; try lia.
  - match goal with |- context [queryLoop _ _ _ ?q] =>
      destruct (IH (S retries) q) as (r & p' & j & Hrun & Hj & Hs & Hq & Hc)
    end; [lia..|].
    exists r, p', (S j). rewrite Hrun. cbn in Hs, Hq, Hc.
    split; [done|]. split; [lia|]. split; [|split; [lia|done]].
    rewrite replicate_S_end, <- app_assoc. exact Hs.
Qed.

(** X1. Whatever the cluster answers, the termination watcher returns and
    cancels the main context, and it has held the shutdown up by at most
    65 sleeps of one second (5 retries and 60 seconds of waiting) and at
    most 66 queries. *)
Theorem watcher_always_returns (t0 : N) :
  exists e p j,
    terminationWatcher cluster queryFuel waitFuel (start t0) = (Some e, p) /\
    cancelled p = true /\
    sleeps p = replicate j (1 * Second) /\ (j <= 65)%nat /\
    (length (queries p) <= 66)%nat.
Proof.
  destruct (queryLoop_bound queryFuel 0 (start t0)) as (r & p1 & j & Hloop & Hj & Hs & Hq & _);
    [unfold queryFuel; lia..|].
  cbn in Hs, Hq. rewrite app_nil_r in Hs.
  unfold terminationWatcher, watcherBody. st_run. rewrite Hloop. st_run.
  destruct r as [e|]; st_run.
  { eexists _, _, j. split; [reflexivity|]. cbn. split_and!; try done; lia. }
  destruct (DeletionTimestamp (instance p1)) as [ts|]; st_run.
  2:{ eexists _, _, j. split; [reflexivity|]. cbn. split_and!; try done; lia. }
  unfold waitFuel, to.
  match goal with |- context [waitLoop _ _ ?dl ?q] =>
    destruct (waitLoop_spec cluster 60 dl q) as (e & p' & polls & Hrun & _);
    [cbn; lia|];
    destruct (waitLoop_sleeps 60 dl q) as (i & Hi & Hs' & Hq'); [cbn; lia|]
  end.
  rewrite Hrun in Hs', Hq' |- *. cbn in Hs', Hq'. st_run.
  exists e. eexists. exists (i + j)%nat. split; [reflexivity|]. cbn.
  split; [done|]. split; [by rewrite Hs', Hs, replicate_add|]. split; lia.
Qed.

Lemma queryLoop_retry_log (k : nat) : forall fuel retries p,
  (retries + k <= 5)%nat ->
  (forall i, (i < k)%nat -> failing cluster (length (queries p) + i)) ->
  exists p' lines,
    queryLoop cluster (k + fuel) retries p = queryLoop cluster fuel (retries + k) p' /\
    length (queries p') = (length (queries p) + k)%nat /\
    sleeps p' = replicate k (1 * Second) ++ sleeps p /\
    log p' = lines ++ log p /\ Forall retryLine lines /\ length lines = k /\
    cancelled p' = cancelled p /\
    instance p' = instance p.
Proof.
  induction k as [|k IH]; intros fuel retries p Hr Hfail.
  - exists p, []. rewrite Nat.add_0_r. cbn. by split_and!.
  - destruct (Hfail 0%nat ltac:(lia) (now p)) as [m Hm]. rewrite Nat.add_0_r in Hm.
    change (S k + fuel)%nat with (S (k + fuel)).
    remember (k + fuel)%nat as f eqn:Hf.
    cbn [queryLoop]. st_run. unfold clientGet. cbn [fst snd]. rewrite Hm.
    cbn [IsNotFound]. destruct (Nat.leb_spec 5 retries) as [?|_]; [lia|].
    st_run. subst f.
    match goal with |- context [queryLoop _ _ _ ?q] =>
      destruct (IH fuel (S retries) q) as (p' & lines & Hrun & Hq & Hs & Hl & Hall & Hlen & Hc & Hi)
    end.
    + lia.
    + intros i Hi t. cbn. specialize (Hfail (S i) ltac:(lia) t).
      by rewrite Nat.add_succ_r in Hfail.
    + cbn in Hq, Hs, Hl, Hc, Hi.
      exists p', (lines ++ [{| level := LError;
                               format := "Error querying Installation, will retry: %s";
                               args := [m] |}]).
      rewrite Hrun. split; [f_equal; lia|]. split; [lia|].
      split; [rewrite Hs, replicate_S_end; by rewrite <- app_assoc|].
      split; [rewrite Hl; by rewrite <- app_assoc|].
      split; [apply Forall_app; split; [done|by repeat constructor]|].
      split; [rewrite length_app; cbn; lia|done].
Qed.

(** X2. After [k <= 5] failed queries, a reply that the Installation does
    not exist, or that it exists and is not being deleted, ends the watcher
    at once: it returns through the matching exit with the main context
    cancelled, after [k + 1] queries and [k] sleeps of one second, having
    logged nothing but the [k] retry lines; it never starts the wait. *)
Theorem watcher_exits_at_once (t0 : N) (k : nat) (reply : GetResult) (e : Exit) :
  (k <= 5)%nat ->
  (forall i, (i < k)%nat -> failing cluster i) ->
  (forall t, result (cluster k t) = reply) ->
  (reply = NotFound /\ e = NoInstallation) \/
  (reply = Found None /\ e = NotTerminating) ->
  exists p,
    terminationWatcher cluster queryFuel waitFuel (start t0) = (Some e, p) /\
    cancelled p = true /\
    length (queries p) = S k /\
    sleeps p = replicate k (1 * Second) /\
    Forall retryLine (log p) /\ length (log p) = k.
Proof.
  intros Hk Hfail Hreply Hexit.
  destruct (queryLoop_retry_log k (queryFuel - k) 0 (start t0))
    as (p' & lines & Hrun & Hq & Hs & Hl & Hall & Hlen & _ & Hi);
    [lia|intros i Hi; apply Hfail; exact Hi|].
  replace (k + (queryFuel - k))%nat with queryFuel in Hrun by (unfold queryFuel; lia).
  cbn in Hq, Hs, Hl, Hi. rewrite app_nil_r in Hs, Hl. subst lines.
  unfold terminationWatcher, watcherBody. st_run. rewrite Hrun.
  replace (queryFuel - k)%nat with (S (5 - k)) by (unfold queryFuel; lia).
  cbn [queryLoop]. st_run. unfold clientGet. cbn [fst snd]. rewrite Hq, Hreply.
  destruct Hexit as [[-> ->]|[-> ->]]; cbn [IsNotFound]; st_run.
  - eexists. split; [reflexivity|]. cbn. split_and!; try done. lia.
  - eexists. split; [reflexivity|]. cbn. split_and!; try done. lia.
Qed.

End WatcherBounds.

Lemma watcher_exits_at_once_witness :
  exists p,
    Lifecycle.terminationWatcher Samples.flaky Lifecycle.queryFuel Lifecycle.waitFuel
      (Lifecycle.start 0%N) = (Some Lifecycle.NotTerminating, p) /\
    Lifecycle.cancelled p = true /\
    Lifecycle.sleeps p = replicate 3 (1 * Lifecycle.Second)%N.
Proof.
  destruct (watcher_exits_at_once Samples.flaky 0%N 3 (Lifecycle.Found None)
              Lifecycle.NotTerminating) as (p & Hrun & Hc & _ & Hs & _).
  - lia.
  - intros i Hi t. exists "timeout". unfold Samples.flaky. cbn.
    destruct (Nat.leb_spec i 2); [reflexivity|lia].
  - intros t. reflexivity.
  - right. by split.
  - exists p. by split_and!.
Defined.

(** ** The pre-delete hook *)

(** Runs a step of the hook on the state it is applied to. *)
Ltac hook_run :=
  unfold bind, PreDelete.lift, Lifecycle.logf, Lifecycle.sleep, modify, reads, ret;
  cbn beta iota delta [fst snd Lifecycle.now Lifecycle.queries Lifecycle.sleeps
                       Lifecycle.log Lifecycle.instance Lifecycle.cancelled].

Section PreDeleteFacts.
Import Lifecycle PreDelete.
Variable cluster : Cluster.
Variable api : DeleteAPI.

Local Open Scope N_scope.


Lemma deleteAll_abort (pre post : list Object) (o : Object) (m : string) : forall h,
  (forall x, x ∈ pre -> deleteGoesThrough api x) ->
  deleteFails api o m ->
  exists p',
    deleteAll api (pre ++ o :: post) h = (Some (Errorf m []), (p', o :: rev pre ++ h.2)) /\
    queries p' = queries h.1 /\ sleeps p' = sleeps h.1 /\ log p' = log h.1.
Proof.
  induction pre as [|x pre IH]; intros [p d] Hok Hfail.
  - cbn [app deleteAll]. hook_run. unfold clientDelete. cbn [fst snd].
    rewrite (Hfail (now p)). eexists. split; [reflexivity|]. by split_and!.
  - cbn [app deleteAll]. hook_run. unfold clientDelete. cbn [fst snd].
    pose proof (Hok x ltac:(by left) (now p)) as Hx.
    destruct (outcome (api x (now p))) as [| |m']; [| |by destruct (Hx m')].
    all: match goal with |- context [deleteAll _ _ ?q] =>
      destruct (IH q) as (p' & Hrun & Hq & Hs & Hl)
    end; [intros y Hy; apply Hok; by right|done|].
    all: cbn in Hrun, Hq, Hs, Hl.
    all: exists p'; cbn [rev]; rewrite <- app_assoc; cbn.
    all: rewrite Hrun; by split_and!.
Qed.


(** X3. When a delete fails with an error other than NotFound, the hook
    stops there: it returns that error, it has called [Delete] on the
    objects up to the failing one and on none after it, it has neither
    polled nor slept, its only log line is "preDelete hook exiting", and
    [main] exits with code 1. *)
Theorem preDelete_aborts_on_delete_error
  (pre post : list Object) (o : Object) (m : string) (t0 : N) (fuel : nat) :
  hookObjects = pre ++ o :: post ->
  (forall x, x ∈ pre -> deleteGoesThrough api x) ->
  deleteFails api o m ->
  exists h,
    executePreDeleteHook cluster api fuel (begin t0) = (Some (Some (Errorf m [])), h) /\
    h.2 = o :: rev pre /\
    queries h.1 = [] /\ sleeps h.1 = [] /\ log h.1 = [exitingLine] /\
    preDeleteExit cluster api fuel (begin t0) = Some 1%Z.
Proof.
  intros Hobjs Hok Hfail.
  destruct (deleteAll_abort pre post o m (begin t0) Hok Hfail) as (p' & Hrun & Hq & Hs & Hl).
  unfold begin in *. cbn [fst snd start now queries sleeps log] in Hrun, Hq, Hs, Hl.
  rewrite app_nil_r in Hrun.
  unfold preDeleteExit, executePreDeleteHook. rewrite Hobjs.
  hook_run. rewrite Hrun. hook_run.
  eexists. split; [reflexivity|]. cbn. rewrite Hl. by split_and!.
Qed.


End PreDeleteFacts.

(** ** Command-line helpers *)

Section ToolFacts.
Import Tools.

(** X5. Metrics are disabled, [metricsAddr] giving "0", exactly when
    neither METRICS_HOST nor METRICS_PORT is set; otherwise the address is
    host, colon, port, where an unset port stands for 8484 and an unset
    host is left empty. *)
Theorem metricsAddr_disabled_iff (env : MetricsEnv) :
  (metricsAddr env = "0" <-> METRICS_HOST env = "" /\ METRICS_PORT env = "") /\
  (~ (METRICS_HOST env = "" /\ METRICS_PORT env = "") ->
   metricsAddr env
   = METRICS_HOST env +:+ ":" +:+
     (if decide (METRICS_PORT env = "") then "8484" else METRICS_PORT env)).
Proof.
  destruct env as [host port]. unfold metricsAddr. cbn [METRICS_HOST METRICS_PORT].
  split.
  - destruct host as [|a host], port as [|b port]; cbn; split; try done.
    + by intros [_ ?].
    + destruct host; intros H; injection H; intros; discriminate.
    + by intros [? _].
    + destruct host; intros H; injection H; intros; discriminate.
    + by intros [? _].
  - intros Hset. destruct host as [|a host], port as [|b port]; cbn; try done.
    by destruct Hset.
Qed.

Variable Marshal : CRD -> string + string.

Lemma documents_cons (d : list string) (docs : list (list string)) :
  documents (d :: docs) = d ++ separated docs.
Proof.
  revert d. induction docs as [|d' docs IH]; intros d.
  - cbn. by rewrite app_nil_r.
  - change (documents (d :: d' :: docs)) with (d ++ "---" :: documents (d' :: docs)).
    by rewrite IH.
Qed.

Lemma selected_cons (v : CRD) (crds : list CRD) (outputType : string) :
  selected (v :: crds) outputType
  = if negb (bool_decide (outputType = "all")) &&
       negb (String.prefix outputType (crdName v))
    then selected crds outputType else v :: selected crds outputType.
Proof.
  unfold selected. rewrite filter_cons.
  destruct (decide _) as [[->|Hp]|Hn].
  - done.
  - rewrite Hp. by rewrite andb_false_r.
  - case_bool_decide as Hall; [by destruct Hn; left|].
    destruct (String.prefix outputType (crdName v)); [by destruct Hn; right|done].
Qed.

Lemma showLoop_marshalled (crds : list CRD) (outputType : string) :
  forall texts first out,
    Forall2 (fun v text => Marshal v = inl text) (selected crds outputType) texts ->
    showLoop Marshal crds outputType first out
    = ((None, first && bool_decide (texts = [])),
       out ++ (if first then documents else separated)
                (zip_with document (selected crds outputType) texts)).
Proof.
  induction crds as [|v crds IH]; intros texts first out Hm.
  - cbn in Hm. apply Forall2_nil_inv_l in Hm as ->. cbn.
    rewrite andb_true_r. destruct first; cbn; by rewrite app_nil_r.
  - rewrite selected_cons in Hm |- *. cbn [showLoop].
    destruct (negb (bool_decide (outputType = "all")) &&
              negb (String.prefix outputType (crdName v))); [by apply IH|].
    apply Forall2_cons_inv_l in Hm as (text & texts' & Hv & Hm & ->).
    rewrite Hv. unfold bind, println, modify, ret. cbn [fst snd zip_with].
    rewrite andb_false_r.
    destruct first; cbn [negb].
    + rewrite (IH texts' false _ Hm). rewrite documents_cons.
      unfold document at 2. cbn. by rewrite <- !app_assoc.
    + rewrite (IH texts' false _ Hm).
      unfold separated at 2, document at 2. cbn. by rewrite <- !app_assoc.
Qed.

Lemma showLoop_marshal_error (crds : list CRD) (outputType : string) :
  forall good bad rest texts err first out,
    selected crds outputType = good ++ bad :: rest ->
    Forall2 (fun v text => Marshal v = inl text) good texts ->
    Marshal bad = inr err ->
    exists first',
      showLoop Marshal crds outputType first out
      = ((Some (Errorf "Failed to Marshal %s: %v" [AStr (crdName bad); AStr err]), first'),
         out ++ (if first then documents else separated) (zip_with document good texts)).
Proof.
  induction crds as [|v crds IH]; intros good bad rest texts err first out Hsel Hm Hbad.
  - cbn in Hsel. by destruct good.
  - rewrite selected_cons in Hsel. cbn [showLoop].
    destruct (negb (bool_decide (outputType = "all")) &&
              negb (String.prefix outputType (crdName v))); [by eapply IH|].
    destruct good as [|g good]; cbn in Hsel; injection Hsel as -> Hsel.
    + apply Forall2_nil_inv_l in Hm as ->. rewrite Hbad. exists first.
      unfold ret. cbn. destruct first; by rewrite app_nil_r.
    + apply Forall2_cons_inv_l in Hm as (text & texts' & Hv & Hm & ->).
      rewrite Hv. unfold bind, println, modify, ret. cbn [fst snd zip_with].
      destruct first; cbn [negb].
      all: match goal with |- context [showLoop _ _ _ _ ?o] =>
        destruct (IH good bad rest texts' err false o Hsel Hm Hbad) as [first' Hrun]
      end; exists first'; rewrite Hrun.
      * rewrite documents_cons. unfold document at 2. cbn. by rewrite <- !app_assoc.
      * unfold separated at 2, document at 2. cbn. by rewrite <- !app_assoc.
Qed.

(** X6. [showCRDs] prints every bundled CRD whose name has the output
    type as a prefix (every CRD for "all"), in order, as a "# name" line
    and the YAML text, with a "---" line between two of them, and returns
    nil; when nothing is selected it prints nothing and returns the "No
    CRD matching" error. When a selected CRD does not marshal it returns
    the "Failed to Marshal" error for it, having printed the ones selected
    before it. *)
Theorem showCRDs_prints_selected (crds : list CRD) (outputType : string) :
  (forall texts,
     Forall2 (fun v text => Marshal v = inl text) (selected crds outputType) texts ->
     showCRDs Marshal crds outputType []
     = (if decide (selected crds outputType = [])
        then Some (Errorf "No CRD matching %s" [AStr outputType]) else None,
        documents (zip_with document (selected crds outputType) texts)))
  /\
  (forall good bad rest texts err,
     selected crds outputType = good ++ bad :: rest ->
     Forall2 (fun v text => Marshal v = inl text) good texts ->
     Marshal bad = inr err ->
     showCRDs Marshal crds outputType []
     = (Some (Errorf "Failed to Marshal %s: %v" [AStr (crdName bad); AStr err]),
        documents (zip_with document good texts))).
Proof.
  split.
  - intros texts Hm. unfold showCRDs. rewrite bind_run.
    rewrite (showLoop_marshalled crds outputType texts true [] Hm). cbn [fst snd andb].
    destruct (decide (selected crds outputType = [])) as [Hnil|Hsome].
    + rewrite Hnil in Hm. apply Forall2_nil_inv_l in Hm as ->. by rewrite Hnil.
    + case_bool_decide as Ht; [|done].
      subst texts. apply Forall2_nil_inv_r in Hm. done.
  - intros good bad rest texts err Hsel Hm Hbad. unfold showCRDs. rewrite bind_run.
    destruct (showLoop_marshal_error crds outputType good bad rest texts err true []
                Hsel Hm Hbad) as [first' Hrun].
    by rewrite Hrun.
Qed.

End ToolFacts.

(** ** More rules of the validator *)

(** Goes past one step of a sequence, or stops at its first step. *)
Ltac skip_step := apply fails_andThen_r; [frame|].
Ltac this_step := apply fails_andThen_l.

(** Settles the comparisons of two string constants in the goal. *)
Ltac decide_closed :=
  repeat match goal with
  | |- context [decide (?a = ?b)] =>
      first [ destruct (decide (a = b)) as [Hd|_]; [discriminate Hd|]
            | destruct (decide (a = b)) as [_|Hd]; [|by destruct Hd] ]
  end.

Section RuleFacts.
Import Installation.
Variable X : Collaborators.

(** The error of a block fails the document, and a document that passes
    has passed every block. *)
Lemma fails_by_block (w : World) (cni : CNISpec) :
  CNI (Spec w) = Some cni ->
  is_Some (verdict (checkPlugin cni) w) \/
  is_Some (verdict (checkCalicoNetwork X cni) w) \/
  is_Some (verdict checkPaths w) \/
  is_Some (verdict checkTopology w) \/
  is_Some (verdict checkNonPrivileged w) \/
  is_Some (verdict (checkOverrides X) w) \/
  is_Some (verdict (checkNonCalicoLogging cni) w) \/
  is_Some (verdict (checkWindows X cni) w) \/
  is_Some (verdict checkFIPSAndAzure w) ->
  is_Some (validate X w).
Proof.
  intros Hcni H. rewrite (validate_blocks X w _ Hcni).
  destruct H as [H|H]; [by this_step|skip_step].
  destruct H as [H|H]; [by this_step|skip_step].
  destruct H as [H|H]; [by this_step|skip_step].
  destruct H as [H|H]; [by this_step|skip_step].
  destruct H as [H|H]; [by this_step|skip_step].
  destruct H as [H|H]; [by this_step|skip_step].
  destruct H as [H|H]; [by this_step|skip_step].
  destruct H as [H|H]; [by this_step|skip_step].
  done.
Qed.

Lemma passes_every_block (w : World) (cni : CNISpec) :
  CNI (Spec w) = Some cni -> validate X w = None ->
  verdict (checkPlugin cni) w = None /\
  verdict (checkCalicoNetwork X cni) w = None /\
  verdict checkPaths w = None /\
  verdict checkTopology w = None /\
  verdict checkNonPrivileged w = None /\
  verdict (checkOverrides X) w = None /\
  verdict (checkNonCalicoLogging cni) w = None /\
  verdict (checkWindows X cni) w = None /\
  verdict checkFIPSAndAzure w = None.
Proof.
  intros Hcni Hpass. rewrite (validate_blocks X w _ Hcni) in Hpass.
  do 8 (apply passes_andThen in Hpass as [? Hpass]; [|frame]).
  by split_and!.
Qed.

(** The steps of the [calicoNetwork] block after the loop over the
    pools. *)
Lemma fails_by_network_step (w : World) (cni : CNISpec) (cn : CalicoNetworkSpec) :
  CNI (Spec w) = Some cni -> CalicoNetwork (Spec w) = Some cn ->
  is_Some (verdict (checkVPP cni cn) w) \/
  is_Some (verdict (checkHostPorts cni cn) w) \/
  is_Some (verdict
             (failIf (bool_decide (MultiInterfaceMode cn <> None) &&
                      negb (bool_decide (CNI_Type cni = PluginCalico)))
                (Errorf "spec.calicoNetwork.multiInterfaceMode is supported only for Calico CNI" [])) w) \/
  is_Some (verdict
             (failIf (bool_decide (ContainerIPForwarding cn <> None) &&
                      negb (bool_decide (CNI_Type cni = PluginCalico)))
                (Errorf "spec.calicoNetwork.containerIPForwarding is supported only for Calico CNI" [])) w) \/
  is_Some (verdict
             (match Sysctl cn with
              | Some pluginData => ret (VerifySysctl X pluginData)
              | None => pass
              end) w) \/
  is_Some (verdict (checkPolicySetupTimeout cn) w) ->
  is_Some (validate X w).
Proof.
  intros Hcni Hcn H. apply (fails_by_block w cni Hcni). right. left.
  unfold checkCalicoNetwork. rewrite verdict_reads, Hcn.
  skip_step.
  destruct H as [H|H]; [by this_step|skip_step].
  skip_step. skip_step.
  destruct H as [H|H]; [by this_step|skip_step].
  destruct H as [H|H]; [by this_step|skip_step].
  destruct H as [H|H]; [by this_step|skip_step].
  destruct H as [H|H]; [by this_step|skip_step].
  done.
Qed.

Lemma cni_defined_or_rejected (w : World) :
  CNI (Spec w) = None ->
  (validateCustomResource X w).1 = Some (Errorf "spec.cni must be defined" []).
Proof.
  intros Hcni. unfold validateCustomResource. rewrite bind_run. cbn. by rewrite Hcni.
Qed.

Lemma fails_failIf (c : bool) (e : error) (w : World) :
  c = true -> is_Some (verdict (failIf c e) w).
Proof. intros ->. by eexists. Qed.

(** X8. A CNI plugin other than Calico ties the cluster to its native
    provider: with GKE, AmazonVPC or AzureVNET as the plugin and a
    [kubernetesProvider] that is neither the native one (GKE, EKS, AKS)
    nor empty, validation fails, and with exactly the provider error,
    since the check is the first one for these plugins. *)
Theorem provider_must_match_plugin (w : World) (cni : CNISpec) (native : string) :
  CNI (Spec w) = Some cni ->
  (CNI_Type cni, native) ∈ [ (PluginGKE, ProviderGKE); (PluginAmazonVPC, ProviderEKS);
                             (PluginAzureVNET, ProviderAKS) ] ->
  KubernetesProvider (Spec w) <> native ->
  KubernetesProvider (Spec w) <> "" ->
  validate X w
  = Some (Errorf "spec.kubernetesProvider %s is not compatible with spec.cni.type %s"
            [AStr (KubernetesProvider (Spec w)); AStr (CNI_Type cni)]).
Proof.
  intros Hcni Hin Hnative Hempty.
  rewrite (validate_blocks X w _ Hcni), verdict_andThen by frame.
  assert (verdict (checkProvider cni native) w
          = Some (Errorf "spec.kubernetesProvider %s is not compatible with spec.cni.type %s"
                    [AStr (KubernetesProvider (Spec w)); AStr (CNI_Type cni)])) as Hp.
  { unfold checkProvider. rewrite verdict_reads.
    destruct (decide (KubernetesProvider (Spec w) = native)); [done|].
    by destruct (decide (KubernetesProvider (Spec w) = "")). }
  destruct cni as [t ipam]. cbn [CNI_Type] in *. unfold checkPlugin. cbn [CNI_Type].
  repeat (apply elem_of_cons in Hin as [Heq|Hin]; [injection Heq as -> ->|]);
    [| | |by apply elem_of_nil in Hin].
  all: decide_closed; rewrite verdict_andThen by frame; by rewrite Hp.
Qed.

(** X9. IPIP is IPv4-only: a pool with a colon in its CIDR and IPIP or
    IPIPCrossSubnet encapsulation fails validation, whatever the plugins
    are. *)
Theorem ipv6_pool_rejects_ipip (w : World) (cni : CNISpec) (cn : CalicoNetworkSpec)
  (pool : IPPool) :
  CNI (Spec w) = Some cni -> CalicoNetwork (Spec w) = Some cn ->
  pool ∈ IPPools cn -> isIPv4 pool = false ->
  Encapsulation pool = EncapsulationIPIP \/
  Encapsulation pool = EncapsulationIPIPCrossSubnet ->
  is_Some (validate X w).
Proof.
  intros Hcni Hcn Hin Hv6 Henc.
  apply (fails_by_pool X w cni cn pool Hcni Hcn Hin).
  unfold checkPool. this_step. unfold isIPv4 in Hv6. rewrite Hv6. this_step.
  apply fails_failIf. destruct Henc as [->| ->]; done.
Qed.

(** X10. With the Calico plugin, the encapsulation of each pool has to fit
    the IPAM plugin and BGP: under Calico IPAM a pool with IPIP,
    IPIPCrossSubnet or no encapsulation fails validation unless BGP is
    set and not Disabled; under HostLocal IPAM a pool with VXLAN or
    VXLANCrossSubnet fails validation. *)
Theorem calico_pool_encapsulation (w : World) (cni : CNISpec) (cn : CalicoNetworkSpec)
  (pool : IPPool) :
  CNI (Spec w) = Some cni -> CalicoNetwork (Spec w) = Some cn ->
  CNI_Type cni = PluginCalico -> pool ∈ IPPools cn ->
  (IPAM_Type (IPAM cni) = IPAMPluginCalico /\
   Encapsulation pool ∈ [EncapsulationIPIP; EncapsulationIPIPCrossSubnet; EncapsulationNone] /\
   (BGP cn = None \/ BGP cn = Some BGPDisabled))
  \/
  (IPAM_Type (IPAM cni) = IPAMPluginHostLocal /\
   Encapsulation pool ∈ [EncapsulationVXLAN; EncapsulationVXLANCrossSubnet]) ->
  is_Some (validate X w).
Proof.
  intros Hcni Hcn Hcalico Hin Hcase.
  apply (fails_by_pool X w cni cn pool Hcni Hcn Hin).
  unfold checkPool. skip_step. rewrite Hcalico.
  destruct (decide (PluginCalico = PluginCalico)) as [_|?]; [|done].
  destruct Hcase as [(Hipam & Henc & Hbgp)|(Hipam & Henc)]; rewrite Hipam.
  - assert (bgpOff cn = true) as Hoff.
    { unfold bgpOff. by destruct Hbgp as [->| ->]. }
    destruct (decide (IPAMPluginCalico = IPAMPluginCalico)) as [_|?]; [|done].
    repeat (apply elem_of_cons in Henc as [->|Henc]); [| | |by apply elem_of_nil in Henc].
    all: cbn; by apply fails_failIf.
  - repeat (apply elem_of_cons in Henc as [->|Henc]); [| |by apply elem_of_nil in Henc].
    all: cbn; by eexists.
Qed.

(** X11. The VPP dataplane has four requirements: with [linuxDataplane]
    set to VPP, validation fails unless the variant is Calico, the CNI
    plugin is Calico, BGP is set and not Disabled, and [hostPorts] is not
    Disabled. *)
Theorem vpp_requirements (w : World) (cni : CNISpec) (cn : CalicoNetworkSpec) :
  CNI (Spec w) = Some cni -> CalicoNetwork (Spec w) = Some cn ->
  LinuxDataplane cn = Some LinuxDataplaneVPP ->
  Variant (Spec w) <> Calico \/ CNI_Type cni <> PluginCalico \/
  BGP cn = None \/ BGP cn = Some BGPDisabled \/
  HostPorts cn = Some HostPortsDisabled ->
  is_Some (validate X w).
Proof.
  intros Hcni Hcn Hvpp Hbad.
  apply (fails_by_network_step w cni cn Hcni Hcn). left.
  unfold checkVPP, isDataplane. rewrite Hvpp.
  rewrite bool_decide_eq_true_2 by done. rewrite verdict_reads.
  destruct (decide (Variant (Spec w) = Calico)) as [Hv|Hv].
  2:{ this_step. apply fails_failIf. by rewrite bool_decide_eq_false_2. }
  skip_step.
  destruct (decide (CNI_Type cni = PluginCalico)) as [Hc|Hc].
  2:{ this_step. apply fails_failIf. by rewrite bool_decide_eq_false_2. }
  skip_step.
  destruct Hbad as [?|[?|Hbad]]; [done..|].
  destruct Hbad as [Hb|[Hb|Hh]].
  - this_step. apply fails_failIf. unfold bgpOff. by rewrite Hb.
  - this_step. apply fails_failIf. unfold bgpOff. by rewrite Hb.
  - skip_step. apply fails_failIf. by rewrite Hh.
Qed.

Lemma validateHostPorts_spec (v : string) :
  validateHostPorts (Some v) = None <-> v = HostPortsEnabled \/ v = HostPortsDisabled.
Proof.
  unfold validateHostPorts, HostPortsTypes. cbn [fold_left].
  destruct (decide (v = HostPortsEnabled)) as [He|He];
    destruct (decide (v = HostPortsDisabled)) as [Hd|Hd]; cbn; split; try done.
  - by left.
  - by left.
  - by right.
  - by intros [?|?].
Qed.

(** X12. [hostPorts] takes the two values Enabled and Disabled and nothing
    else: [validateHostPorts] returns nil exactly for these (and an error
    for a nil pointer), and a document whose [hostPorts] is another value,
    or is Enabled under a CNI plugin other than Calico, fails validation. *)
Theorem host_ports_values (w : World) (cni : CNISpec) (cn : CalicoNetworkSpec) (v : string) :
  (validateHostPorts (Some v) = None <-> v = HostPortsEnabled \/ v = HostPortsDisabled) /\
  is_Some (validateHostPorts None) /\
  (CNI (Spec w) = Some cni -> CalicoNetwork (Spec w) = Some cn ->
   HostPorts cn = Some v ->
   (v <> HostPortsEnabled /\ v <> HostPortsDisabled) \/
   (v = HostPortsEnabled /\ CNI_Type cni <> PluginCalico) ->
   is_Some (validate X w)).
Proof.
  split; [apply validateHostPorts_spec|]. split; [by eexists|].
  intros Hcni Hcn Hhp Hbad.
  apply (fails_by_network_step w cni cn Hcni Hcn). right. left.
  unfold checkHostPorts. rewrite Hhp.
  destruct Hbad as [[He Hd]|[-> Hc]].
  - skip_step. rewrite verdict_ret.
    destruct (validateHostPorts (Some v)) eqn:Hv; [done|].
    apply validateHostPorts_spec in Hv as [?|?]; done.
  - this_step. apply fails_failIf.
    rewrite bool_decide_eq_true_2 by done. by rewrite bool_decide_eq_false_2.
Qed.

(** X13. [multiInterfaceMode] and [containerIPForwarding] are for the
    Calico plugin only, and the sysctl tuning is checked by the delegated
    validator: a document that sets one of the two fields under another
    CNI plugin, or whose sysctl list the delegated validator rejects,
    fails validation. *)
Theorem calico_only_fields (w : World) (cni : CNISpec) (cn : CalicoNetworkSpec) :
  CNI (Spec w) = Some cni -> CalicoNetwork (Spec w) = Some cn ->
  (CNI_Type cni <> PluginCalico /\
   (MultiInterfaceMode cn <> None \/ ContainerIPForwarding cn <> None))
  \/
  (exists pluginData, Sysctl cn = Some pluginData /\ is_Some (VerifySysctl X pluginData)) ->
  is_Some (validate X w).
Proof.
  intros Hcni Hcn Hbad.
  apply (fails_by_network_step w cni cn Hcni Hcn).
  destruct Hbad as [[Hc [Hm|Hf]]|(d & Hd & He)].
  - right. right. left. apply fails_failIf.
    rewrite bool_decide_eq_true_2 by done. by rewrite bool_decide_eq_false_2.
  - right. right. right. left. apply fails_failIf.
    rewrite bool_decide_eq_true_2 by done. by rewrite bool_decide_eq_false_2.
  - right. right. right. right. left. by rewrite Hd.
Qed.

(** X14. [linuxPolicySetupTimeoutSeconds], when set, must not be negative
    and needs [linuxDataplane] set to Iptables, BPF or Nftables: a
    negative value, an unset dataplane or another dataplane fails
    validation. *)
Theorem policy_setup_timeout_rule (w : World) (cni : CNISpec) (cn : CalicoNetworkSpec)
  (n : Z) :
  CNI (Spec w) = Some cni -> CalicoNetwork (Spec w) = Some cn ->
  LinuxPolicySetupTimeoutSeconds cn = Some n ->
  (n < 0)%Z \/ LinuxDataplane cn = None \/
  (exists d, LinuxDataplane cn = Some d /\
             d ∉ [LinuxDataplaneIptables; LinuxDataplaneBPF; LinuxDataplaneNftables]) ->
  is_Some (validate X w).
Proof.
  intros Hcni Hcn Hn Hbad.
  apply (fails_by_network_step w cni cn Hcni Hcn). do 5 right.
  unfold checkPolicySetupTimeout. rewrite Hn.
  destruct (Z.ltb_spec n 0) as [Hneg|Hpos].
  { this_step. by apply fails_failIf. }
  skip_step.
  destruct Hbad as [?|[Hnone|(d & Hd & Hnot)]]; [lia| |].
  - rewrite Hnone. by eexists.
  - rewrite Hd. apply fails_failIf.
    rewrite !bool_decide_eq_false_2; [done|..];
      intros ->; apply Hnot; repeat constructor.
Qed.

(** X15. What a document that passes validation is known to satisfy in
    its topology fields: [spec.cni] is set; the two volume plugin paths
    are each "None" or absolute; the node update strategy is
    RollingUpdate; the control plane node selector, where it names an OS
    label, names linux; the control plane replica count, if set, is
    positive; and every component resource override names
    KubeControllers, Node or Typha. *)
Theorem passing_topology (w : World) :
  validate X w = None ->
  CNI (Spec w) <> None /\
  (FlexVolumePath (Spec w) = "None" \/ IsAbs (FlexVolumePath (Spec w)) = true) /\
  (KubeletVolumePluginPath (Spec w) = "None" \/
   IsAbs (KubeletVolumePluginPath (Spec w)) = true) /\
  Strategy_Type (NodeUpdateStrategy (Spec w)) = RollingUpdateDaemonSetStrategyType /\
  (forall sel key v,
     ControlPlaneNodeSelector (Spec w) = Some sel ->
     key = "beta.kubernetes.io/os" \/ key = "kubernetes.io/os" ->
     sel !! key = Some v -> v = "linux") /\
  (forall n, ControlPlaneReplicas (Spec w) = Some n -> (0 < n)%Z) /\
  (forall r, r ∈ ComponentResources (Spec w) ->
     ComponentName r ∈ [ComponentNameKubeControllers; ComponentNameNode; ComponentNameTypha]).
Proof.
  intros Hpass.
  destruct (CNI (Spec w)) as [cni|] eqn:Hcni.
  2:{ unfold validate, verdict in Hpass.
      by rewrite (cni_defined_or_rejected _ Hcni) in Hpass. }
  destruct (passes_every_block w cni Hcni Hpass) as (_ & _ & Hpaths & Htopo & _).
  split; [done|].
  unfold checkPaths in Hpaths. rewrite verdict_reads in Hpaths.
  apply passes_andThen in Hpaths as [Hflex Hkubelet]; [|frame].
  rewrite verdict_failIf in Hflex, Hkubelet.
  unfold checkTopology in Htopo. rewrite verdict_reads in Htopo.
  apply passes_andThen in Htopo as [Hstrategy Htopo]; [|frame].
  apply passes_andThen in Htopo as [Hsel Htopo]; [|frame].
  apply passes_andThen in Htopo as [Hreplicas Hres]; [|frame].
  rewrite verdict_failIf in Hstrategy, Hreplicas.
  split_and!.
  - destruct (decide (FlexVolumePath (Spec w) = "None")) as [?|Hne]; [by left|right].
    rewrite bool_decide_eq_false_2 in Hflex by done.
    by destruct (IsAbs (FlexVolumePath (Spec w))).
  - destruct (decide (KubeletVolumePluginPath (Spec w) = "None")) as [?|Hne];
      [by left|right].
    rewrite bool_decide_eq_false_2 in Hkubelet by done.
    by destruct (IsAbs (KubeletVolumePluginPath (Spec w))).
  - destruct (decide (Strategy_Type (NodeUpdateStrategy (Spec w))
                      = RollingUpdateDaemonSetStrategyType)) as [?|Hne]; [done|].
    by rewrite bool_decide_eq_false_2 in Hstrategy.
  - intros sel key v Hs Hkey Hv. rewrite Hs in Hsel.
    apply passes_andThen in Hsel as [Hbeta Hos]; [|frame].
    unfold checkSelectorKey in Hbeta, Hos.
    destruct (decide (v = "linux")) as [?|Hne]; [done|].
    destruct Hkey as [-> | ->].
    + rewrite Hv, verdict_failIf in Hbeta.
      by rewrite bool_decide_eq_false_2 in Hbeta.
    + rewrite Hv, verdict_failIf in Hos.
      by rewrite bool_decide_eq_false_2 in Hos.
  - intros n Hn. rewrite Hn in Hreplicas.
    destruct (Z.leb_spec n 0); [done|lia].
  - intros r Hr.
    eapply passes_forEach in Hres as Hname; [|intros ?; apply frame_failIf|exact Hr].
    cbn beta in Hname. rewrite verdict_failIf in Hname.
    destruct (decide (ComponentName r ∈ validComponentNames)) as [Hin|Hout].
    + unfold validComponentNames in Hin.
      rewrite !elem_of_union, !elem_of_singleton in Hin.
      destruct Hin as [[Hn|Hn]|Hn]; rewrite Hn; repeat constructor.
    + by rewrite bool_decide_eq_false_2 in Hname.
Qed.

(** X16. Gating by privilege, variant, FIPS mode and provider: a
    document fails validation when [nonPrivileged] is Enabled together
    with the BPF dataplane or with the Enterprise variant, when FIPS mode
    is Enabled together with the Enterprise variant, or when [azure] is
    set and the provider is not AKS. *)
Theorem privilege_variant_gating (w : World) (cni : CNISpec) :
  CNI (Spec w) = Some cni ->
  (NonPrivileged (Spec w) = Some NonPrivilegedEnabled /\
   ((exists cn, CalicoNetwork (Spec w) = Some cn /\
                LinuxDataplane cn = Some LinuxDataplaneBPF) \/
    Variant (Spec w) = TigeraSecureEnterprise))
  \/
  (FIPSMode (Spec w) = Some FIPSModeEnabled /\ Variant (Spec w) = TigeraSecureEnterprise)
  \/
  (Azure_ (Spec w) <> None /\ KubernetesProvider (Spec w) <> ProviderAKS) ->
  is_Some (validate X w).
Proof.
  intros Hcni Hbad. apply (fails_by_block w cni Hcni).
  destruct Hbad as [[Hnp Hbad]|[[Hfips Hent]|[Haz Hprov]]].
  - do 4 right. left. unfold checkNonPrivileged. rewrite verdict_reads, Hnp.
    rewrite bool_decide_eq_true_2 by done.
    destruct Hbad as [(cn & Hcn & Hbpf)|Hent].
    + this_step. apply fails_failIf. rewrite Hcn. unfold isDataplane.
      rewrite Hbpf. by rewrite bool_decide_eq_true_2.
    + skip_step. apply fails_failIf. by rewrite bool_decide_eq_true_2.
  - do 8 right. unfold checkFIPSAndAzure. rewrite verdict_reads.
    this_step. apply fails_failIf. unfold IsFIPSModeEnabled.
    rewrite Hfips. by rewrite !bool_decide_eq_true_2.
  - do 8 right. unfold checkFIPSAndAzure. rewrite verdict_reads.
    skip_step. apply fails_failIf.
    rewrite bool_decide_eq_false_2 by done. by rewrite bool_decide_eq_true_2.
Qed.

(** X17. The CNI log settings belong to the Calico plugin: with another
    plugin, their mere presence fails validation; with the Calico plugin,
    a file count or an age in days that is set and not positive, or a
    maximum size that is set and is not a positive quantity in binary
    format, fails validation. *)
Theorem cni_logging_rules (w : World) (cni : CNISpec) (l : CNILogging) :
  CNI (Spec w) = Some cni ->
  Logging (Spec w) = Some {| Logging_CNI := Some l |} ->
  CNI_Type cni <> PluginCalico
  \/
  (exists n, LogFileMaxCount l = Some n /\ (n <= 0)%Z) \/
  (exists q, LogFileMaxSize l = Some q /\ (Format q <> BinarySI \/ (Value q <= 0)%Z)) \/
  (exists n, LogFileMaxAgeDays l = Some n /\ (n <= 0)%Z) ->
  is_Some (validate X w).
Proof.
  intros Hcni Hlog Hbad.
  destruct (decide (CNI_Type cni = PluginCalico)) as [Hcalico|Hother].
  - destruct Hbad as [?|Hbad]; [done|].
    apply (fails_by_block w cni Hcni). left.
    unfold checkPlugin. rewrite Hcalico.
    destruct (decide (PluginCalico = PluginCalico)) as [_|?]; [|done].
    skip_step. unfold checkCalicoCNILogging. rewrite verdict_reads, Hlog.
    destruct Hbad as [(n & Hn & Hle)|[(q & Hq & Hbad)|(n & Hn & Hle)]].
    + this_step. apply fails_failIf. rewrite Hn. by apply Z.leb_le.
    + skip_step. this_step. apply fails_failIf. rewrite Hq.
      destruct Hbad as [Hf|Hv].
      * by rewrite bool_decide_eq_false_2.
      * apply orb_true_iff. right. by apply Z.leb_le.
    + skip_step. skip_step. apply fails_failIf. rewrite Hn. by apply Z.leb_le.
  - apply (fails_by_block w cni Hcni). do 6 right. left.
    unfold checkNonCalicoLogging. rewrite verdict_reads, Hlog.
    rewrite bool_decide_eq_false_2 by done. by eexists.
Qed.

(** X18. Windows gating. When Calico for Windows is enabled, validation
    fails if the service endpoint lacks its host or its port, and, with
    the Calico plugin, if no service CIDR is given or if the IPv4 pool has
    an encapsulation other than VXLAN and None; when it is not enabled,
    validation fails if [windowsNodes] is set. *)
Theorem windows_gating (w : World) (cni : CNISpec) :
  CNI (Spec w) = Some cni ->
  (WindowsEnabled X (Spec w) = true /\
   (Host (Endpoint w) = "" \/ Port (Endpoint w) = "" \/
    (CNI_Type cni = PluginCalico /\
     (ServiceCIDRs (Spec w) = [] \/
      exists cn v4pool,
        CalicoNetwork (Spec w) = Some cn /\ GetIPv4Pool X (IPPools cn) = Some v4pool /\
        Encapsulation v4pool <> EncapsulationVXLAN /\
        Encapsulation v4pool <> EncapsulationNone))))
  \/
  (WindowsEnabled X (Spec w) = false /\ WindowsNodes (Spec w) <> None) ->
  is_Some (validate X w).
Proof.
  intros Hcni Hbad. apply (fails_by_block w cni Hcni). do 7 right. left.
  unfold checkWindows. rewrite verdict_reads.
  destruct Hbad as [[Hwin Hbad]|[Hwin Hnodes]]; rewrite Hwin.
  2:{ apply fails_failIf. by rewrite bool_decide_eq_true_2. }
  rewrite verdict_reads.
  destruct (decide (Host (Endpoint w) = "")) as [Hh|Hh].
  { this_step. apply fails_failIf. by rewrite bool_decide_eq_true_2. }
  destruct (decide (Port (Endpoint w) = "")) as [Hp|Hp].
  { this_step. apply fails_failIf. apply orb_true_iff. right.
    by rewrite bool_decide_eq_true_2. }
  destruct Hbad as [?|[?|[Hcalico Hbad]]]; [done..|].
  skip_step. rewrite Hcalico.
  destruct (decide (PluginCalico = PluginCalico)) as [_|?]; [|done].
  destruct (ServiceCIDRs (Spec w)) as [|c cidrs] eqn:Hcidrs.
  { this_step. by apply fails_failIf. }
  destruct Hbad as [?|(cn & v4pool & Hcn & Hpool & Hv & Hn)]; [done|].
  skip_step. rewrite Hcn, Hpool. apply fails_failIf.
  by rewrite !bool_decide_eq_false_2.
Qed.

Lemma exclusiveLoop_spec (cs : list Container) : forall m e : bool,
  ~ (m = true /\ e = true) ->
  exclusiveLoop cs m e
  = if bool_decide ((m = true \/ "mount-bpffs" ∈ map Name cs) /\
                    (e = true \/ "ebpf-bootstrap" ∈ map Name cs))
    then Some (Errorf "Init container names mount-bpffs and ebpf-bootstrap are mutually exclusive, please remove one of them" [])
    else None.
Proof.
  induction cs as [|c cs IH]; intros m e Hme.
  - cbn. rewrite bool_decide_eq_false_2; [done|].
    intros [[?|Hm] [?|He]]; try (by apply elem_of_nil in Hm);
      try (by apply elem_of_nil in He). by apply Hme.
  - cbn [exclusiveLoop map].
    destruct (decide (Name c = "mount-bpffs")) as [Hc|Hc].
    + destruct e.
      * cbn. rewrite bool_decide_eq_true_2; [done|]. split; [right; rewrite Hc|]; by left.
      * cbn [andb]. rewrite IH by (by intros [_ ?]).
        apply (f_equal (fun b : bool => if b then _ else _)).
        apply bool_decide_ext. rewrite Hc, !elem_of_cons. split.
        -- intros [_ [?|He]]; [done|]. split; [right; by left|right; by right].
        -- intros [_ [?|[?|He]]]; [done..|]. split; [by left|by right].
    + destruct (decide (Name c = "ebpf-bootstrap")) as [Hb|Hb].
      * destruct m.
        -- cbn. rewrite bool_decide_eq_true_2; [done|]. split; [|right; rewrite Hb]; by left.
        -- cbn [andb]. rewrite IH by (by intros [? _]).
           apply (f_equal (fun b : bool => if b then _ else _)).
           apply bool_decide_ext. rewrite Hb, !elem_of_cons. split.
           ++ intros [[?|Hm] _]; [done|]. split; [right; by right|right; by left].
           ++ intros [[?|[?|Hm]] _]; [done..|]. split; [by right|by left].
      * destruct (m && e) eqn:Hboth.
        { apply andb_true_iff in Hboth. by destruct Hme. }
        rewrite IH by done.
        apply (f_equal (fun b : bool => if b then _ else _)).
        apply bool_decide_ext. rewrite !elem_of_cons. split.
        -- intros [[?|?] [?|?]]; split; auto.
        -- intros [[?|[?|?]] [?|[?|?]]]; try done; split; auto.
Qed.

(** X19. [validateExclusiveInitContainers] returns its error exactly when
    both an init container named mount-bpffs and one named ebpf-bootstrap
    are in the list, wherever and in whichever order; and a document whose
    node DaemonSet override has both fails validation. *)
Theorem exclusive_init_containers (cs : list Container) :
  (is_Some (validateExclusiveInitContainers cs) <->
   "mount-bpffs" ∈ map Name cs /\ "ebpf-bootstrap" ∈ map Name cs) /\
  (forall w cni ds,
     CNI (Spec w) = Some cni -> CalicoNodeDaemonSet (Spec w) = Some ds ->
     InitContainers ds = cs ->
     "mount-bpffs" ∈ map Name cs -> "ebpf-bootstrap" ∈ map Name cs ->
     is_Some (validate X w)).
Proof.
  assert (is_Some (validateExclusiveInitContainers cs) <->
          "mount-bpffs" ∈ map Name cs /\ "ebpf-bootstrap" ∈ map Name cs) as Hspec.
  { unfold validateExclusiveInitContainers.
    rewrite exclusiveLoop_spec by (by intros [? _]).
    case_bool_decide as Hb; split.
    - intros _. destruct Hb as [[?|?] [?|?]]; done.
    - by eexists.
    - by intros [? ?].
    - intros [? ?]. destruct Hb. split; by right. }
  split; [exact Hspec|].
  intros w cni ds Hcni Hds Hcs Hm He.
  apply (fails_by_block w cni Hcni). do 5 right. left.
  unfold checkOverrides. rewrite verdict_reads, Hds. this_step.
  apply fails_failIf. apply orb_true_iff. right.
  unfold GetInitContainers. rewrite Hcs.
  destruct (proj2 Hspec (conj Hm He)) as [e Herr]. rewrite Herr.
  by rewrite bool_decide_eq_true_2.
Qed.

(** X20. An error of a delegated per-workload validator fails the
    document, for each of the five overrides; for the node DaemonSet the
    error wraps the join of the delegated error and the init-container
    error, so that both are reported when both checks object. *)
Theorem override_errors_are_reported (w : World) (cni : CNISpec) (ds : PodOverride) :
  CNI (Spec w) = Some cni ->
  ((CalicoNodeDaemonSet (Spec w) = Some ds /\ is_Some (ValidateCalicoNodeDaemonSet X ds)) \/
   (CalicoNodeWindowsDaemonSet (Spec w) = Some ds /\
    is_Some (ValidateCalicoNodeWindowsDaemonSet X ds)) \/
   (CalicoKubeControllersDeployment (Spec w) = Some ds /\
    is_Some (ValidateCalicoKubeControllersDeployment X ds)) \/
   (TyphaDeployment (Spec w) = Some ds /\ is_Some (ValidateTyphaDeployment X ds)) \/
   (CSINodeDriverDaemonSet (Spec w) = Some ds /\
    is_Some (ValidateCSINodeDriverDaemonSet X ds)) ->
   is_Some (validate X w))
  /\
  (forall e1 e2,
     CalicoNodeDaemonSet (Spec w) = Some ds ->
     ValidateCalicoNodeDaemonSet X ds = Some e1 ->
     validateExclusiveInitContainers (GetInitContainers ds) = Some e2 ->
     verdict (checkOverrides X) w
     = Some (Errorf "Installation spec.CalicoNodeDaemonSet is not valid: %w"
               [AErr (Join [e1; e2])])).
Proof.
  intros Hcni. split.
  - intros Hbad. apply (fails_by_block w cni Hcni). do 5 right. left.
    unfold checkOverrides. rewrite verdict_reads.
    destruct Hbad as [[Hds [e He]]|Hbad].
    { this_step. rewrite Hds, He. apply fails_failIf. by rewrite bool_decide_eq_true_2. }
    skip_step.
    destruct Hbad as [[Hds [e He]]|Hbad].
    { this_step. unfold checkOverride. rewrite Hds, He. by eexists. }
    skip_step.
    destruct Hbad as [[Hds [e He]]|Hbad].
    { this_step. unfold checkOverride. rewrite Hds, He. by eexists. }
    skip_step.
    destruct Hbad as [[Hds [e He]]|[Hds [e He]]].
    { this_step. unfold checkOverride. rewrite Hds, He. by eexists. }
    skip_step. unfold checkOverride. rewrite Hds, He. by eexists.
  - intros e1 e2 Hds H1 H2. unfold checkOverrides.
    rewrite verdict_reads, verdict_andThen by frame.
    rewrite Hds, H1, H2, verdict_failIf.
    by rewrite bool_decide_eq_true_2.
Qed.

End RuleFacts.

(** ** The further properties on the sample inputs *)

Lemma preDelete_aborts_on_delete_error_witness :
  exists h,
    PreDelete.executePreDeleteHook Samples.removedAfter10s MoreSamples.goldmaneRefused
      PreDelete.hookFuel (PreDelete.begin 0%N)
    = (Some (Some (Errorf "forbidden" [])), h) /\
    h.2 = [PreDelete.Goldmane; PreDelete.Whisker].
Proof.
  destruct (preDelete_aborts_on_delete_error Samples.removedAfter10s
              MoreSamples.goldmaneRefused [PreDelete.Whisker]
              [PreDelete.TheInstallation; PreDelete.APIServer] PreDelete.Goldmane
              "forbidden" 0%N PreDelete.hookFuel eq_refl)
    as (h & Hrun & Hd & _).
  - intros x Hx t m. apply list_elem_of_singleton in Hx as ->. discriminate.
  - intros t. reflexivity.
  - exists h. split; [exact Hrun|exact Hd].
Defined.


(** The hook on the samples: removed after 10 s, it returns nil at the
    10th second after three polls. *)
Example preDelete_removed_after_10s :
  let r := PreDelete.executePreDeleteHook Samples.removedAfter10s MoreSamples.deletesFine
             PreDelete.hookFuel (PreDelete.begin 0%N) in
  r.1 = Some None /\
  Lifecycle.queries r.2.1 = [10 * Lifecycle.Second; 5 * Lifecycle.Second; 0]%N.
Proof. vm_compute. done. Qed.

Lemma metricsAddr_disabled_iff_witness :
  Tools.metricsAddr MoreSamples.hostOnly = "0.0.0.0:8484".
Proof.
  apply (proj2 (metricsAddr_disabled_iff MoreSamples.hostOnly)).
  intros [H _]. discriminate H.
Defined.

Lemma showCRDs_prints_selected_witness :
  Tools.showCRDs MoreSamples.marshal MoreSamples.bundled "bgp" []
  = (None,
     [ "# bgppeers.crd.projectcalico.org";
       "kind: CustomResourceDefinition # bgppeers.crd.projectcalico.org";
       "---";
       "# bgpconfigurations.crd.projectcalico.org";
       "kind: CustomResourceDefinition # bgpconfigurations.crd.projectcalico.org" ]).
Proof.
  apply (proj1 (showCRDs_prints_selected MoreSamples.marshal MoreSamples.bundled "bgp")
           [ "kind: CustomResourceDefinition # bgppeers.crd.projectcalico.org";
             "kind: CustomResourceDefinition # bgpconfigurations.crd.projectcalico.org" ]).
  vm_compute. repeat constructor.
Defined.

Example showCRDs_no_match :
  Tools.showCRDs MoreSamples.marshal MoreSamples.bundled "felix" []
  = (Some (Errorf "No CRD matching %s" [AStr "felix"]), []).
Proof. by vm_compute. Qed.

Lemma provider_must_match_plugin_witness :
  Installation.validate Samples.collaborators MoreSamples.amazonOnGKE
  = Some (Errorf "spec.kubernetesProvider %s is not compatible with spec.cni.type %s"
            [AStr "GKE"; AStr "AmazonVPC"]).
Proof.
  apply (provider_must_match_plugin Samples.collaborators MoreSamples.amazonOnGKE
           MoreSamples.amazonCNI "EKS" eq_refl).
  - right. left.
  - discriminate.
  - discriminate.
Defined.

Lemma ipv6_pool_rejects_ipip_witness :
  is_Some (Installation.validate Samples.collaborators
             MoreSamples.ipip6Doc).
Proof.
  apply (ipv6_pool_rejects_ipip Samples.collaborators MoreSamples.ipip6Doc MoreSamples.calicoCNI
           MoreSamples.ipip6Network MoreSamples.ipipPool6 eq_refl eq_refl).
  - left.
  - reflexivity.
  - left. reflexivity.
Defined.

Lemma calico_pool_encapsulation_witness :
  is_Some (Installation.validate Samples.collaborators
             MoreSamples.ipip4Doc).
Proof.
  apply (calico_pool_encapsulation Samples.collaborators MoreSamples.ipip4Doc MoreSamples.calicoCNI
           MoreSamples.ipip4Network MoreSamples.ipipPool4 eq_refl eq_refl eq_refl).
  - left.
  - left. split; [reflexivity|]. split; [left|right; reflexivity].
Defined.

Lemma vpp_requirements_witness :
  is_Some (Installation.validate Samples.collaborators
             MoreSamples.vppDoc).
Proof.
  apply (vpp_requirements Samples.collaborators MoreSamples.vppDoc MoreSamples.calicoCNI
           MoreSamples.vppNetwork eq_refl eq_refl eq_refl).
  do 4 right. reflexivity.
Defined.

Lemma host_ports_values_witness :
  is_Some (Installation.validate Samples.collaborators
             MoreSamples.hostPortsDoc).
Proof.
  apply (proj2 (proj2 (host_ports_values Samples.collaborators
                         MoreSamples.hostPortsDoc
                         MoreSamples.calicoCNI MoreSamples.hostPortsNetwork "Sometimes"))
           eq_refl eq_refl eq_refl).
  left. split; discriminate.
Defined.

Lemma calico_only_fields_witness :
  is_Some (Installation.validate Samples.collaborators
             MoreSamples.multiDoc).
Proof.
  apply (calico_only_fields Samples.collaborators MoreSamples.multiDoc MoreSamples.amazonCNI
           MoreSamples.multiNetwork eq_refl eq_refl).
  left. split; [discriminate|]. left. discriminate.
Defined.

Lemma policy_setup_timeout_rule_witness :
  is_Some (Installation.validate Samples.collaborators
             MoreSamples.timeoutDoc).
Proof.
  apply (policy_setup_timeout_rule Samples.collaborators MoreSamples.timeoutDoc MoreSamples.calicoCNI
           MoreSamples.timeoutNetwork 30%Z eq_refl eq_refl eq_refl).
  right. right. exists "VPP". split; [reflexivity|].
  intros H. repeat (apply elem_of_cons in H as [H|H]; [discriminate H|]).
  by apply elem_of_nil in H.
Defined.

Lemma passing_topology_witness :
  Installation.Strategy_Type
    (Installation.NodeUpdateStrategy (Installation.Spec Samples.scenarioA))
  = Installation.RollingUpdateDaemonSetStrategyType.
Proof.
  destruct (passing_topology Samples.collaborators Samples.scenarioA)
    as (_ & _ & _ & Hstrategy & _).
  - vm_compute. reflexivity.
  - exact Hstrategy.
Defined.

(** A relative FlexVolume path is the error of the sample document. *)
Example relative_flex_path_fails :
  Installation.validate Samples.collaborators MoreSamples.relativeFlexPath
  = Some (Errorf "Installation spec.FlexVolumePath '%s' is not an absolute path"
            [AStr "usr/libexec"]).
Proof. by vm_compute. Qed.

Lemma privilege_variant_gating_witness :
  is_Some (Installation.validate Samples.collaborators
             MoreSamples.enterpriseFIPS).
Proof.
  apply (privilege_variant_gating Samples.collaborators MoreSamples.enterpriseFIPS MoreSamples.calicoCNI eq_refl).
  right. left. split; reflexivity.
Defined.

Lemma cni_logging_rules_witness :
  is_Some (Installation.validate Samples.collaborators
             MoreSamples.loggingDoc).
Proof.
  apply (cni_logging_rules Samples.collaborators MoreSamples.loggingDoc MoreSamples.calicoCNI
           MoreSamples.cniLogging eq_refl eq_refl).
  right. left. exists 0%Z. split; [reflexivity|lia].
Defined.

Lemma windows_gating_witness :
  is_Some (Installation.validate MoreSamples.strict
             MoreSamples.noServiceCIDRs).
Proof.
  apply (windows_gating MoreSamples.strict MoreSamples.noServiceCIDRs MoreSamples.calicoCNI eq_refl).
  left. split; [reflexivity|]. right. right. split; [reflexivity|]. left. reflexivity.
Defined.

Lemma exclusive_init_containers_witness :
  is_Some (Installation.validate Samples.collaborators
             MoreSamples.bothInitDoc).
Proof.
  apply (proj2 (exclusive_init_containers Samples.collaborators
                  (Installation.InitContainers MoreSamples.bothInitContainers))
           MoreSamples.bothInitDoc MoreSamples.calicoCNI MoreSamples.bothInitContainers
           eq_refl eq_refl eq_refl).
  - right. right. left.
  - left.
Defined.

Lemma override_errors_are_reported_witness :
  is_Some (Installation.validate MoreSamples.strict
             MoreSamples.bothInitDoc).
Proof.
  apply (proj1 (override_errors_are_reported MoreSamples.strict MoreSamples.bothInitDoc MoreSamples.calicoCNI
                  MoreSamples.bothInitContainers eq_refl)).
  left. split; [reflexivity|]. by eexists.
Defined.

(** Both errors of the node DaemonSet override are in the verdict. *)
Example node_daemonset_errors_joined :
  Installation.validate MoreSamples.strict
    MoreSamples.bothInitDoc
  = Some (Errorf "Installation spec.CalicoNodeDaemonSet is not valid: %w"
            [AErr (Join [ Errorf "container not allowed" [];
                          Errorf "Init container names mount-bpffs and ebpf-bootstrap are mutually exclusive, please remove one of them" [] ])]).
Proof. by vm_compute. Qed.

(** ** Guardian's egress destinations *)

Section GuardianFacts.
Import Guardian.
Context {U P : Type}.
Variable ProxyFunc : ProxyConfig -> string -> option U + string.
Variable ParseHostPortFromHTTPProxyURL : U -> string + string.
Variable SplitHostPort : string -> (string * string) + string.
Variable PortFromString : string -> P + string.
Variable ParseIP : string -> option (string * bool).

Local Notation "'dest'" :=
  (tunnelDestination ProxyFunc ParseHostPortFromHTTPProxyURL) (only parsing).
Local Notation "'loop'" :=
  (destinationLoop ProxyFunc ParseHostPortFromHTTPProxyURL SplitHostPort
     PortFromString ParseIP) (only parsing).
Local Notation "'run'" :=
  (destinationRules ProxyFunc ParseHostPortFromHTTPProxyURL SplitHostPort
     PortFromString ParseIP) (only parsing).

(** What a run of the loop that returns has done: every pod resolved, the
    map holds the destinations on top of what it held, and one rule was
    appended for each destination that is new. *)
Lemma destinationLoop_spec (cfgURL : string) (pods : list (option ProxyConfig)) :
  forall egressRules allowed egressRules' allowed',
    loop cfgURL pods egressRules allowed = inl (egressRules', allowed') ->
    exists dests added,
      Forall2 (fun pod d => dest cfgURL pod = inl d) pods dests
      /\ allowed' = list_to_set dests ∪ allowed
      /\ egressRules' = egressRules ++ added
      /\ length added + size allowed = size allowed'.
Proof.
  induction pods as [|pod pods IH]; intros rules allowed rules' allowed' Hrun.
  - cbn in Hrun. injection Hrun as <- <-.
    exists [], []. split; [constructor|].
    split; [by rewrite list_to_set_nil, (left_id_L ∅ (∪))|].
    split; [by rewrite app_nil_r|]. reflexivity.
  - cbn [destinationLoop] in Hrun.
    destruct (dest cfgURL pod) as [d|err] eqn:Hd; [|discriminate].
    destruct (decide (d ∈ allowed)) as [Hin|Hnew].
    + rewrite bool_decide_eq_true_2 in Hrun by done.
      apply IH in Hrun as (dests & added & Hall & -> & -> & Hsize).
      exists (d :: dests), added. split; [by constructor|].
      split; [|split; [done|exact Hsize]].
      apply set_eq. intros x.
      rewrite list_to_set_cons, !elem_of_union, elem_of_singleton.
      split; [tauto|intros [[->|?]|?]; tauto].
    + rewrite bool_decide_eq_false_2 in Hrun by done.
      destruct (SplitHostPort d) as [[host port]|err]; [|discriminate].
      destruct (PortFromString port) as [parsedPort|err]; [|discriminate].
      apply IH in Hrun as (dests & added & Hall & -> & -> & Hsize).
      eexists (d :: dests), (_ :: added). split; [by constructor|].
      split; [|split; [by rewrite <- app_assoc|]].
      * apply set_eq. intros x.
        rewrite list_to_set_cons, !elem_of_union, elem_of_singleton. tauto.
      * rewrite <- Hsize, size_union, size_singleton
          by (by apply disjoint_singleton_l).
        cbn. lia.
Qed.

(** A pod whose destination does not resolve stops the loop. *)
Lemma destinationLoop_error (cfgURL : string) (pods : list (option ProxyConfig)) :
  forall egressRules allowed pod err,
    pod ∈ pods -> dest cfgURL pod = inr err ->
    exists err', loop cfgURL pods egressRules allowed = inr err'.
Proof.
  induction pods as [|p pods IH]; intros rules allowed pod err Hin Hd.
  - by apply elem_of_nil in Hin.
  - cbn [destinationLoop].
    destruct (dest cfgURL p) as [d|e] eqn:Hp; [|by eexists].
    assert (pod ∈ pods) as Hrest.
    { apply elem_of_cons in Hin as [->|Hin]; [congruence|done]. }
    destruct (bool_decide (d ∈ allowed)); [by eapply IH|].
    destruct (SplitHostPort d) as [[host port]|e]; [|by eexists].
    destruct (PortFromString port) as [parsedPort|e]; [|by eexists].
    by eapply IH.
Qed.

(** X21. When Guardian's policy is built, the pods' tunnel destinations
    are deduplicated: the loop appends exactly one egress rule for each
    distinct destination of the processed pod proxies, and at least one,
    also when no pod proxy is given. *)
Theorem guardian_one_rule_per_destination (cfgURL : string)
  (podProxies : list (option ProxyConfig))
  (egressRules : list (Destination P)) (allowed : gset string)
  (Hrun : run cfgURL podProxies = inl (egressRules, allowed)) :
  exists dests,
    Forall2 (fun pod d => dest cfgURL pod = inl d) (ProcessPodProxies podProxies) dests
    /\ allowed = list_to_set dests
    /\ length egressRules = size allowed
    /\ 1 <= length egressRules.
Proof.
  unfold destinationRules in Hrun.
  apply destinationLoop_spec in Hrun as (dests & added & Hall & -> & -> & Hsize).
  rewrite size_empty in Hsize. cbn [app].
  rewrite (right_id_L ∅ (∪)) in *.
  exists dests. split; [exact Hall|]. split; [reflexivity|]. split; [lia|].
  destruct dests as [|d dests].
  - apply Forall2_nil_inv_r in Hall. unfold ProcessPodProxies in Hall.
    destruct podProxies; discriminate Hall.
  - assert (size (list_to_set (d :: dests) : gset string) <> 0) as Hne.
    { apply size_non_empty_iff, (non_empty_inhabited d).
      apply elem_of_list_to_set. left. }
    lia.
Qed.

(** X22. A pod whose tunnel destination cannot be worked out (the proxy
    function or the parsing of the proxy URL fails) makes the whole
    policy fail: no rule list is returned. *)
Theorem guardian_unresolved_pod_fails (cfgURL : string)
  (podProxies : list (option ProxyConfig)) (pod : option ProxyConfig) (err : string)
  (Hpod : pod ∈ ProcessPodProxies podProxies)
  (Herr : dest cfgURL pod = inr err) :
  exists err', run cfgURL podProxies = inr err'.
Proof. by eapply destinationLoop_error. Qed.

End GuardianFacts.

Lemma guardian_one_rule_per_destination_witness :
  exists dests,
    Forall2 (fun pod d =>
               Guardian.tunnelDestination MoreSamples.viaProxy MoreSamples.hostPort
                 "mgmt:9449" pod = inl d)
      (Guardian.ProcessPodProxies MoreSamples.threePods) dests
    /\ ({[ "proxy-a" ]} ∪ ({[ "mgmt:9449" ]} ∪ ∅) : gset string) = list_to_set dests
    /\ length [Guardian.ToDomain "proxy-a" "443"; Guardian.ToDomain "mgmt:9449" "443"]
       = size ({[ "proxy-a" ]} ∪ ({[ "mgmt:9449" ]} ∪ ∅) : gset string)
    /\ 1 <= 2.
Proof.
  apply (guardian_one_rule_per_destination MoreSamples.viaProxy MoreSamples.hostPort
           MoreSamples.split443 MoreSamples.portOf MoreSamples.noIP
           "mgmt:9449" MoreSamples.threePods).
  vm_compute. reflexivity.
Defined.

Lemma guardian_unresolved_pod_fails_witness :
  exists err',
    Guardian.destinationRules MoreSamples.refusing MoreSamples.hostPort
      MoreSamples.split443 MoreSamples.portOf MoreSamples.noIP
      "mgmt:9449" MoreSamples.threePods = inr err'.
Proof.
  apply (guardian_unresolved_pod_fails MoreSamples.refusing MoreSamples.hostPort
           MoreSamples.split443 MoreSamples.portOf MoreSamples.noIP
           "mgmt:9449" MoreSamples.threePods (Some MoreSamples.proxyA)
           "invalid proxy URL").
  - left.
  - reflexivity.
Defined.
